(** * The import service of the backup manager

    A shallow embedding of [src/import/import.service.ts]: the class
    [ImportService], which replays an ordered list of prepared items against
    the management API of a target project.

    - Contracts and models of the management SDK are records holding the
      fields the service reads or sends.
    - A JavaScript promise chain is a computation in a state-and-exception
      monad [M]: the state is the [World] (the calls issued so far, the
      console, the progress callbacks invoked, the store of mutable payload
      objects); an exception leaves the state reached so far in place.
    - The target project is a response function over the history of calls,
      so every statement quantifies over every possible remote behaviour.
    - A language variant payload is an object the service writes to; it lives
      in the store and is named by its location, so that the item handed in
      and the [original] field of its result are the same object. *)

From stdpp Require Import base option list gmap strings.

Local Open Scope string_scope.
Local Open Scope list_scope.

(** ** Values of the host language *)

(** What a [throw] (or a rejected promise) carries. *)
Inductive Thrown : Type :=
| JsError (message : string)     (* Error(`...`) built by the service *)
| TypeError (message : string)   (* property read on undefined *)
| Rejected (reason : string).    (* any value a collaborator rejects with *)

(** [String(error)], as applied by [Error(error)]: an error prints as its
    name, followed by its message when it has one. *)
Definition toString (error : Thrown) : string :=
  match error with
  | JsError message =>
      if String.eqb message "" then "Error" else "Error: " +:+ message
  | TypeError message =>
      if String.eqb message "" then "TypeError" else "TypeError: " +:+ message
  | Rejected reason => reason
  end.

(** [!x] for a value that is a string or undefined. *)
Definition falsy (x : option string) : bool :=
  match x with
  | None => true
  | Some s => String.eqb s ""
  end.

(** The string a truthy value holds. *)
Definition strOf (x : option string) : string := default "" x.

(** [a === b] where [a] is a string and [b] a string or undefined. *)
Definition strictEq (a : string) (b : option string) : bool :=
  match b with
  | None => false
  | Some s => String.eqb a s
  end.

(** ** Contracts: payloads captured from the source project *)

Module SharedContracts.
Record IReferenceObjectContract : Type := {
  id : option string;
  codename : option string;
  external_id : option string
}.

Definition withId (r : IReferenceObjectContract) (i : option string) :=
  {| id := i; codename := codename r; external_id := external_id r |}.
End SharedContracts.

Module LanguageContracts.
Record ILanguageModelContract : Type := {
  id : string;
  name : string;
  codename : string;
  external_id : option string;
  is_active : bool;
  is_default : bool;
  fallback_language : option SharedContracts.IReferenceObjectContract
}.
End LanguageContracts.

Module AssetContracts.
Record IAssetModelContract : Type := {
  id : string;
  file_name : string;
  title : option string;
  type : string;
  descriptions : list (string * string);
  external_id : option string
}.
End AssetContracts.

Module ContentTypeContracts.
Record IContentTypeContract : Type := {
  id : string;
  name : string;
  codename : string;
  elements : list string
}.
End ContentTypeContracts.

Module ContentTypeSnippetContracts.
Record IContentTypeSnippetContract : Type := {
  id : string;
  name : string;
  codename : string;
  elements : list string
}.
End ContentTypeSnippetContracts.

Module TaxonomyContracts.
Record ITaxonomyContract : Type := {
  id : string;
  name : string;
  codename : string;
  terms : list string
}.
End TaxonomyContracts.

Module ContentItemContracts.
Record IContentItemModelContract : Type := {
  id : string;
  name : string;
  codename : string;
  type : SharedContracts.IReferenceObjectContract;
  external_id : option string
}.
End ContentItemContracts.

Module ElementContracts.
Record IContentItemElementContract : Type := {
  element : SharedContracts.IReferenceObjectContract;
  value : string
}.
End ElementContracts.

Module LanguageVariantContracts.
Record ILanguageVariantModelContract : Type := {
  item : SharedContracts.IReferenceObjectContract;
  language : SharedContracts.IReferenceObjectContract;
  workflow_step : SharedContracts.IReferenceObjectContract;
  elements : list ElementContracts.IContentItemElementContract
}.

(** [languageVariant.workflow_step.id = i] *)
Definition setWorkflowStepId (v : ILanguageVariantModelContract)
    (i : option string) : ILanguageVariantModelContract :=
  {| item := item v;
     language := language v;
     workflow_step := SharedContracts.withId (workflow_step v) i;
     elements := elements v |}.
End LanguageVariantContracts.

(** ** Models: what the target project answers *)

Module LanguageModels.
Record LanguageModel : Type := { id : string; name : string; codename : string }.
End LanguageModels.

Module AssetModels.
Record Asset : Type := { id : string; fileName : string }.
Record AssetFileReference : Type := { refId : string; refType : string }.
End AssetModels.

Module ContentTypeModels.
Record ContentType : Type := { id : string; name : string }.
End ContentTypeModels.

Module ContentTypeSnippetModels.
Record ContentTypeSnippet : Type := { id : string; name : string }.
End ContentTypeSnippetModels.

Module TaxonomyModels.
Record Taxonomy : Type := { id : string; name : string }.
End TaxonomyModels.

Module ContentItemModels.
Record ContentItem : Type := { id : string; name : string }.
End ContentItemModels.

Module LanguageVariantModels.
Record ContentItemLanguageVariant : Type := {
  item : SharedContracts.IReferenceObjectContract;
  language : SharedContracts.IReferenceObjectContract;
  elements : list ElementContracts.IContentItemElementContract
}.
End LanguageVariantModels.

(** ** Core types of the repository *)

(** A location in the store of language variant objects. *)
Definition loc := nat.

Module Core.
(** The payload of a prepared item.  A language variant is held by
    reference: the service edits that object. *)
Inductive ValidImportContract : Type :=
| languageContract (c : LanguageContracts.ILanguageModelContract)
| assetContract (c : AssetContracts.IAssetModelContract)
| contentTypeContract (c : ContentTypeContracts.IContentTypeContract)
| contentTypeSnippetContract (c : ContentTypeSnippetContracts.IContentTypeSnippetContract)
| taxonomyContract (c : TaxonomyContracts.ITaxonomyContract)
| contentItemContract (c : ContentItemContracts.IContentItemModelContract)
| languageVariantContract (c : loc).

(** Reading a payload as the contract of one kind. *)
Definition asLanguage (c : ValidImportContract) :=
  match c with languageContract x => Some x | _ => None end.
Definition asAsset (c : ValidImportContract) :=
  match c with assetContract x => Some x | _ => None end.
Definition asContentType (c : ValidImportContract) :=
  match c with contentTypeContract x => Some x | _ => None end.
Definition asContentTypeSnippet (c : ValidImportContract) :=
  match c with contentTypeSnippetContract x => Some x | _ => None end.
Definition asTaxonomy (c : ValidImportContract) :=
  match c with taxonomyContract x => Some x | _ => None end.
Definition asContentItem (c : ValidImportContract) :=
  match c with contentItemContract x => Some x | _ => None end.
Definition asLanguageVariant (c : ValidImportContract) :=
  match c with languageVariantContract x => Some x | _ => None end.

Inductive ValidImportModel : Type :=
| languageModel (m : LanguageModels.LanguageModel)
| assetModel (m : AssetModels.Asset)
| contentTypeModel (m : ContentTypeModels.ContentType)
| contentTypeSnippetModel (m : ContentTypeSnippetModels.ContentTypeSnippet)
| taxonomyModel (m : TaxonomyModels.Taxonomy)
| contentItemModel (m : ContentItemModels.ContentItem)
| languageVariantModel (m : LanguageVariantModels.ContentItemLanguageVariant).

(** [ItemType] is a string tag; the service compares it with [===]. *)
Definition ItemType := string.

Record IImportItemResult : Type := {
  imported : ValidImportModel;
  original : ValidImportContract;
  importId : option string;
  originalId : option string
}.

(** The argument of the progress callback. *)
Record IProcessedItem : Type := {
  data : ValidImportModel;
  title : string;
  type : ItemType
}.
End Core.

Module ImportModels.
Record IBinaryFile : Type := {
  asset : AssetContracts.IAssetModelContract;
  binaryData : string
}.

Record IPreparedImportItem : Type := {
  type : Core.ItemType;
  item : Core.ValidImportContract
}.

Record IImportData : Type := {
  orderedImportItems : list IPreparedImportItem;
  binaryFiles : list IBinaryFile
}.

Record ISkip : Type := { languages : option bool }.

Record IImportConfig : Type := {
  skip : option ISkip;
  workflowIdForImportedItems : string;
  processItem : option (Core.IProcessedItem -> option Thrown)
}.

(** The same configuration with another [skip] entry. *)
Definition withSkip (config : IImportConfig) (s : option ISkip) : IImportConfig :=
  {| skip := s;
     workflowIdForImportedItems := workflowIdForImportedItems config;
     processItem := processItem config |}.


Definition importData (items : list IPreparedImportItem)
    (files : list IBinaryFile) : IImportData :=
  {| orderedImportItems := items; binaryFiles := files |}.
End ImportModels.

(** ** The management API of the target project *)

Module ManagementApi.
Record IAddLanguageData : Type := {
  codename : string;
  name : string;
  external_id : option string;
  fallback_language : SharedContracts.IReferenceObjectContract;
  is_active : bool
}.

Record IUploadBinaryFileData : Type := {
  binaryData : string;
  contentType : string;
  filename : string
}.

Record IAddAssetData : Type := {
  descriptions : list (string * string);
  file_reference : AssetModels.AssetFileReference;
  title : option string;
  asset_external_id : option string
}.

Record IAddContentItemData : Type := {
  item_name : string;
  type : SharedContracts.IReferenceObjectContract;
  item_codename : string;
  item_external_id : option string
}.

(** One call of the client, with the data it carries. *)
Inductive Request : Type :=
| AddLanguage (data : IAddLanguageData)
| UploadBinaryFile (data : IUploadBinaryFileData)
| AddAsset (data : IAddAssetData)
| AddContentType (data : ContentTypeContracts.IContentTypeContract)
| AddContentTypeSnippet (data : ContentTypeSnippetContracts.IContentTypeSnippetContract)
| AddContentItem (data : IAddContentItemData)
| AddTaxonomy (data : TaxonomyContracts.ITaxonomyContract)
| UpsertLanguageVariant (byItemCodename byLanguageCodename : option string)
    (withElements : list ElementContracts.IContentItemElementContract).

(** The client: each operation answers from the calls received before it,
    either with the created model or with a rejection. *)
Record IManagementClient : Type := {
  addLanguage : list Request -> IAddLanguageData -> Thrown + LanguageModels.LanguageModel;
  uploadBinaryFile : list Request -> IUploadBinaryFileData -> Thrown + AssetModels.AssetFileReference;
  addAsset : list Request -> IAddAssetData -> Thrown + AssetModels.Asset;
  addContentType : list Request -> ContentTypeContracts.IContentTypeContract ->
    Thrown + ContentTypeModels.ContentType;
  addContentTypeSnippet : list Request -> ContentTypeSnippetContracts.IContentTypeSnippetContract ->
    Thrown + ContentTypeSnippetModels.ContentTypeSnippet;
  addContentItem : list Request -> IAddContentItemData -> Thrown + ContentItemModels.ContentItem;
  addTaxonomy : list Request -> TaxonomyContracts.ITaxonomyContract -> Thrown + TaxonomyModels.Taxonomy;
  upsertLanguageVariant : list Request -> option string -> option string ->
    list ElementContracts.IContentItemElementContract ->
    Thrown + LanguageVariantModels.ContentItemLanguageVariant
}.
End ManagementApi.

(** ** State and control *)

Record World : Type := {
  calls : list ManagementApi.Request;      (* remote calls issued, oldest first *)
  console : list Thrown;                   (* values passed to console.log *)
  processed : list Core.IProcessedItem;    (* arguments of the progress callback *)
  heap : gmap loc LanguageVariantContracts.ILanguageVariantModelContract
}.

(** The world after one more remote call, console line, callback, or write
    to the object at [l]. *)
Definition issued (w : World) (request : ManagementApi.Request) : World :=
  {| calls := calls w ++ [request]; console := console w;
     processed := processed w; heap := heap w |}.

Definition logged (w : World) (v : Thrown) : World :=
  {| calls := calls w; console := console w ++ [v];
     processed := processed w; heap := heap w |}.

Definition notified (w : World) (arg : Core.IProcessedItem) : World :=
  {| calls := calls w; console := console w;
     processed := processed w ++ [arg]; heap := heap w |}.

Definition written (w : World) (l : loc)
    (v : LanguageVariantContracts.ILanguageVariantModelContract) : World :=
  {| calls := calls w; console := console w; processed := processed w;
     heap := <[l := v]> (heap w) |}.

Inductive Outcome (A : Type) : Type :=
| Returned (a : A)
| Threw (e : Thrown).
Arguments Returned {A} a.
Arguments Threw {A} e.

Definition M (A : Type) : Type := World -> Outcome A * World.

Definition ret {A} (a : A) : M A := fun w => (Returned a, w).

Definition throw {A} (e : Thrown) : M A := fun w => (Threw e, w).

Definition bind {A B} (m : M A) (k : A -> M B) : M B :=
  fun w =>
    match m w with
    | (Returned a, w1) => k a w1
    | (Threw e, w1) => (Threw e, w1)
    end.

(** [promise.catch(handler)] *)
Definition catch {A} (m : M A) (handler : Thrown -> M A) : M A :=
  fun w =>
    match m w with
    | (Returned a, w1) => (Returned a, w1)
    | (Threw e, w1) => handler e w1
    end.

Notation "'let*' x ':=' m 'in' k" := (bind m (fun x => k))
  (at level 10, x name, m at level 100, k at level 200).

(** [for (const x of xs) { body }], the loop state being the local variables
    the body updates. *)
Fixpoint forOf {A S} (xs : list A) (body : A -> S -> M S) (s : S) : M S :=
  match xs with
  | [] => ret s
  | x :: rest => let* s1 := body x s in forOf rest body s1
  end.

(** [await client.op().withData(data).toPromise()] *)
Definition call {R} (request : ManagementApi.Request)
    (answer : list ManagementApi.Request -> Thrown + R) : M R :=
  fun w =>
    match answer (calls w) with
    | inl e => (Threw e, issued w request)
    | inr r => (Returned r, issued w request)
    end.

Definition consoleLog (v : Thrown) : M unit :=
  fun w => (Returned tt, logged w v).

(** Reading a property of [x], which may be undefined. *)
Definition prop {A} (x : option A) (name : string) : M A :=
  match x with
  | Some a => ret a
  | None => throw (TypeError ("Cannot read properties of undefined (reading '" +:+ name +:+ "')"))
  end.

(** The object a language variant reference points to. *)
Definition deref (l : loc) (name : string) : M LanguageVariantContracts.ILanguageVariantModelContract :=
  fun w => prop (heap w !! l) name w.

(** An in-place edit of the object at [l]; the edit may itself throw after
    writing. *)
Definition update (l : loc) (name : string)
    (f : LanguageVariantContracts.ILanguageVariantModelContract ->
         LanguageVariantContracts.ILanguageVariantModelContract * option Thrown) : M unit :=
  let* v := deref l name in
  fun w =>
    match snd (f v) with
    | None => (Returned tt, written w l (fst (f v)))
    | Some e => (Threw e, written w l (fst (f v)))
    end.

(** ** The service *)

Module ImportService.

(** The identifier the platform reserves for "no fallback language". *)
Definition noFallbackLanguageId : string := "00000000-0000-0000-0000-000000000000".

Definition result (imported : Core.ValidImportModel) (original : Core.ValidImportContract)
    (importId originalId : option string) : Core.IImportItemResult :=
  {| Core.imported := imported; Core.original := original;
     Core.importId := importId; Core.originalId := originalId |}.

(** [item.item] is typed [any]; each importer reads it as the contract of its
    own kind, and [prepareImportData] pairs every tag with a payload of that
    kind.  The code makes no check of the kind: handed any other pairing it
    would go on reading fields the payload does not have.  The embedding does
    not follow it there; it stops with a [TypeError] of its own, so what is
    proved below about a payload of the wrong kind says nothing of the code. *)
Definition cast {A} (x : option A) : M A :=
  match x with
  | Some a => ret a
  | None => throw (TypeError "payload of another kind")
  end.

Section Service.

Context (config : ImportModels.IImportConfig).
Context (client : ManagementApi.IManagementClient).

(** [idTranslateHelper.replaceIdReferencesWithNewId(data, items)] comes from
    [core], which is not part of the sources at hand.  The service discards
    what it returns, so all it does is edit [data] in place, or throw. *)
Context (replaceIdReferencesWithNewId :
  LanguageVariantContracts.ILanguageVariantModelContract ->
  list Core.IImportItemResult ->
  LanguageVariantContracts.ILanguageVariantModelContract * option Thrown).

Definition handleImportError {A} (error : Thrown) : M A :=
  let* _ := consoleLog error in
  throw (JsError (toString error)).

Definition processItem (title : string) (type : Core.ItemType)
    (data : Core.ValidImportModel) : M unit :=
  match ImportModels.processItem config with
  | None => ret tt
  | Some callback =>
      fun w =>
        let arg := {| Core.data := data; Core.title := title; Core.type := type |} in
        match callback arg with
        | None => (Returned tt, notified w arg)
        | Some e => (Threw e, notified w arg)
        end
  end.

Definition importLanguagesAsync (languages : list LanguageContracts.ILanguageModelContract)
    : M (list Core.IImportItemResult) :=
  forOf languages (fun language importedItems =>
    let* fallback_language := prop (LanguageContracts.fallback_language language) "codename" in
    let fallbackLanguageCodename := SharedContracts.codename fallback_language in
    if falsy fallbackLanguageCodename then
      throw (JsError ("Langauge '" +:+ LanguageContracts.name language +:+ "' has unset codename"))
    else
      let data :=
        {| ManagementApi.codename := LanguageContracts.codename language;
           ManagementApi.name := LanguageContracts.name language;
           ManagementApi.external_id := LanguageContracts.external_id language;
           ManagementApi.fallback_language :=
             if strictEq (LanguageContracts.codename language) fallbackLanguageCodename
             then {| SharedContracts.id := Some noFallbackLanguageId;
                     SharedContracts.codename := None;
                     SharedContracts.external_id := None |}
             else {| SharedContracts.id := None;
                     SharedContracts.codename := fallbackLanguageCodename;
                     SharedContracts.external_id := None |};
           ManagementApi.is_active := LanguageContracts.is_active language |} in
      catch
        (let* response := call (ManagementApi.AddLanguage data)
                               (fun history => ManagementApi.addLanguage client history data) in
         let importedItems := importedItems ++
           [result (Core.languageModel response) (Core.languageContract language)
                   (Some (LanguageModels.id response)) (Some (LanguageContracts.id language))] in
         let* _ := processItem (LanguageModels.name response) "language"
                               (Core.languageModel response) in
         ret importedItems)
        handleImportError) [].

(** [binaryFiles.find(m => m.asset.id === asset.id)] *)
Definition findBinaryFile (binaryFiles : list ImportModels.IBinaryFile)
    (asset : AssetContracts.IAssetModelContract) : option ImportModels.IBinaryFile :=
  List.find (fun m => String.eqb (AssetContracts.id (ImportModels.asset m))
                                 (AssetContracts.id asset)) binaryFiles.

Definition importAssetsAsync (assets : list AssetContracts.IAssetModelContract)
    (binaryFiles : list ImportModels.IBinaryFile) : M (list Core.IImportItemResult) :=
  forOf assets (fun asset importedItems =>
    match findBinaryFile binaryFiles asset with
    | None =>
        throw (JsError ("Could not find binary file for asset with id '"
                        +:+ AssetContracts.id asset +:+ "'"))
    | Some binaryFile =>
        let upload :=
          {| ManagementApi.binaryData := ImportModels.binaryData binaryFile;
             ManagementApi.contentType := AssetContracts.type asset;
             ManagementApi.filename := AssetContracts.file_name asset |} in
        let* uploadedBinaryFile :=
          call (ManagementApi.UploadBinaryFile upload)
               (fun history => ManagementApi.uploadBinaryFile client history upload) in
        let data :=
          {| ManagementApi.descriptions := AssetContracts.descriptions asset;
             ManagementApi.file_reference := uploadedBinaryFile;
             ManagementApi.title := AssetContracts.title asset;
             ManagementApi.asset_external_id := AssetContracts.external_id asset |} in
        catch
          (let* response := call (ManagementApi.AddAsset data)
                                 (fun history => ManagementApi.addAsset client history data) in
           let importedItems := importedItems ++
             [result (Core.assetModel response) (Core.assetContract asset)
                     (Some (AssetModels.id response)) (Some (AssetContracts.id asset))] in
           let* _ := processItem (AssetModels.fileName response) "asset"
                                 (Core.assetModel response) in
           ret importedItems)
          handleImportError
    end) [].

Definition importContentTypesAsync (contentTypes : list ContentTypeContracts.IContentTypeContract)
    : M (list Core.IImportItemResult) :=
  forOf contentTypes (fun contentType importedItems =>
    catch
      (let* response := call (ManagementApi.AddContentType contentType)
                             (fun history => ManagementApi.addContentType client history contentType) in
       let importedItems := importedItems ++
         [result (Core.contentTypeModel response) (Core.contentTypeContract contentType)
                 (Some (ContentTypeModels.id response))
                 (Some (ContentTypeContracts.id contentType))] in
       let* _ := processItem (ContentTypeModels.name response) "contentType"
                             (Core.contentTypeModel response) in
       ret importedItems)
      handleImportError) [].

Definition importContentItemAsync (contentItems : list ContentItemContracts.IContentItemModelContract)
    : M (list Core.IImportItemResult) :=
  forOf contentItems (fun contentItem importedItems =>
    let typeCodename := SharedContracts.codename (ContentItemContracts.type contentItem) in
    if falsy typeCodename then
      throw (JsError ("Content item '" +:+ ContentItemContracts.codename contentItem
                      +:+ "' has unset type codename"))
    else
      let data :=
        {| ManagementApi.item_name := ContentItemContracts.name contentItem;
           ManagementApi.type := {| SharedContracts.id := None;
                                    SharedContracts.codename := typeCodename;
                                    SharedContracts.external_id := None |};
           ManagementApi.item_codename := ContentItemContracts.codename contentItem;
           ManagementApi.item_external_id := ContentItemContracts.external_id contentItem |} in
      catch
        (let* response := call (ManagementApi.AddContentItem data)
                               (fun history => ManagementApi.addContentItem client history data) in
         let importedItems := importedItems ++
           [result (Core.contentItemModel response) (Core.contentItemContract contentItem)
                   (Some (ContentItemModels.id response))
                   (Some (ContentItemContracts.id contentItem))] in
         let* _ := processItem (ContentItemModels.name response) "contentItem"
                               (Core.contentItemModel response) in
         ret importedItems)
        handleImportError) [].

Definition importLanguageVariantsAsync (languageVariants : list loc)
    (currentItems : list Core.IImportItemResult) : M (list Core.IImportItemResult) :=
  forOf languageVariants (fun languageVariant importedItems =>
    let* before := deref languageVariant "item" in
    let itemCodename := SharedContracts.codename (LanguageVariantContracts.item before) in
    let languageCodename := SharedContracts.codename (LanguageVariantContracts.language before) in
    if falsy itemCodename then
      throw (JsError "Missing item codename for item")
    else if falsy languageCodename then
      throw (JsError "Missing language codename for item")
    else
      (* replace ids in assets with new ones *)
      let* _ := update languageVariant "item"
                  (fun v => replaceIdReferencesWithNewId v currentItems) in
      (* set workflow id *)
      let* _ := update languageVariant "workflow_step"
                  (fun v => (LanguageVariantContracts.setWorkflowStepId v
                               (Some (ImportModels.workflowIdForImportedItems config)), None)) in
      (* the object as it now stands: [elements] is read for the request and
         [item.id] when the result is built; nothing writes in between *)
      let* submitted := deref languageVariant "elements" in
      catch
        (let* response :=
           call (ManagementApi.UpsertLanguageVariant itemCodename languageCodename
                   (LanguageVariantContracts.elements submitted))
                (fun history => ManagementApi.upsertLanguageVariant client history
                   itemCodename languageCodename
                   (LanguageVariantContracts.elements submitted)) in
         let importedItems := importedItems ++
           [result (Core.languageVariantModel response)
                   (Core.languageVariantContract languageVariant)
                   (SharedContracts.id (LanguageVariantModels.item response))
                   (SharedContracts.id (LanguageVariantContracts.item submitted))] in
         let* _ := processItem (strOf itemCodename +:+ " (" +:+ strOf languageCodename +:+ ")")
                               "languageVariant" (Core.languageVariantModel response) in
         ret importedItems)
        handleImportError) [].

Definition importContentTypeSnippetsAsync
    (contentTypeSnippets : list ContentTypeSnippetContracts.IContentTypeSnippetContract)
    : M (list Core.IImportItemResult) :=
  forOf contentTypeSnippets (fun contentTypeSnippet importedContentTypeSnippets =>
    catch
      (let* response :=
         call (ManagementApi.AddContentTypeSnippet contentTypeSnippet)
              (fun history => ManagementApi.addContentTypeSnippet client history contentTypeSnippet) in
       let importedContentTypeSnippets := importedContentTypeSnippets ++
         [result (Core.contentTypeSnippetModel response)
                 (Core.contentTypeSnippetContract contentTypeSnippet)
                 (Some (ContentTypeSnippetModels.id response))
                 (Some (ContentTypeSnippetContracts.id contentTypeSnippet))] in
       let* _ := processItem (ContentTypeSnippetModels.name response) "contentTypeSnippet"
                             (Core.contentTypeSnippetModel response) in
       ret importedContentTypeSnippets)
      handleImportError) [].

Definition importTaxonomiesAsync (taxonomies : list TaxonomyContracts.ITaxonomyContract)
    : M (list Core.IImportItemResult) :=
  forOf taxonomies (fun taxonomy importedItems =>
    catch
      (let* response := call (ManagementApi.AddTaxonomy taxonomy)
                             (fun history => ManagementApi.addTaxonomy client history taxonomy) in
       let importedItems := importedItems ++
         [result (Core.taxonomyModel response) (Core.taxonomyContract taxonomy)
                 (Some (TaxonomyModels.id response)) (Some (TaxonomyContracts.id taxonomy))] in
       let* _ := processItem (TaxonomyModels.name response) "taxonomy"
                             (Core.taxonomyModel response) in
       ret importedItems)
      handleImportError) [].

(** [this.config.skip?.languages === true] *)
Definition skipLanguages : bool :=
  match ImportModels.skip config with
  | Some skip =>
      match ImportModels.languages skip with
      | Some true => true
      | _ => false
      end
  | None => false
  end.

Definition importItemAsync (item : ImportModels.IPreparedImportItem)
    (binaryFiles : list ImportModels.IBinaryFile)
    (currentItems : list Core.IImportItemResult) : M (list Core.IImportItemResult) :=
  let payload := ImportModels.item item in
  if String.eqb (ImportModels.type item) "contentType" then
    let* c := cast (Core.asContentType payload) in importContentTypesAsync [c]
  else if String.eqb (ImportModels.type item) "taxonomy" then
    let* c := cast (Core.asTaxonomy payload) in importTaxonomiesAsync [c]
  else if String.eqb (ImportModels.type item) "contentTypeSnippet" then
    let* c := cast (Core.asContentTypeSnippet payload) in importContentTypeSnippetsAsync [c]
  else if String.eqb (ImportModels.type item) "contentItem" then
    let* c := cast (Core.asContentItem payload) in importContentItemAsync [c]
  else if String.eqb (ImportModels.type item) "languageVariant" then
    let* c := cast (Core.asLanguageVariant payload) in importLanguageVariantsAsync [c] currentItems
  else if String.eqb (ImportModels.type item) "language" then
    if skipLanguages then ret []
    else let* c := cast (Core.asLanguage payload) in importLanguagesAsync [c]
  else if String.eqb (ImportModels.type item) "asset" then
    let* c := cast (Core.asAsset payload) in importAssetsAsync [c] binaryFiles
  else
    throw (JsError ("Not supported import data type '" +:+ ImportModels.type item +:+ "'")).

Definition importAsync (importData : ImportModels.IImportData)
    : M (list Core.IImportItemResult) :=
  forOf (ImportModels.orderedImportItems importData) (fun item importedItems =>
    let* importedItem := importItemAsync item (ImportModels.binaryFiles importData)
                                         importedItems in
    ret (importedItems ++ importedItem)) [].

End Service.

End ImportService.

(** ** Vocabulary of the statements *)

Module Spec.

(** The seven kinds the service imports. *)
Definition supportedItemTypes : list Core.ItemType :=
  ["contentType"; "taxonomy"; "contentTypeSnippet"; "contentItem";
   "languageVariant"; "language"; "asset"].

(** The display title of an imported entity: its name in the target project,
    the file name for an asset, and for a language variant the codenames of
    its item and language as the payload at [original] had them in [w]. *)
Definition displayTitle (w : World) (r : Core.IImportItemResult) : string :=
  match Core.imported r with
  | Core.languageModel m => LanguageModels.name m
  | Core.assetModel m => AssetModels.fileName m
  | Core.contentTypeModel m => ContentTypeModels.name m
  | Core.contentTypeSnippetModel m => ContentTypeSnippetModels.name m
  | Core.taxonomyModel m => TaxonomyModels.name m
  | Core.contentItemModel m => ContentItemModels.name m
  | Core.languageVariantModel m =>
      match Core.original r with
      | Core.languageVariantContract l =>
          match heap w !! l with
          | Some v =>
              strOf (SharedContracts.codename (LanguageVariantContracts.item v)) +:+ " (" +:+
              strOf (SharedContracts.codename (LanguageVariantContracts.language v)) +:+ ")"
          | None => ""
          end
      | _ => ""
      end
  end.

(** What the progress callback is told about one result of [item]. *)
Definition progressReport (w : World) (item : ImportModels.IPreparedImportItem)
    (r : Core.IImportItemResult) : Core.IProcessedItem :=
  {| Core.data := Core.imported r;
     Core.title := displayTitle w r;
     Core.type := ImportModels.type item |}.

(** The reports a configuration delivers: none without a callback. *)
Definition reported (config : ImportModels.IImportConfig)
    (reports : list Core.IProcessedItem) : list Core.IProcessedItem :=
  match ImportModels.processItem config with
  | Some _ => reports
  | None => []
  end.

(** One create step in normal form.  The call is issued.  A rejection is
    logged and rethrown wrapped in a new error.  An answer becomes a result
    and is reported to the callback, if there is one; a callback that throws
    is treated like a rejection; otherwise the result joins the list. *)
Definition createStep {R} (config : ImportModels.IImportConfig)
    (request : ManagementApi.Request) (answer : Thrown + R)
    (mk : R -> Core.IImportItemResult) (report : R -> Core.IProcessedItem)
    (importedItems : list Core.IImportItemResult) (w : World)
    : Outcome (list Core.IImportItemResult) * World :=
  match answer with
  | inl e => (Threw (JsError (toString e)), logged (issued w request) e)
  | inr response =>
      match ImportModels.processItem config with
      | None => (Returned (importedItems ++ [mk response]), issued w request)
      | Some callback =>
          match callback (report response) with
          | None => (Returned (importedItems ++ [mk response]),
                     notified (issued w request) (report response))
          | Some e => (Threw (JsError (toString e)),
                       logged (notified (issued w request) (report response)) e)
          end
      end
  end.

End Spec.

(** ** A concrete project to run the service on *)

Module Fixtures.

(** A target project that accepts every call and names what it creates
    after what it was sent. *)
Definition acceptAll : ManagementApi.IManagementClient :=
  {| ManagementApi.addLanguage := fun _ d =>
       inr {| LanguageModels.id := "new-" +:+ ManagementApi.codename d;
              LanguageModels.name := ManagementApi.name d;
              LanguageModels.codename := ManagementApi.codename d |};
     ManagementApi.uploadBinaryFile := fun _ d =>
       inr {| AssetModels.refId := "file-" +:+ ManagementApi.filename d;
              AssetModels.refType := "internal" |};
     ManagementApi.addAsset := fun _ d =>
       inr {| AssetModels.id := "new-" +:+ AssetModels.refId (ManagementApi.file_reference d);
              AssetModels.fileName := AssetModels.refId (ManagementApi.file_reference d) |};
     ManagementApi.addContentType := fun _ d =>
       inr {| ContentTypeModels.id := "new-" +:+ ContentTypeContracts.codename d;
              ContentTypeModels.name := ContentTypeContracts.name d |};
     ManagementApi.addContentTypeSnippet := fun _ d =>
       inr {| ContentTypeSnippetModels.id := "new-" +:+ ContentTypeSnippetContracts.codename d;
              ContentTypeSnippetModels.name := ContentTypeSnippetContracts.name d |};
     ManagementApi.addContentItem := fun _ d =>
       inr {| ContentItemModels.id := "new-" +:+ ManagementApi.item_codename d;
              ContentItemModels.name := ManagementApi.item_name d |};
     ManagementApi.addTaxonomy := fun _ d =>
       inr {| TaxonomyModels.id := "new-" +:+ TaxonomyContracts.codename d;
              TaxonomyModels.name := TaxonomyContracts.name d |};
     ManagementApi.upsertLanguageVariant := fun _ i l es =>
       inr {| LanguageVariantModels.item :=
                {| SharedContracts.id := Some ("new-" +:+ strOf i);
                   SharedContracts.codename := i; SharedContracts.external_id := None |};
              LanguageVariantModels.language :=
                {| SharedContracts.id := None; SharedContracts.codename := l;
                   SharedContracts.external_id := None |};
              LanguageVariantModels.elements := es |} |}.

(** A rewriter that finds nothing to replace. *)
Definition keepIds (v : LanguageVariantContracts.ILanguageVariantModelContract)
    (items : list Core.IImportItemResult) :
    LanguageVariantContracts.ILanguageVariantModelContract * option Thrown := (v, None).

Definition quiet : option Thrown := None.

Definition config : ImportModels.IImportConfig :=
  {| ImportModels.skip := None;
     ImportModels.workflowIdForImportedItems := "step-published";
     ImportModels.processItem := Some (fun _ => quiet) |}.

Definition configSkippingLanguages : ImportModels.IImportConfig :=
  {| ImportModels.skip := Some {| ImportModels.languages := Some true |};
     ImportModels.workflowIdForImportedItems := "step-published";
     ImportModels.processItem := Some (fun _ => quiet) |}.

Definition byCodename (c : string) : SharedContracts.IReferenceObjectContract :=
  {| SharedContracts.id := None; SharedContracts.codename := Some c;
     SharedContracts.external_id := None |}.

Definition byId (i : string) : SharedContracts.IReferenceObjectContract :=
  {| SharedContracts.id := Some i; SharedContracts.codename := None;
     SharedContracts.external_id := None |}.

Definition english : LanguageContracts.ILanguageModelContract :=
  {| LanguageContracts.id := "l1"; LanguageContracts.name := "English";
     LanguageContracts.codename := "en"; LanguageContracts.external_id := None;
     LanguageContracts.is_active := true; LanguageContracts.is_default := true;
     LanguageContracts.fallback_language := Some (byCodename "en") |}.

Definition czech : LanguageContracts.ILanguageModelContract :=
  {| LanguageContracts.id := "l2"; LanguageContracts.name := "Czech";
     LanguageContracts.codename := "cz"; LanguageContracts.external_id := None;
     LanguageContracts.is_active := true; LanguageContracts.is_default := false;
     LanguageContracts.fallback_language := Some (byCodename "en") |}.

Definition article : ContentTypeContracts.IContentTypeContract :=
  {| ContentTypeContracts.id := "ct1"; ContentTypeContracts.name := "Article";
     ContentTypeContracts.codename := "article"; ContentTypeContracts.elements := ["body"] |}.

Definition topics : TaxonomyContracts.ITaxonomyContract :=
  {| TaxonomyContracts.id := "t1"; TaxonomyContracts.name := "Topics";
     TaxonomyContracts.codename := "topics"; TaxonomyContracts.terms := ["news"] |}.

Definition home : ContentItemContracts.IContentItemModelContract :=
  {| ContentItemContracts.id := "i1"; ContentItemContracts.name := "Home";
     ContentItemContracts.codename := "home";
     ContentItemContracts.type :=
       {| SharedContracts.id := Some "ct1"; SharedContracts.codename := Some "article";
          SharedContracts.external_id := None |};
     ContentItemContracts.external_id := None |}.

(** A content item whose type carries an id but no codename. *)
Definition orphan : ContentItemContracts.IContentItemModelContract :=
  {| ContentItemContracts.id := "i2"; ContentItemContracts.name := "Orphan";
     ContentItemContracts.codename := "orphan";
     ContentItemContracts.type := byId "ct9";
     ContentItemContracts.external_id := None |}.

Definition about : ContentItemContracts.IContentItemModelContract :=
  {| ContentItemContracts.id := "i3"; ContentItemContracts.name := "About";
     ContentItemContracts.codename := "about";
     ContentItemContracts.type := byCodename "article";
     ContentItemContracts.external_id := None |}.

Definition logo : AssetContracts.IAssetModelContract :=
  {| AssetContracts.id := "a1"; AssetContracts.file_name := "logo.png";
     AssetContracts.title := Some "Logo"; AssetContracts.type := "image/png";
     AssetContracts.descriptions := []; AssetContracts.external_id := None |}.

Definition logoFile : ImportModels.IBinaryFile :=
  {| ImportModels.asset := logo; ImportModels.binaryData := "PNG" |}.

Definition homeEnglish : LanguageVariantContracts.ILanguageVariantModelContract :=
  {| LanguageVariantContracts.item :=
       {| SharedContracts.id := Some "i1"; SharedContracts.codename := Some "home";
          SharedContracts.external_id := None |};
     LanguageVariantContracts.language :=
       {| SharedContracts.id := Some "l1"; SharedContracts.codename := Some "en";
          SharedContracts.external_id := None |};
     LanguageVariantContracts.workflow_step := byId "step-of-source";
     LanguageVariantContracts.elements :=
       [ {| ElementContracts.element := byId "e1"; ElementContracts.value := "Welcome" |} ] |}.

(** A variant whose language is known by id only. *)
Definition homeUntranslated : LanguageVariantContracts.ILanguageVariantModelContract :=
  {| LanguageVariantContracts.item :=
       {| SharedContracts.id := Some "i1"; SharedContracts.codename := Some "home";
          SharedContracts.external_id := None |};
     LanguageVariantContracts.language := byId "l9";
     LanguageVariantContracts.workflow_step := byId "step-of-source";
     LanguageVariantContracts.elements := [] |}.

Definition prepared (type : string) (payload : Core.ValidImportContract) :=
  {| ImportModels.type := type; ImportModels.item := payload |}.

(** Nothing called or logged yet; the store holds [homeEnglish] at location 0
    and [homeUntranslated] at location 1. *)
Definition start : World :=
  {| calls := []; console := []; processed := [];
     heap := {[ 0 := homeEnglish; 1 := homeUntranslated ]} |}.

Definition topicsItem := prepared "taxonomy" (Core.taxonomyContract topics).
Definition articleItem := prepared "contentType" (Core.contentTypeContract article).
Definition orphanItem := prepared "contentItem" (Core.contentItemContract orphan).
Definition aboutItem := prepared "contentItem" (Core.contentItemContract about).
Definition englishItem := prepared "language" (Core.languageContract english).
Definition homeEnglishItem := prepared "languageVariant" (Core.languageVariantContract 0).

(** A kind the export knows and the import does not. *)
Definition folderItem := prepared "assetFolder" (Core.taxonomyContract topics).

(** Two items that import, then one that cannot, then one that could. *)
Definition brokenRun : ImportModels.IImportData :=
  ImportModels.importData [topicsItem; articleItem; orphanItem; aboutItem] [].

(** What the two items before [orphan] produce against [acceptAll]. *)
Definition completedBeforeOrphan : list Core.IImportItemResult :=
  [ ImportService.result
      (Core.taxonomyModel {| TaxonomyModels.id := "new-topics"; TaxonomyModels.name := "Topics" |})
      (Core.taxonomyContract topics) (Some "new-topics") (Some "t1");
    ImportService.result
      (Core.contentTypeModel {| ContentTypeModels.id := "new-article";
                                ContentTypeModels.name := "Article" |})
      (Core.contentTypeContract article) (Some "new-article") (Some "ct1") ].

End Fixtures.

(** ** Vocabulary of the further statements *)

Module Results.

(** The id the target project gave an imported model; for a language
    variant, the id of its item. *)
Definition modelId (m : Core.ValidImportModel) : option string :=
  match m with
  | Core.languageModel m => Some (LanguageModels.id m)
  | Core.assetModel m => Some (AssetModels.id m)
  | Core.contentTypeModel m => Some (ContentTypeModels.id m)
  | Core.contentTypeSnippetModel m => Some (ContentTypeSnippetModels.id m)
  | Core.taxonomyModel m => Some (TaxonomyModels.id m)
  | Core.contentItemModel m => Some (ContentItemModels.id m)
  | Core.languageVariantModel m => SharedContracts.id (LanguageVariantModels.item m)
  end.

(** The id a result records for its original.  For a language variant it is
    the item id the payload object holds once its references are rewritten. *)
Definition recordedId
    (rewrite_ids : LanguageVariantContracts.ILanguageVariantModelContract ->
                   list Core.IImportItemResult ->
                   LanguageVariantContracts.ILanguageVariantModelContract * option Thrown)
    (currentItems : list Core.IImportItemResult) (w : World)
    (c : Core.ValidImportContract) : option string :=
  match c with
  | Core.languageContract c => Some (LanguageContracts.id c)
  | Core.assetContract c => Some (AssetContracts.id c)
  | Core.contentTypeContract c => Some (ContentTypeContracts.id c)
  | Core.contentTypeSnippetContract c => Some (ContentTypeSnippetContracts.id c)
  | Core.taxonomyContract c => Some (TaxonomyContracts.id c)
  | Core.contentItemContract c => Some (ContentItemContracts.id c)
  | Core.languageVariantContract l =>
      match heap w !! l with
      | Some payload =>
          SharedContracts.id
            (LanguageVariantContracts.item (fst (rewrite_ids payload currentItems)))
      | None => None
      end
  end.

(** Whether the service passes over an item: a language one, when
    [skip.languages] is set to true. *)
Definition passedOver (config : ImportModels.IImportConfig)
    (item : ImportModels.IPreparedImportItem) : bool :=
  String.eqb (ImportModels.type item) "language" && ImportService.skipLanguages config.

(** A create whose answer is a model and whose report the progress callback,
    if there is one, takes without throwing. *)
Definition succeeds {R} (config : ImportModels.IImportConfig) (answer : Thrown + R)
    (report : R -> Core.IProcessedItem) : Prop :=
  exists response,
    answer = inr response /\
    forall callback, ImportModels.processItem config = Some callback ->
      callback (report response) = None.

(** A create that is rejected with [cause], or whose report makes the
    progress callback throw [cause]. *)
Definition fails {R} (config : ImportModels.IImportConfig) (answer : Thrown + R)
    (report : R -> Core.IProcessedItem) (cause : Thrown) : Prop :=
  answer = inl cause \/
  exists response callback,
    answer = inr response /\
    ImportModels.processItem config = Some callback /\
    callback (report response) = Some cause.

End Results.

(** * The clean service

    A shallow embedding of [src/clean/clean.service.ts]: the class
    [CleanService], which lists what the target project holds and deletes
    it, kind by kind.  It talks to the same management API through other
    operations, and has a world of its own. *)

Module AssetFolderModels.
Record AssetFolder : Type := { id : string; name : string }.

Record IModifyAssetFoldersData : Type := {
  op : string;
  reference : SharedContracts.IReferenceObjectContract
}.
End AssetFolderModels.

Module CleanModels.
(** What is handed to the progress callback as [data]: the listed model. *)
Inductive Cleaned : Type :=
| taxonomy (m : TaxonomyModels.Taxonomy)
| contentTypeSnippet (m : ContentTypeSnippetModels.ContentTypeSnippet)
| contentType (m : ContentTypeModels.ContentType)
| asset (m : AssetModels.Asset)
| assetFolder (m : AssetFolderModels.AssetFolder)
| contentItem (m : ContentItemModels.ContentItem)
| languageVariant (m : LanguageVariantModels.ContentItemLanguageVariant).

Record IProcessedItem : Type := {
  data : Cleaned;
  title : string;
  type : Core.ItemType
}.

Record ICleanConfig : Type := {
  projectId : string;
  apiKey : string;
  processItem : option (IProcessedItem -> option Thrown)
}.

Record ICleanMetadata : Type := {
  metadataProjectId : string;
  timestamp : nat
}.

Record ICleanResult : Type := { metadata : ICleanMetadata }.
End CleanModels.

Module CleanApi.
(** One call of the client, with what it is addressed by. *)
Inductive Request : Type :=
| ListTaxonomies
| ListContentTypeSnippets
| ListContentTypes
| ListAssets
| ListAssetFolders
| ListContentItems
| ListLanguageVariantsOfItem (byItemId : string)
| DeleteTaxonomy (byTaxonomyId : string)
| DeleteContentTypeSnippet (byTypeId : string)
| DeleteContentType (byTypeId : string)
| DeleteAsset (byAssetId : string)
| ModifyAssetFolders (withData : list AssetFolderModels.IModifyAssetFoldersData)
| DeleteContentItem (byItemId : string)
| DeleteLanguageVariant (byItemId : string) (byLanguageId : option string).

(** The client: each operation answers from the calls received before it. *)
Record IManagementClient : Type := {
  listTaxonomies : list Request -> Thrown + list TaxonomyModels.Taxonomy;
  listContentTypeSnippets : list Request ->
    Thrown + list ContentTypeSnippetModels.ContentTypeSnippet;
  listContentTypes : list Request -> Thrown + list ContentTypeModels.ContentType;
  listAssets : list Request -> Thrown + list AssetModels.Asset;
  listAssetFolders : list Request -> Thrown + list AssetFolderModels.AssetFolder;
  listContentItems : list Request -> Thrown + list ContentItemModels.ContentItem;
  listLanguageVariantsOfItem : list Request -> string ->
    Thrown + list LanguageVariantModels.ContentItemLanguageVariant;
  deleteTaxonomy : list Request -> string -> Thrown + unit;
  deleteContentTypeSnippet : list Request -> string -> Thrown + unit;
  deleteContentType : list Request -> string -> Thrown + unit;
  deleteAsset : list Request -> string -> Thrown + unit;
  modifyAssetFolders : list Request -> list AssetFolderModels.IModifyAssetFoldersData ->
    Thrown + unit;
  deleteContentItem : list Request -> string -> Thrown + unit;
  deleteLanguageVariant : list Request -> string -> option string -> Thrown + unit
}.
End CleanApi.

Module Clean.

Record World : Type := {
  calls : list CleanApi.Request;             (* remote calls issued, oldest first *)
  console : list Thrown;                     (* values passed to console.log *)
  processed : list CleanModels.IProcessedItem  (* arguments of the progress callback *)
}.

Definition issued (w : World) (request : CleanApi.Request) : World :=
  {| calls := calls w ++ [request]; console := console w; processed := processed w |}.

Definition logged (w : World) (v : Thrown) : World :=
  {| calls := calls w; console := console w ++ [v]; processed := processed w |}.

Definition notified (w : World) (arg : CleanModels.IProcessedItem) : World :=
  {| calls := calls w; console := console w; processed := processed w ++ [arg] |}.

Definition M (A : Type) : Type := World -> Outcome A * World.

Definition ret {A} (a : A) : M A := fun w => (Returned a, w).

Definition throw {A} (e : Thrown) : M A := fun w => (Threw e, w).

Definition bind {A B} (m : M A) (k : A -> M B) : M B :=
  fun w =>
    match m w with
    | (Returned a, w1) => k a w1
    | (Threw e, w1) => (Threw e, w1)
    end.

(** [promise.catch(handler)] and [try { } catch (err) { }] *)
Definition catch {A} (m : M A) (handler : Thrown -> M A) : M A :=
  fun w =>
    match m w with
    | (Returned a, w1) => (Returned a, w1)
    | (Threw e, w1) => handler e w1
    end.

(** [await client.op().toPromise()] *)
Definition call {R} (request : CleanApi.Request)
    (answer : list CleanApi.Request -> Thrown + R) : M R :=
  fun w =>
    match answer (calls w) with
    | inl e => (Threw e, issued w request)
    | inr r => (Returned r, issued w request)
    end.

Definition consoleLog (v : Thrown) : M unit :=
  fun w => (Returned tt, logged w v).

End Clean.

Notation "'let+' x ':=' m 'in' k" := (Clean.bind m (fun x => k))
  (at level 10, x name, m at level 100, k at level 200).

Module CleanService.

(** [for (const x of xs) { body }] *)
Fixpoint forOf {A} (xs : list A) (body : A -> Clean.M unit) : Clean.M unit :=
  match xs with
  | [] => Clean.ret tt
  | x :: rest => let+ _ := body x in forOf rest body
  end.

Section Service.

Context (config : CleanModels.ICleanConfig).
Context (client : CleanApi.IManagementClient).

(** What [new Date()] reads when the result is built. *)
Context (now : nat).

Definition handleCleanError (error : Thrown) : Clean.M unit :=
  Clean.consoleLog error.

Definition processItem (title : string) (type : Core.ItemType)
    (data : CleanModels.Cleaned) : Clean.M unit :=
  match CleanModels.processItem config with
  | None => Clean.ret tt
  | Some callback =>
      fun w =>
        let arg := {| CleanModels.data := data; CleanModels.title := title;
                      CleanModels.type := type |} in
        match callback arg with
        | None => (Returned tt, Clean.notified w arg)
        | Some e => (Threw e, Clean.notified w arg)
        end
  end.

Definition cleanTaxonomiesAsync : Clean.M unit :=
  let+ taxonomies := Clean.call CleanApi.ListTaxonomies (CleanApi.listTaxonomies client) in
  forOf taxonomies (fun taxonomy =>
    Clean.catch
      (let+ m := Clean.call (CleanApi.DeleteTaxonomy (TaxonomyModels.id taxonomy))
                   (fun history => CleanApi.deleteTaxonomy client history
                                     (TaxonomyModels.id taxonomy)) in
       processItem (TaxonomyModels.name taxonomy) "taxonomy" (CleanModels.taxonomy taxonomy))
      handleCleanError).

Definition cleanContentTypeSnippetsAsync : Clean.M unit :=
  let+ contentTypeSnippets :=
    Clean.call CleanApi.ListContentTypeSnippets (CleanApi.listContentTypeSnippets client) in
  forOf contentTypeSnippets (fun contentTypeSnippet =>
    Clean.catch
      (let+ m := Clean.call
                   (CleanApi.DeleteContentTypeSnippet
                      (ContentTypeSnippetModels.id contentTypeSnippet))
                   (fun history => CleanApi.deleteContentTypeSnippet client history
                                     (ContentTypeSnippetModels.id contentTypeSnippet)) in
       processItem (ContentTypeSnippetModels.name contentTypeSnippet) "contentTypeSnippet"
         (CleanModels.contentTypeSnippet contentTypeSnippet))
      handleCleanError).

Definition cleanContentTypesAsync : Clean.M unit :=
  let+ contentTypes :=
    Clean.call CleanApi.ListContentTypes (CleanApi.listContentTypes client) in
  forOf contentTypes (fun contentType =>
    Clean.catch
      (let+ m := Clean.call (CleanApi.DeleteContentType (ContentTypeModels.id contentType))
                   (fun history => CleanApi.deleteContentType client history
                                     (ContentTypeModels.id contentType)) in
       processItem (ContentTypeModels.name contentType) "contentType"
         (CleanModels.contentType contentType))
      handleCleanError).

Definition cleanAssetsAsync : Clean.M unit :=
  let+ assets := Clean.call CleanApi.ListAssets (CleanApi.listAssets client) in
  forOf assets (fun asset =>
    Clean.catch
      (let+ m := Clean.call (CleanApi.DeleteAsset (AssetModels.id asset))
                   (fun history => CleanApi.deleteAsset client history (AssetModels.id asset)) in
       processItem (AssetModels.fileName asset) "asset" (CleanModels.asset asset))
      handleCleanError).

Definition cleanAssetFoldersAsync : Clean.M unit :=
  let+ assetFolders :=
    Clean.call CleanApi.ListAssetFolders (CleanApi.listAssetFolders client) in
  if negb (Nat.eqb (length assetFolders) 0) then
    let data :=
      map (fun m =>
             {| AssetFolderModels.op := "remove";
                AssetFolderModels.reference :=
                  {| SharedContracts.id := Some (AssetFolderModels.id m);
                     SharedContracts.codename := None;
                     SharedContracts.external_id := None |} |}) assetFolders in
    Clean.catch
      (let+ response := Clean.call (CleanApi.ModifyAssetFolders data)
                          (fun history => CleanApi.modifyAssetFolders client history data) in
       forOf assetFolders (fun folder =>
         processItem (AssetFolderModels.name folder) "assetFolder"
           (CleanModels.assetFolder folder)))
      handleCleanError
  else Clean.ret tt.

Definition cleanContentItemsAsync : Clean.M unit :=
  let+ contentItems :=
    Clean.call CleanApi.ListContentItems (CleanApi.listContentItems client) in
  forOf contentItems (fun contentItem =>
    Clean.catch
      (let+ m := Clean.call (CleanApi.DeleteContentItem (ContentItemModels.id contentItem))
                   (fun history => CleanApi.deleteContentItem client history
                                     (ContentItemModels.id contentItem)) in
       processItem (ContentItemModels.name contentItem) "contentItem"
         (CleanModels.contentItem contentItem))
      handleCleanError).

Definition cleanLanguageVariantsAsync (contentItemId : string) : Clean.M unit :=
  let+ languageVariants :=
    Clean.call (CleanApi.ListLanguageVariantsOfItem contentItemId)
      (fun history => CleanApi.listLanguageVariantsOfItem client history contentItemId) in
  forOf languageVariants (fun languageVariant =>
    let languageId := SharedContracts.id (LanguageVariantModels.language languageVariant) in
    let itemId := contentItemId in
    if falsy languageId then
      Clean.throw (JsError ("Missing language id for item '" +:+ contentItemId +:+ "'"))
    else
      Clean.catch
        (let+ m := Clean.call (CleanApi.DeleteLanguageVariant itemId languageId)
                     (fun history => CleanApi.deleteLanguageVariant client history
                                       itemId languageId) in
         processItem itemId "languageVariant" (CleanModels.languageVariant languageVariant))
        handleCleanError).

Definition cleanAllAsync : Clean.M CleanModels.ICleanResult :=
  Clean.catch
    (let+ _ := cleanContentItemsAsync in
     let+ _ := cleanContentTypesAsync in
     let+ _ := cleanContentTypeSnippetsAsync in
     let+ _ := cleanTaxonomiesAsync in
     let+ _ := cleanAssetsAsync in
     let+ _ := cleanAssetFoldersAsync in
     Clean.ret
       {| CleanModels.metadata :=
            {| CleanModels.metadataProjectId := CleanModels.projectId config;
               CleanModels.timestamp := now |} |})
    (fun err =>
       let+ _ := Clean.consoleLog err in
       Clean.throw err).

End Service.

End CleanService.

Module CleanSpec.

(** The reports a clean configuration delivers: none without a callback. *)
Definition reported (config : CleanModels.ICleanConfig)
    (reports : list CleanModels.IProcessedItem) : list CleanModels.IProcessedItem :=
  match CleanModels.processItem config with
  | Some _ => reports
  | None => []
  end.

(** A configuration whose callback, if any, never throws. *)
Definition quietCallback (config : CleanModels.ICleanConfig) : Prop :=
  forall callback arg, CleanModels.processItem config = Some callback -> callback arg = None.

(** The six listing calls of a full clean, in the order it makes them. *)
Definition listings : list CleanApi.Request :=
  [CleanApi.ListContentItems; CleanApi.ListContentTypes; CleanApi.ListContentTypeSnippets;
   CleanApi.ListTaxonomies; CleanApi.ListAssets; CleanApi.ListAssetFolders].

(** The operation that removes one asset folder. *)
Definition removeFolder (m : AssetFolderModels.AssetFolder)
    : AssetFolderModels.IModifyAssetFoldersData :=
  {| AssetFolderModels.op := "remove";
     AssetFolderModels.reference :=
       {| SharedContracts.id := Some (AssetFolderModels.id m);
          SharedContracts.codename := None;
          SharedContracts.external_id := None |} |}.

(** What a listing call is rejected with, if it is, after [history]. *)
Definition rejection (client : CleanApi.IManagementClient)
    (history : list CleanApi.Request) (listing : CleanApi.Request) : option Thrown :=
  let rejected {R} (answer : Thrown + R) : option Thrown :=
    match answer with inl e => Some e | inr _ => None end in
  match listing with
  | CleanApi.ListTaxonomies => rejected (CleanApi.listTaxonomies client history)
  | CleanApi.ListContentTypeSnippets => rejected (CleanApi.listContentTypeSnippets client history)
  | CleanApi.ListContentTypes => rejected (CleanApi.listContentTypes client history)
  | CleanApi.ListAssets => rejected (CleanApi.listAssets client history)
  | CleanApi.ListAssetFolders => rejected (CleanApi.listAssetFolders client history)
  | CleanApi.ListContentItems => rejected (CleanApi.listContentItems client history)
  | _ => None
  end.

End CleanSpec.

(** ** More of the concrete project *)

Module Cases.

(** A target project that refuses every upload. *)
Definition refuseUploads : ManagementApi.IManagementClient :=
  {| ManagementApi.addLanguage := ManagementApi.addLanguage Fixtures.acceptAll;
     ManagementApi.uploadBinaryFile := fun _ _ => inl (Rejected "upload refused");
     ManagementApi.addAsset := ManagementApi.addAsset Fixtures.acceptAll;
     ManagementApi.addContentType := ManagementApi.addContentType Fixtures.acceptAll;
     ManagementApi.addContentTypeSnippet := ManagementApi.addContentTypeSnippet Fixtures.acceptAll;
     ManagementApi.addContentItem := ManagementApi.addContentItem Fixtures.acceptAll;
     ManagementApi.addTaxonomy := ManagementApi.addTaxonomy Fixtures.acceptAll;
     ManagementApi.upsertLanguageVariant :=
       ManagementApi.upsertLanguageVariant Fixtures.acceptAll |}.

(** A target project that takes uploads and refuses every asset. *)
Definition refuseAssets : ManagementApi.IManagementClient :=
  {| ManagementApi.addLanguage := ManagementApi.addLanguage Fixtures.acceptAll;
     ManagementApi.uploadBinaryFile := ManagementApi.uploadBinaryFile Fixtures.acceptAll;
     ManagementApi.addAsset := fun _ _ => inl (Rejected "asset refused");
     ManagementApi.addContentType := ManagementApi.addContentType Fixtures.acceptAll;
     ManagementApi.addContentTypeSnippet := ManagementApi.addContentTypeSnippet Fixtures.acceptAll;
     ManagementApi.addContentItem := ManagementApi.addContentItem Fixtures.acceptAll;
     ManagementApi.addTaxonomy := ManagementApi.addTaxonomy Fixtures.acceptAll;
     ManagementApi.upsertLanguageVariant :=
       ManagementApi.upsertLanguageVariant Fixtures.acceptAll |}.

(** A second file for the same asset, and a file for another asset. *)
Definition logoRetouched : ImportModels.IBinaryFile :=
  {| ImportModels.asset := Fixtures.logo; ImportModels.binaryData := "PNG retouched" |}.

Definition banner : AssetContracts.IAssetModelContract :=
  {| AssetContracts.id := "a2"; AssetContracts.file_name := "banner.png";
     AssetContracts.title := None; AssetContracts.type := "image/png";
     AssetContracts.descriptions := []; AssetContracts.external_id := None |}.

Definition bannerFile : ImportModels.IBinaryFile :=
  {| ImportModels.asset := banner; ImportModels.binaryData := "PNG banner" |}.

(** A language whose fallback is known by id only. *)
Definition german : LanguageContracts.ILanguageModelContract :=
  {| LanguageContracts.id := "l3"; LanguageContracts.name := "German";
     LanguageContracts.codename := "de"; LanguageContracts.external_id := None;
     LanguageContracts.is_active := true; LanguageContracts.is_default := false;
     LanguageContracts.fallback_language := Some (Fixtures.byId "l1") |}.


(** A run that imports a taxonomy, a language and a content type. *)
Definition mixedRun : ImportModels.IImportData :=
  ImportModels.importData
    [Fixtures.topicsItem; Fixtures.englishItem; Fixtures.articleItem] [].

(** The project to clean. *)
Definition cleanConfig : CleanModels.ICleanConfig :=
  {| CleanModels.projectId := "project-1"; CleanModels.apiKey := "key";
     CleanModels.processItem := Some (fun _ => Fixtures.quiet) |}.

Definition inEnglish : LanguageVariantModels.ContentItemLanguageVariant :=
  {| LanguageVariantModels.item := Fixtures.byId "i1";
     LanguageVariantModels.language := Fixtures.byId "l1";
     LanguageVariantModels.elements := [] |}.

Definition inNoLanguage : LanguageVariantModels.ContentItemLanguageVariant :=
  {| LanguageVariantModels.item := Fixtures.byId "i1";
     LanguageVariantModels.language := Fixtures.byCodename "cz";
     LanguageVariantModels.elements := [] |}.

Definition inGerman : LanguageVariantModels.ContentItemLanguageVariant :=
  {| LanguageVariantModels.item := Fixtures.byId "i1";
     LanguageVariantModels.language := Fixtures.byId "l3";
     LanguageVariantModels.elements := [] |}.

(** A project holding two content items, a type, a taxonomy, an asset and
    two folders, which deletes whatever it is asked to. *)
Definition tidy : CleanApi.IManagementClient :=
  {| CleanApi.listTaxonomies := fun _ =>
       inr [ {| TaxonomyModels.id := "t1"; TaxonomyModels.name := "Topics" |} ];
     CleanApi.listContentTypeSnippets := fun _ => inr [];
     CleanApi.listContentTypes := fun _ =>
       inr [ {| ContentTypeModels.id := "ct1"; ContentTypeModels.name := "Article" |} ];
     CleanApi.listAssets := fun _ =>
       inr [ {| AssetModels.id := "a1"; AssetModels.fileName := "logo.png" |} ];
     CleanApi.listAssetFolders := fun _ =>
       inr [ {| AssetFolderModels.id := "f1"; AssetFolderModels.name := "Images" |};
             {| AssetFolderModels.id := "f2"; AssetFolderModels.name := "Logos" |} ];
     CleanApi.listContentItems := fun _ =>
       inr [ {| ContentItemModels.id := "i1"; ContentItemModels.name := "Home" |};
             {| ContentItemModels.id := "i3"; ContentItemModels.name := "About" |} ];
     CleanApi.listLanguageVariantsOfItem := fun _ _ =>
       inr [inEnglish; inNoLanguage; inGerman];
     CleanApi.deleteTaxonomy := fun _ _ => inr tt;
     CleanApi.deleteContentTypeSnippet := fun _ _ => inr tt;
     CleanApi.deleteContentType := fun _ _ => inr tt;
     CleanApi.deleteAsset := fun _ _ => inr tt;
     CleanApi.modifyAssetFolders := fun _ _ => inr tt;
     CleanApi.deleteContentItem := fun _ _ => inr tt;
     CleanApi.deleteLanguageVariant := fun _ _ _ => inr tt |}.

(** The same project, but its taxonomies cannot be listed. *)
Definition lockedTaxonomies : CleanApi.IManagementClient :=
  {| CleanApi.listTaxonomies := fun _ => inl (Rejected "forbidden");
     CleanApi.listContentTypeSnippets := CleanApi.listContentTypeSnippets tidy;
     CleanApi.listContentTypes := CleanApi.listContentTypes tidy;
     CleanApi.listAssets := CleanApi.listAssets tidy;
     CleanApi.listAssetFolders := CleanApi.listAssetFolders tidy;
     CleanApi.listContentItems := CleanApi.listContentItems tidy;
     CleanApi.listLanguageVariantsOfItem := CleanApi.listLanguageVariantsOfItem tidy;
     CleanApi.deleteTaxonomy := CleanApi.deleteTaxonomy tidy;
     CleanApi.deleteContentTypeSnippet := CleanApi.deleteContentTypeSnippet tidy;
     CleanApi.deleteContentType := CleanApi.deleteContentType tidy;
     CleanApi.deleteAsset := CleanApi.deleteAsset tidy;
     CleanApi.modifyAssetFolders := CleanApi.modifyAssetFolders tidy;
     CleanApi.deleteContentItem := CleanApi.deleteContentItem tidy;
     CleanApi.deleteLanguageVariant := CleanApi.deleteLanguageVariant tidy |}.

Definition untouched : Clean.World :=
  {| Clean.calls := []; Clean.console := []; Clean.processed := [] |}.

End Cases.

(** * The export of language variants

    A shallow embedding of [exportLanguageVariantsAsync] and [processItem] of
    the class [ExportService].  The rest of that class pages through
    listings inside the SDK, prints in colour and reads the package version;
    it is left out. *)

Module ExportModels.
(** A listed language variant: the fields the service reads, and the raw
    contract the SDK keeps beside them. *)
Record LanguageVariant : Type := {
  language : SharedContracts.IReferenceObjectContract;
  _raw : LanguageVariantContracts.ILanguageVariantModelContract
}.

Record IProcessedItem : Type := {
  data : LanguageVariant;
  title : string;
  type : Core.ItemType
}.

Record IExportConfig : Type := {
  projectId : string;
  apiKey : string;
  onExport : option (IProcessedItem -> option Thrown)
}.
End ExportModels.

Module ExportApi.
Inductive Request : Type :=
| ListLanguageVariantsOfItem (byItemId : string).

Record IManagementClient : Type := {
  listLanguageVariantsOfItem : list Request -> string ->
    Thrown + list ExportModels.LanguageVariant
}.
End ExportApi.

Module Exports.

Record World : Type := {
  calls : list ExportApi.Request;                 (* remote calls issued *)
  processed : list ExportModels.IProcessedItem    (* arguments of [onExport] *)
}.

Definition issued (w : World) (request : ExportApi.Request) : World :=
  {| calls := calls w ++ [request]; processed := processed w |}.

Definition notified (w : World) (arg : ExportModels.IProcessedItem) : World :=
  {| calls := calls w; processed := processed w ++ [arg] |}.

Definition M (A : Type) : Type := World -> Outcome A * World.

Definition ret {A} (a : A) : M A := fun w => (Returned a, w).

Definition bind {A B} (m : M A) (k : A -> M B) : M B :=
  fun w =>
    match m w with
    | (Returned a, w1) => k a w1
    | (Threw e, w1) => (Threw e, w1)
    end.

Definition call {R} (request : ExportApi.Request)
    (answer : list ExportApi.Request -> Thrown + R) : M R :=
  fun w =>
    match answer (calls w) with
    | inl e => (Threw e, issued w request)
    | inr r => (Returned r, issued w request)
    end.

End Exports.

Notation "'let^' x ':=' m 'in' k" := (Exports.bind m (fun x => k))
  (at level 10, x name, m at level 100, k at level 200).

Module ExportService.

(** [for (const x of xs) { body }] with the local variables the body updates *)
Fixpoint forOf {A S} (xs : list A) (body : A -> S -> Exports.M S) (s : S) : Exports.M S :=
  match xs with
  | [] => Exports.ret s
  | x :: rest => let^ s1 := body x s in forOf rest body s1
  end.

Section Service.

Context (config : ExportModels.IExportConfig).
Context (client : ExportApi.IManagementClient).

(** [yellow] of the colors package, which wraps a text in colour codes. *)
Context (yellow : string -> string).

Definition processItem (title : string) (type : Core.ItemType)
    (data : ExportModels.LanguageVariant) : Exports.M unit :=
  match ExportModels.onExport config with
  | None => Exports.ret tt
  | Some onExport =>
      fun w =>
        let arg := {| ExportModels.data := data; ExportModels.title := title;
                      ExportModels.type := type |} in
        match onExport arg with
        | None => (Returned tt, Exports.notified w arg)
        | Some e => (Threw e, Exports.notified w arg)
        end
  end.

Definition exportLanguageVariantsAsync
    (contentItems : list ContentItemContracts.IContentItemModelContract)
    (languages : list LanguageContracts.ILanguageModelContract)
    : Exports.M (list LanguageVariantContracts.ILanguageVariantModelContract) :=
  forOf contentItems (fun contentItem languageVariants =>
    let^ response :=
      Exports.call (ExportApi.ListLanguageVariantsOfItem (ContentItemContracts.id contentItem))
        (fun history => ExportApi.listLanguageVariantsOfItem client history
                          (ContentItemContracts.id contentItem)) in
    let languageVariants := languageVariants ++ map ExportModels._raw response in
    let^ _ :=
      forOf response (fun languageVariant (_ : unit) =>
        let language :=
          List.find (fun m => strictEq (LanguageContracts.id m)
                                (SharedContracts.id (ExportModels.language languageVariant)))
            languages in
        processItem
          (ContentItemContracts.name contentItem +:+ " (" +:+
           yellow (match language with
                   | Some l => LanguageContracts.name l
                   | None => ""
                   end) +:+ ")")
          "languageVariant" languageVariant) tt in
    Exports.ret languageVariants) [].

End Service.

End ExportService.

Module ExportSpec.

(** The name of the first language of the list that has the id the variant
    gives for its language; the empty text when there is none. *)
Definition languageName (languages : list LanguageContracts.ILanguageModelContract)
    (v : ExportModels.LanguageVariant) : string :=
  match List.find (fun m => strictEq (LanguageContracts.id m)
                              (SharedContracts.id (ExportModels.language v))) languages with
  | Some l => LanguageContracts.name l
  | None => ""
  end.

(** What [onExport] is told about one variant of one item. *)
Definition report (yellow : string -> string)
    (languages : list LanguageContracts.ILanguageModelContract)
    (contentItem : ContentItemContracts.IContentItemModelContract)
    (v : ExportModels.LanguageVariant) : ExportModels.IProcessedItem :=
  {| ExportModels.data := v;
     ExportModels.title :=
       ContentItemContracts.name contentItem +:+ " (" +:+ yellow (languageName languages v)
       +:+ ")";
     ExportModels.type := "languageVariant" |}.

Definition reported (config : ExportModels.IExportConfig)
    (reports : list ExportModels.IProcessedItem) : list ExportModels.IProcessedItem :=
  match ExportModels.onExport config with
  | Some _ => reports
  | None => []
  end.

Definition quietCallback (config : ExportModels.IExportConfig) : Prop :=
  forall onExport arg, ExportModels.onExport config = Some onExport -> onExport arg = None.

(** The listing calls for a list of content items, one per item. *)
Definition listings (contentItems : list ContentItemContracts.IContentItemModelContract)
    : list ExportApi.Request :=
  map (fun i => ExportApi.ListLanguageVariantsOfItem (ContentItemContracts.id i)) contentItems.

(** What the project answers when the variants of the items are listed one
    item after the other, the first listing being made after [history]. *)
Fixpoint answers (client : ExportApi.IManagementClient) (history : list ExportApi.Request)
    (contentItems : list ContentItemContracts.IContentItemModelContract)
    : list (Thrown + list ExportModels.LanguageVariant) :=
  match contentItems with
  | [] => []
  | i :: rest =>
      ExportApi.listLanguageVariantsOfItem client history (ContentItemContracts.id i) ::
      answers client
        (history ++ [ExportApi.ListLanguageVariantsOfItem (ContentItemContracts.id i)]) rest
  end.

End ExportSpec.

(** ** A concrete project to export from *)

Module Archive.

Definition exportConfig : ExportModels.IExportConfig :=
  {| ExportModels.projectId := "project-1"; ExportModels.apiKey := "key";
     ExportModels.onExport := Some (fun _ => Fixtures.quiet) |}.

(** A stand-in for the colouring. *)
Definition paint (s : string) : string := "<" +:+ s +:+ ">".

Definition homeInEnglish : ExportModels.LanguageVariant :=
  {| ExportModels.language := Fixtures.byId "l1";
     ExportModels._raw := Fixtures.homeEnglish |}.

Definition homeInUnknown : ExportModels.LanguageVariant :=
  {| ExportModels.language := Fixtures.byId "l9";
     ExportModels._raw := Fixtures.homeUntranslated |}.

(** A project in which only the item [i1] has variants. *)
Definition shelves : ExportApi.IManagementClient :=
  {| ExportApi.listLanguageVariantsOfItem := fun _ itemId =>
       if String.eqb itemId "i1" then inr [homeInEnglish; homeInUnknown] else inr [] |}.

(** The same project, but the variants of [i3] cannot be listed. *)
Definition tornShelves : ExportApi.IManagementClient :=
  {| ExportApi.listLanguageVariantsOfItem := fun _ itemId =>
       if String.eqb itemId "i1" then inr [homeInEnglish; homeInUnknown]
       else inl (Rejected "gone") |}.

Definition blank : Exports.World := {| Exports.calls := []; Exports.processed := [] |}.

End Archive.

(** * Properties *)

(** ** The loop and the monad *)

Section Loop.

Context {A S : Type} (body : A -> S -> M S).

Lemma forOf_cons (x : A) (rest : list A) (s : S) (w : World) :
  forOf (x :: rest) body s w =
  match body x s w with
  | (Returned s1, w1) => forOf rest body s1 w1
  | (Threw e, w1) => (Threw e, w1)
  end.
Proof. reflexivity. Qed.

(** A loop over one element is its body. *)
Lemma forOf_single (x : A) (s : S) (w : World) : forOf [x] body s w = body x s w.
Proof.
  rewrite forOf_cons. destruct (body x s w) as [[s1|e] w1]; reflexivity.
Qed.

(** A loop over [xs ++ ys] runs [ys] from where [xs] stopped, if it returned. *)
Lemma forOf_app (xs ys : list A) (s : S) (w : World) :
  forOf (xs ++ ys) body s w =
  match forOf xs body s w with
  | (Returned s1, w1) => forOf ys body s1 w1
  | (Threw e, w1) => (Threw e, w1)
  end.
Proof.
  revert s w. induction xs as [|x xs IH]; intros s w.
  - reflexivity.
  - rewrite <- app_comm_cons, !forOf_cons.
    destruct (body x s w) as [[s1|e] w1]; [apply IH | reflexivity].
Qed.

End Loop.

(** ** One create step *)

Section CreateStep.

Context (config : ImportModels.IImportConfig) {R : Type}.
Context (request : ManagementApi.Request) (answer : list ManagementApi.Request -> Thrown + R).
Context (mk : R -> Core.IImportItemResult).
Context (title : R -> string) (type : Core.ItemType) (data : R -> Core.ValidImportModel).

(** The promise chain [call.then(push; processItem).catch(handleImportError)]
    is a create step. *)
Lemma create_chain (importedItems : list Core.IImportItemResult) (w : World) :
  catch
    (let* response := call request answer in
     let* _ := ImportService.processItem config (title response) type (data response) in
     ret (importedItems ++ [mk response]))
    (ImportService.handleImportError) w
  = Spec.createStep config request (answer (calls w)) mk
      (fun response => {| Core.data := data response; Core.title := title response;
                          Core.type := type |})
      importedItems w.
Proof.
  unfold Spec.createStep, catch, bind, call, ImportService.processItem,
    ImportService.handleImportError, consoleLog, throw, ret, bind.
  destruct (answer (calls w)) as [e|response]; [reflexivity|].
  destruct (ImportModels.processItem config) as [callback|]; [|reflexivity].
  destruct (callback _) as [e|]; reflexivity.
Qed.

End CreateStep.

(** What a create step leaves behind, whatever the remote answers. *)
Lemma createStep_calls {R} config request (answer : Thrown + R) mk report acc w :
  calls (snd (Spec.createStep config request answer mk report acc w)) = calls w ++ [request].
Proof.
  unfold Spec.createStep. destruct answer as [e|response]; [reflexivity|].
  destruct (ImportModels.processItem config) as [callback|]; [|reflexivity].
  destruct (callback _); reflexivity.
Qed.

Lemma createStep_heap {R} config request (answer : Thrown + R) mk report acc w :
  heap (snd (Spec.createStep config request answer mk report acc w)) = heap w.
Proof.
  unfold Spec.createStep. destruct answer as [e|response]; [reflexivity|].
  destruct (ImportModels.processItem config) as [callback|]; [|reflexivity].
  destruct (callback _); reflexivity.
Qed.

(** A create step that returns has produced one result and one report. *)
Lemma createStep_returned {R} config request (answer : Thrown + R) mk report acc w rs w' :
  Spec.createStep config request answer mk report acc w = (Returned rs, w') ->
  exists response, answer = inr response /\ rs = acc ++ [mk response] /\
    processed w' = processed w ++ Spec.reported config [report response] /\
    heap w' = heap w.
Proof.
  unfold Spec.createStep, Spec.reported. destruct answer as [e|response]; [discriminate|].
  destruct (ImportModels.processItem config) as [callback|].
  - destruct (callback _); [discriminate|]. intros [= <- <-]. eauto.
  - intros [= <- <-]. exists response. cbn. rewrite app_nil_r. auto.
Qed.

(** ** Each importer on a single payload *)

Section OneItem.

Context (config : ImportModels.IImportConfig).
Context (client : ManagementApi.IManagementClient).
Context (rewrite_ids :
  LanguageVariantContracts.ILanguageVariantModelContract ->
  list Core.IImportItemResult ->
  LanguageVariantContracts.ILanguageVariantModelContract * option Thrown).

Lemma importContentTypesAsync_one (contentType : ContentTypeContracts.IContentTypeContract)
    (w : World) :
  ImportService.importContentTypesAsync config client [contentType] w =
  Spec.createStep config (ManagementApi.AddContentType contentType)
    (ManagementApi.addContentType client (calls w) contentType)
    (fun response =>
       ImportService.result (Core.contentTypeModel response)
         (Core.contentTypeContract contentType)
         (Some (ContentTypeModels.id response)) (Some (ContentTypeContracts.id contentType)))
    (fun response =>
       {| Core.data := Core.contentTypeModel response;
          Core.title := ContentTypeModels.name response; Core.type := "contentType" |})
    [] w.
Proof.
  unfold ImportService.importContentTypesAsync. rewrite forOf_single.
  exact (create_chain config _ (fun history => ManagementApi.addContentType client history contentType)
           _ ContentTypeModels.name "contentType" Core.contentTypeModel [] w).
Qed.

Lemma importContentTypeSnippetsAsync_one
    (contentTypeSnippet : ContentTypeSnippetContracts.IContentTypeSnippetContract) (w : World) :
  ImportService.importContentTypeSnippetsAsync config client [contentTypeSnippet] w =
  Spec.createStep config (ManagementApi.AddContentTypeSnippet contentTypeSnippet)
    (ManagementApi.addContentTypeSnippet client (calls w) contentTypeSnippet)
    (fun response =>
       ImportService.result (Core.contentTypeSnippetModel response)
         (Core.contentTypeSnippetContract contentTypeSnippet)
         (Some (ContentTypeSnippetModels.id response))
         (Some (ContentTypeSnippetContracts.id contentTypeSnippet)))
    (fun response =>
       {| Core.data := Core.contentTypeSnippetModel response;
          Core.title := ContentTypeSnippetModels.name response;
          Core.type := "contentTypeSnippet" |})
    [] w.
Proof.
  unfold ImportService.importContentTypeSnippetsAsync. rewrite forOf_single.
  exact (create_chain config _
           (fun history => ManagementApi.addContentTypeSnippet client history contentTypeSnippet)
           _ ContentTypeSnippetModels.name "contentTypeSnippet" Core.contentTypeSnippetModel [] w).
Qed.

Lemma importTaxonomiesAsync_one (taxonomy : TaxonomyContracts.ITaxonomyContract) (w : World) :
  ImportService.importTaxonomiesAsync config client [taxonomy] w =
  Spec.createStep config (ManagementApi.AddTaxonomy taxonomy)
    (ManagementApi.addTaxonomy client (calls w) taxonomy)
    (fun response =>
       ImportService.result (Core.taxonomyModel response) (Core.taxonomyContract taxonomy)
         (Some (TaxonomyModels.id response)) (Some (TaxonomyContracts.id taxonomy)))
    (fun response =>
       {| Core.data := Core.taxonomyModel response;
          Core.title := TaxonomyModels.name response; Core.type := "taxonomy" |})
    [] w.
Proof.
  unfold ImportService.importTaxonomiesAsync. rewrite forOf_single.
  exact (create_chain config _ (fun history => ManagementApi.addTaxonomy client history taxonomy)
           _ TaxonomyModels.name "taxonomy" Core.taxonomyModel [] w).
Qed.

(** The data of the create-content-item call. *)
Lemma importContentItemAsync_one (contentItem : ContentItemContracts.IContentItemModelContract)
    (w : World) :
  ImportService.importContentItemAsync config client [contentItem] w =
  let typeCodename := SharedContracts.codename (ContentItemContracts.type contentItem) in
  if falsy typeCodename then
    (Threw (JsError ("Content item '" +:+ ContentItemContracts.codename contentItem
                     +:+ "' has unset type codename")), w)
  else
    let data :=
      {| ManagementApi.item_name := ContentItemContracts.name contentItem;
         ManagementApi.type := {| SharedContracts.id := None;
                                  SharedContracts.codename := typeCodename;
                                  SharedContracts.external_id := None |};
         ManagementApi.item_codename := ContentItemContracts.codename contentItem;
         ManagementApi.item_external_id := ContentItemContracts.external_id contentItem |} in
    Spec.createStep config (ManagementApi.AddContentItem data)
      (ManagementApi.addContentItem client (calls w) data)
      (fun response =>
         ImportService.result (Core.contentItemModel response)
           (Core.contentItemContract contentItem)
           (Some (ContentItemModels.id response)) (Some (ContentItemContracts.id contentItem)))
      (fun response =>
         {| Core.data := Core.contentItemModel response;
            Core.title := ContentItemModels.name response; Core.type := "contentItem" |})
      [] w.
Proof.
  unfold ImportService.importContentItemAsync. rewrite forOf_single. cbv zeta.
  destruct (falsy _); [reflexivity|].
  exact (create_chain config _ (fun history => ManagementApi.addContentItem client history _)
           _ ContentItemModels.name "contentItem" Core.contentItemModel [] w).
Qed.

Lemma importLanguagesAsync_one (language : LanguageContracts.ILanguageModelContract)
    (w : World) :
  ImportService.importLanguagesAsync config client [language] w =
  match LanguageContracts.fallback_language language with
  | None => (Threw (TypeError "Cannot read properties of undefined (reading 'codename')"), w)
  | Some fallback_language =>
      let fallbackLanguageCodename := SharedContracts.codename fallback_language in
      if falsy fallbackLanguageCodename then
        (Threw (JsError ("Langauge '" +:+ LanguageContracts.name language
                         +:+ "' has unset codename")), w)
      else
        let data :=
          {| ManagementApi.codename := LanguageContracts.codename language;
             ManagementApi.name := LanguageContracts.name language;
             ManagementApi.external_id := LanguageContracts.external_id language;
             ManagementApi.fallback_language :=
               if strictEq (LanguageContracts.codename language) fallbackLanguageCodename
               then {| SharedContracts.id := Some ImportService.noFallbackLanguageId;
                       SharedContracts.codename := None;
                       SharedContracts.external_id := None |}
               else {| SharedContracts.id := None;
                       SharedContracts.codename := fallbackLanguageCodename;
                       SharedContracts.external_id := None |};
             ManagementApi.is_active := LanguageContracts.is_active language |} in
        Spec.createStep config (ManagementApi.AddLanguage data)
          (ManagementApi.addLanguage client (calls w) data)
          (fun response =>
             ImportService.result (Core.languageModel response) (Core.languageContract language)
               (Some (LanguageModels.id response)) (Some (LanguageContracts.id language)))
          (fun response =>
             {| Core.data := Core.languageModel response;
                Core.title := LanguageModels.name response; Core.type := "language" |})
          [] w
  end.
Proof.
  unfold ImportService.importLanguagesAsync. rewrite forOf_single.
  destruct (LanguageContracts.fallback_language language) as [fb|]; [|reflexivity].
  unfold prop, bind at 1, ret at 1. cbv zeta.
  destruct (falsy _); [reflexivity|].
  exact (create_chain config _ (fun history => ManagementApi.addLanguage client history _)
           _ LanguageModels.name "language" Core.languageModel [] w).
Qed.

Lemma importAssetsAsync_one (asset : AssetContracts.IAssetModelContract)
    (binaryFiles : list ImportModels.IBinaryFile) (w : World) :
  ImportService.importAssetsAsync config client [asset] binaryFiles w =
  match ImportService.findBinaryFile binaryFiles asset with
  | None =>
      (Threw (JsError ("Could not find binary file for asset with id '"
                       +:+ AssetContracts.id asset +:+ "'")), w)
  | Some binaryFile =>
      let upload :=
        {| ManagementApi.binaryData := ImportModels.binaryData binaryFile;
           ManagementApi.contentType := AssetContracts.type asset;
           ManagementApi.filename := AssetContracts.file_name asset |} in
      match ManagementApi.uploadBinaryFile client (calls w) upload with
      | inl e => (Threw e, issued w (ManagementApi.UploadBinaryFile upload))
      | inr uploadedBinaryFile =>
          let data :=
            {| ManagementApi.descriptions := AssetContracts.descriptions asset;
               ManagementApi.file_reference := uploadedBinaryFile;
               ManagementApi.title := AssetContracts.title asset;
               ManagementApi.asset_external_id := AssetContracts.external_id asset |} in
          let w1 := issued w (ManagementApi.UploadBinaryFile upload) in
          Spec.createStep config (ManagementApi.AddAsset data)
            (ManagementApi.addAsset client (calls w1) data)
            (fun response =>
               ImportService.result (Core.assetModel response) (Core.assetContract asset)
                 (Some (AssetModels.id response)) (Some (AssetContracts.id asset)))
            (fun response =>
               {| Core.data := Core.assetModel response;
                  Core.title := AssetModels.fileName response; Core.type := "asset" |})
            [] w1
      end
  end.
Proof.
  unfold ImportService.importAssetsAsync. rewrite forOf_single.
  destruct (ImportService.findBinaryFile binaryFiles asset) as [binaryFile|]; [|reflexivity].
  cbv zeta. unfold bind at 1, call at 1.
  destruct (ManagementApi.uploadBinaryFile _ _ _) as [e|uploaded]; [reflexivity|].
  exact (create_chain config _ (fun history => ManagementApi.addAsset client history _)
           _ AssetModels.fileName "asset" Core.assetModel [] _).
Qed.

Lemma written_twice (w : World) (l : loc)
    (v1 v2 : LanguageVariantContracts.ILanguageVariantModelContract) :
  written (written w l v1) l v2 = written w l v2.
Proof. unfold written; cbn. f_equal. apply insert_insert_eq. Qed.

Lemma importLanguageVariantsAsync_one (languageVariant : loc)
    (currentItems : list Core.IImportItemResult) (w : World) :
  ImportService.importLanguageVariantsAsync config client rewrite_ids [languageVariant]
    currentItems w =
  match heap w !! languageVariant with
  | None => (Threw (TypeError "Cannot read properties of undefined (reading 'item')"), w)
  | Some before =>
      let itemCodename := SharedContracts.codename (LanguageVariantContracts.item before) in
      let languageCodename :=
        SharedContracts.codename (LanguageVariantContracts.language before) in
      if falsy itemCodename then (Threw (JsError "Missing item codename for item"), w)
      else if falsy languageCodename then
        (Threw (JsError "Missing language codename for item"), w)
      else
        let rewritten := fst (rewrite_ids before currentItems) in
        match snd (rewrite_ids before currentItems) with
        | Some e => (Threw e, written w languageVariant rewritten)
        | None =>
            let submitted :=
              LanguageVariantContracts.setWorkflowStepId rewritten
                (Some (ImportModels.workflowIdForImportedItems config)) in
            let elements := LanguageVariantContracts.elements rewritten in
            Spec.createStep config
              (ManagementApi.UpsertLanguageVariant itemCodename languageCodename elements)
              (ManagementApi.upsertLanguageVariant client (calls w)
                 itemCodename languageCodename elements)
              (fun response =>
                 ImportService.result (Core.languageVariantModel response)
                   (Core.languageVariantContract languageVariant)
                   (SharedContracts.id (LanguageVariantModels.item response))
                   (SharedContracts.id (LanguageVariantContracts.item rewritten)))
              (fun response =>
                 {| Core.data := Core.languageVariantModel response;
                    Core.title := strOf itemCodename +:+ " (" +:+ strOf languageCodename +:+ ")";
                    Core.type := "languageVariant" |})
              [] (written w languageVariant submitted)
        end
  end.
Proof.
  unfold ImportService.importLanguageVariantsAsync. rewrite forOf_single.
  unfold bind at 1, deref at 1.
  destruct (heap w !! languageVariant) as [before|] eqn:Hbefore; [|reflexivity].
  unfold prop, ret at 1. cbv zeta.
  destruct (falsy _); [reflexivity|]. destruct (falsy _); [reflexivity|].
  unfold bind at 1, update at 1, bind at 1, deref at 1. rewrite Hbefore.
  unfold prop, ret at 1.
  destruct (snd (rewrite_ids before currentItems)) as [e|]; [reflexivity|].
  unfold bind at 1, update at 1, bind at 1, deref at 1.
  cbn [heap written snd fst]. rewrite lookup_insert_eq. unfold prop, ret at 1.
  cbn [snd fst]. rewrite written_twice.
  unfold bind at 1, deref at 1. cbn [heap written]. rewrite lookup_insert_eq.
  unfold prop, ret at 1.
  exact (create_chain config _
           (fun history => ManagementApi.upsertLanguageVariant client history _ _ _)
           _ (fun _ => _) "languageVariant" Core.languageVariantModel [] _).
Qed.

End OneItem.

(** ** Dispatch by kind *)

(** Splits on the chain of [===] tests of [importItemAsync] in [H], turning
    each test that holds into an equation on the tag. *)
Ltac by_kind H :=
  unfold ImportService.importItemAsync in H; cbv zeta in H;
  repeat match type of H with
         | context [String.eqb ?a ?b] =>
             let E := fresh "Ekind" in
             destruct (String.eqb a b) eqn:E; [apply String.eqb_eq in E|]
         end.

(** Splits on the tests an importer makes before its create step. *)
Ltac by_guard H :=
  repeat match type of H with
         | context [match ?x with _ => _ end] => destruct x eqn:?; try discriminate H
         end.

Section Dispatch.

Context (config : ImportModels.IImportConfig).
Context (client : ManagementApi.IManagementClient).
Context (rewrite_ids :
  LanguageVariantContracts.ILanguageVariantModelContract ->
  list Core.IImportItemResult ->
  LanguageVariantContracts.ILanguageVariantModelContract * option Thrown).

Lemma reported_nil : Spec.reported config [] = [].
Proof. unfold Spec.reported. destruct (ImportModels.processItem config); reflexivity. Qed.

(** Every item that imports is reported to the callback once per result. *)
Lemma importItemAsync_reports (item : ImportModels.IPreparedImportItem)
    (binaryFiles : list ImportModels.IBinaryFile)
    (currentItems importedItem : list Core.IImportItemResult) (w w' : World) :
  ImportService.importItemAsync config client rewrite_ids item binaryFiles currentItems w
    = (Returned importedItem, w') ->
  processed w' =
    processed w ++ Spec.reported config (map (Spec.progressReport w item) importedItem).
Proof.
  intros H. by_kind H; unfold bind, ImportService.cast, throw in H.
  - destruct (Core.asContentType _); [unfold ret at 1 in H|discriminate H].
    rewrite importContentTypesAsync_one in H.
    apply createStep_returned in H as (response & _ & -> & -> & _).
    unfold Spec.progressReport; cbn. now rewrite Ekind.
  - destruct (Core.asTaxonomy _); [unfold ret at 1 in H|discriminate H].
    rewrite importTaxonomiesAsync_one in H.
    apply createStep_returned in H as (response & _ & -> & -> & _).
    unfold Spec.progressReport; cbn. now rewrite Ekind0.
  - destruct (Core.asContentTypeSnippet _); [unfold ret at 1 in H|discriminate H].
    rewrite importContentTypeSnippetsAsync_one in H.
    apply createStep_returned in H as (response & _ & -> & -> & _).
    unfold Spec.progressReport; cbn. now rewrite Ekind1.
  - destruct (Core.asContentItem _); [unfold ret at 1 in H|discriminate H].
    rewrite importContentItemAsync_one in H. cbv zeta in H. by_guard H.
    apply createStep_returned in H as (response & _ & -> & -> & _).
    unfold Spec.progressReport; cbn. now rewrite Ekind2.
  - destruct (Core.asLanguageVariant _) as [l|]; [unfold ret at 1 in H|discriminate H].
    rewrite importLanguageVariantsAsync_one in H. cbv zeta in H. by_guard H.
    apply createStep_returned in H as (response & _ & -> & -> & _).
    unfold Spec.progressReport, Spec.displayTitle; cbn.
    match goal with Hl : heap w !! l = Some _ |- _ => rewrite Hl end.
    now rewrite Ekind3.
  - destruct (ImportService.skipLanguages config).
    + injection H as <- <-. cbn. now rewrite reported_nil, app_nil_r.
    + destruct (Core.asLanguage _); [unfold ret at 1 in H|discriminate H].
      rewrite importLanguagesAsync_one in H. cbv zeta in H.
      by_guard H; apply createStep_returned in H as (response & _ & -> & -> & _);
        unfold Spec.progressReport; cbn; now rewrite Ekind4.
  - destruct (Core.asAsset _); [unfold ret at 1 in H|discriminate H].
    rewrite importAssetsAsync_one in H. cbv zeta in H. by_guard H.
    apply createStep_returned in H as (response & _ & -> & -> & _).
    unfold Spec.progressReport; cbn. now rewrite Ekind5.
  - discriminate.
Qed.

End Dispatch.

(** ** More on loops and create steps *)

Section LoopFacts.

Context {A S : Type}.

(** Two bodies that agree everywhere give the same loop. *)
Lemma forOf_ext (body body' : A -> S -> M S) (xs : list A) (s : S) (w : World) :
  (forall x s0 w0, body x s0 w0 = body' x s0 w0) ->
  forOf xs body s w = forOf xs body' s w.
Proof.
  intros Hext. revert s w. induction xs as [|x xs IH]; intros s w; [reflexivity|].
  rewrite !forOf_cons, Hext. destruct (body' x s w) as [[s1|e] w1]; [apply IH|reflexivity].
Qed.

(** A property of the world that every step of the body preserves is
    preserved by the loop, however it ends. *)
Lemma forOf_preserves (P : World -> Prop) (body : A -> S -> M S) (xs : list A) :
  (forall x s w, In x xs -> P w -> P (snd (body x s w))) ->
  forall s w, P w -> P (snd (forOf xs body s w)).
Proof.
  induction xs as [|x xs IH]; intros Hstep s w Hw; [exact Hw|].
  rewrite forOf_cons. specialize (Hstep x s w (or_introl eq_refl) Hw) as Hx.
  destruct (body x s w) as [[s1|e] w1]; cbn in Hx; [|exact Hx].
  apply IH; [|exact Hx]. intros y s0 w0 Hy. apply Hstep. now right.
Qed.

End LoopFacts.

(** A create step that throws has issued its call, logged the cause and
    thrown a new error built from it. *)
Lemma createStep_threw {R} config request (answer : Thrown + R) mk report acc w e w' :
  Spec.createStep config request answer mk report acc w = (Threw e, w') ->
  exists cause, e = JsError (toString cause) /\
    console w' = console w ++ [cause] /\ calls w' = calls w ++ [request].
Proof.
  unfold Spec.createStep. destruct answer as [cause|response].
  - intros [= <- <-]. now exists cause.
  - destruct (ImportModels.processItem config) as [callback|]; [|discriminate].
    destruct (callback _) as [cause|]; [|discriminate].
    intros [= <- <-]. now exists cause.
Qed.

Lemma createStep_returned_console {R} config request (answer : Thrown + R) mk report acc w
    rs w' :
  Spec.createStep config request answer mk report acc w = (Returned rs, w') ->
  console w' = console w.
Proof.
  unfold Spec.createStep. destruct answer as [cause|response]; [discriminate|].
  destruct (ImportModels.processItem config) as [callback|].
  - destruct (callback _); [discriminate|]. now intros [= <- <-].
  - now intros [= <- <-].
Qed.

(** Reading a payload as one kind succeeds only on a payload of that kind. *)
Ltac payload_kind H :=
  match type of H with
  | _ ?p = Some _ => destruct p; try discriminate H; injection H as H; subst
  end.

Section ItemFacts.

Context (config : ImportModels.IImportConfig).
Context (client : ManagementApi.IManagementClient).
Context (rewrite_ids :
  LanguageVariantContracts.ILanguageVariantModelContract ->
  list Core.IImportItemResult ->
  LanguageVariantContracts.ILanguageVariantModelContract * option Thrown).

(** What an item that imports has produced. *)
Lemma importItemAsync_returned (item : ImportModels.IPreparedImportItem)
    (binaryFiles : list ImportModels.IBinaryFile)
    (currentItems importedItem : list Core.IImportItemResult) (w w' : World) :
  ImportService.importItemAsync config client rewrite_ids item binaryFiles currentItems w
    = (Returned importedItem, w') ->
  (Results.passedOver config item = true /\ importedItem = [] /\ w' = w) \/
  (Results.passedOver config item = false /\
   exists r, importedItem = [r] /\
     Core.original r = ImportModels.item item /\
     Core.importId r = Results.modelId (Core.imported r) /\
     Core.originalId r = Results.recordedId rewrite_ids currentItems w (ImportModels.item item) /\
     console w' = console w).
Proof.
  intros H. unfold Results.passedOver.
  by_kind H; unfold bind, ImportService.cast, throw in H.
  - right. rewrite Ekind. split; [reflexivity|].
    destruct (Core.asContentType _) eqn:Hc; [unfold ret at 1 in H|discriminate H].
    payload_kind Hc. rewrite importContentTypesAsync_one in H.
    pose proof (createStep_returned_console _ _ _ _ _ _ _ _ _ H) as Hconsole.
    apply createStep_returned in H as (response & _ & -> & _ & _).
    eexists. split; [reflexivity|]. cbn. auto.
  - right. rewrite Ekind0. split; [reflexivity|].
    destruct (Core.asTaxonomy _) eqn:Hc; [unfold ret at 1 in H|discriminate H].
    payload_kind Hc. rewrite importTaxonomiesAsync_one in H.
    pose proof (createStep_returned_console _ _ _ _ _ _ _ _ _ H) as Hconsole.
    apply createStep_returned in H as (response & _ & -> & _ & _).
    eexists. split; [reflexivity|]. cbn. auto.
  - right. rewrite Ekind1. split; [reflexivity|].
    destruct (Core.asContentTypeSnippet _) eqn:Hc; [unfold ret at 1 in H|discriminate H].
    payload_kind Hc. rewrite importContentTypeSnippetsAsync_one in H.
    pose proof (createStep_returned_console _ _ _ _ _ _ _ _ _ H) as Hconsole.
    apply createStep_returned in H as (response & _ & -> & _ & _).
    eexists. split; [reflexivity|]. cbn. auto.
  - right. rewrite Ekind2. split; [reflexivity|].
    destruct (Core.asContentItem _) eqn:Hc; [unfold ret at 1 in H|discriminate H].
    payload_kind Hc. rewrite importContentItemAsync_one in H. cbv zeta in H. by_guard H.
    pose proof (createStep_returned_console _ _ _ _ _ _ _ _ _ H) as Hconsole.
    apply createStep_returned in H as (response & _ & -> & _ & _).
    eexists. split; [reflexivity|]. cbn. auto.
  - right. rewrite Ekind3. split; [reflexivity|].
    destruct (Core.asLanguageVariant _) as [l|] eqn:Hc; [unfold ret at 1 in H|discriminate H].
    payload_kind Hc. rewrite importLanguageVariantsAsync_one in H. cbv zeta in H. by_guard H.
    pose proof (createStep_returned_console _ _ _ _ _ _ _ _ _ H) as Hconsole.
    apply createStep_returned in H as (response & _ & -> & _ & _).
    eexists. split; [reflexivity|]. cbn.
    match goal with Hl : heap w !! _ = Some _ |- _ => rewrite Hl end. auto.
  - cbn [andb].
    destruct (ImportService.skipLanguages config).
    + left. now injection H as <- <-.
    + right. split; [reflexivity|].
      destruct (Core.asLanguage _) eqn:Hc; [unfold ret at 1 in H|discriminate H].
      payload_kind Hc. rewrite importLanguagesAsync_one in H. cbv zeta in H.
      by_guard H;
        pose proof (createStep_returned_console _ _ _ _ _ _ _ _ _ H) as Hconsole;
        apply createStep_returned in H as (response & _ & -> & _ & _);
        (eexists; split; [reflexivity|]; cbn; auto).
  - right. split; [reflexivity|].
    destruct (Core.asAsset _) eqn:Hc; [unfold ret at 1 in H|discriminate H].
    payload_kind Hc. rewrite importAssetsAsync_one in H. cbv zeta in H. by_guard H.
    pose proof (createStep_returned_console _ _ _ _ _ _ _ _ _ H) as Hconsole.
    apply createStep_returned in H as (response & _ & -> & _ & _).
    eexists. split; [reflexivity|]. cbn. auto.
  - discriminate.
Qed.

End ItemFacts.

(** ** The orchestrator *)

Section Orchestrator.

Context (config : ImportModels.IImportConfig).
Context (client : ManagementApi.IManagementClient).
Context (rewrite_ids :
  LanguageVariantContracts.ILanguageVariantModelContract ->
  list Core.IImportItemResult ->
  LanguageVariantContracts.ILanguageVariantModelContract * option Thrown).

(** The run over [pre ++ rest] continues the run over [pre] with the loop
    over [rest], started from what [pre] returned. *)
Lemma importAsync_app (pre rest : list ImportModels.IPreparedImportItem)
    (binaryFiles : list ImportModels.IBinaryFile) (w : World) :
  ImportService.importAsync config client rewrite_ids
    (ImportModels.importData (pre ++ rest) binaryFiles) w =
  match ImportService.importAsync config client rewrite_ids
          (ImportModels.importData pre binaryFiles) w with
  | (Returned earlier, w1) =>
      forOf rest (fun item importedItems =>
        let* importedItem :=
          ImportService.importItemAsync config client rewrite_ids item binaryFiles
            importedItems in
        ret (importedItems ++ importedItem)) earlier w1
  | (Threw e, w1) => (Threw e, w1)
  end.
Proof. unfold ImportService.importAsync; cbn. apply forOf_app. Qed.

(** C1 (as amended): when the items before [failing] import and [failing]
    throws, the run over the whole list throws that same error and stops in
    the world [failing] left.  Nothing of [later] is attempted, and the caller
    is handed the error only: the results completed so far are not returned. *)
Theorem importAsync_halts_at_first_error
    (earlierItems later : list ImportModels.IPreparedImportItem)
    (failing : ImportModels.IPreparedImportItem)
    (binaryFiles : list ImportModels.IBinaryFile)
    (w w1 w2 : World) (completed : list Core.IImportItemResult) (e : Thrown)
    (Hearlier : ImportService.importAsync config client rewrite_ids
                  (ImportModels.importData earlierItems binaryFiles) w
                = (Returned completed, w1))
    (Hfailing : ImportService.importItemAsync config client rewrite_ids failing binaryFiles
                  completed w1 = (Threw e, w2)) :
  ImportService.importAsync config client rewrite_ids
    (ImportModels.importData (earlierItems ++ failing :: later) binaryFiles) w
  = (Threw e, w2).
Proof.
  rewrite importAsync_app, Hearlier, forOf_cons.
  unfold bind at 1. now rewrite Hfailing.
Qed.

(** C2: the run over no item returns the empty sequence; the run over
    [pre ++ [item]] is the run over [pre] followed, only once that has
    returned, by the import of [item] with exactly the results of [pre] as its
    accumulated-results argument, and it returns those results followed by
    the item's own; an item that imports is reported to the progress
    callback once per result, with its display title, its kind and the
    imported payload; and an item that imports yields exactly one result,
    made from its own payload, and so exactly one report, unless it is a
    language item under [skip.languages], which yields none and leaves the
    world as it was. *)
Theorem importAsync_sequential (binaryFiles : list ImportModels.IBinaryFile) :
  (forall w,
     ImportService.importAsync config client rewrite_ids
       (ImportModels.importData [] binaryFiles) w = (Returned [], w)) /\
  (forall pre item w,
     ImportService.importAsync config client rewrite_ids
       (ImportModels.importData (pre ++ [item]) binaryFiles) w =
     match ImportService.importAsync config client rewrite_ids
             (ImportModels.importData pre binaryFiles) w with
     | (Returned earlier, w1) =>
         match ImportService.importItemAsync config client rewrite_ids item binaryFiles
                 earlier w1 with
         | (Returned importedItem, w2) => (Returned (earlier ++ importedItem), w2)
         | (Threw e, w2) => (Threw e, w2)
         end
     | (Threw e, w1) => (Threw e, w1)
     end) /\
  (forall item currentItems w importedItem w',
     ImportService.importItemAsync config client rewrite_ids item binaryFiles currentItems w
       = (Returned importedItem, w') ->
     processed w' =
       processed w ++ Spec.reported config (map (Spec.progressReport w item) importedItem)) /\
  (forall item currentItems w importedItem w',
     ImportService.importItemAsync config client rewrite_ids item binaryFiles currentItems w
       = (Returned importedItem, w') ->
     (Results.passedOver config item = true /\ importedItem = [] /\ w' = w) \/
     (Results.passedOver config item = false /\
      exists r,
        importedItem = [r] /\
        Core.original r = ImportModels.item item /\
        processed w' = processed w ++ Spec.reported config [Spec.progressReport w item r])).
Proof.
  split; [reflexivity|]. split; [|split].
  - intros pre item w. rewrite importAsync_app.
    destruct (ImportService.importAsync _ _ _ _ w) as [[earlier|e] w1]; [|reflexivity].
    rewrite forOf_single. unfold bind, ret.
    destruct (ImportService.importItemAsync _ _ _ _ _ _ _) as [[r|e] w2]; reflexivity.
  - intros item currentItems w importedItem w'. apply importItemAsync_reports.
  - intros item currentItems w importedItem w' Hitem.
    pose proof (importItemAsync_reports _ _ _ _ _ _ _ _ _ Hitem) as Hreports.
    apply importItemAsync_returned in Hitem
      as [Hpassed | (Hpassed & r & -> & Horiginal & _)]; [now left|].
    right. split; [exact Hpassed|]. exists r. auto.
Qed.

(** C9: an item whose tag is none of the seven supported kinds makes
    [importItemAsync] throw an error naming the tag; the world is left as it
    was (no remote call, console line, callback or write), and the
    accumulated results, which the function only reads, play no part. *)
Theorem importItemAsync_unsupported (item : ImportModels.IPreparedImportItem)
    (binaryFiles : list ImportModels.IBinaryFile)
    (currentItems : list Core.IImportItemResult) (w : World)
    (Hkind : ~ In (ImportModels.type item) Spec.supportedItemTypes) :
  ImportService.importItemAsync config client rewrite_ids item binaryFiles currentItems w
  = (Threw (JsError ("Not supported import data type '" +:+ ImportModels.type item +:+ "'")),
     w).
Proof.
  unfold ImportService.importItemAsync; cbv zeta.
  repeat match goal with
         | |- context [String.eqb ?a ?b] =>
             let E := fresh "Ekind" in
             destruct (String.eqb a b) eqn:E;
             [apply String.eqb_eq in E; exfalso; apply Hkind; rewrite E; cbn; tauto|]
         end.
  reflexivity.
Qed.

(** C10: with [skip.languages] set to true, a language item returns the empty
    result list and leaves the world as it was; an item of any other kind is
    imported exactly as under any other [skip] entry. *)
Theorem importItemAsync_skip_languages (s : ImportModels.ISkip)
    (item : ImportModels.IPreparedImportItem)
    (binaryFiles : list ImportModels.IBinaryFile)
    (currentItems : list Core.IImportItemResult) (w : World)
    (Hskip : ImportModels.skip config = Some s)
    (Hlanguages : ImportModels.languages s = Some true) :
  (ImportModels.type item = "language" ->
   ImportService.importItemAsync config client rewrite_ids item binaryFiles currentItems w
   = (Returned [], w)) /\
  (ImportModels.type item <> "language" ->
   forall other : option ImportModels.ISkip,
     ImportService.importItemAsync config client rewrite_ids item binaryFiles currentItems w
     = ImportService.importItemAsync (ImportModels.withSkip config other) client rewrite_ids
         item binaryFiles currentItems w).
Proof.
  split.
  - intros Hkind. unfold ImportService.importItemAsync, ImportService.skipLanguages; cbv zeta.
    rewrite Hkind, Hskip, Hlanguages. reflexivity.
  - intros Hkind other. apply String.eqb_neq in Hkind.
    unfold ImportService.importItemAsync; cbv zeta. rewrite Hkind. reflexivity.
Qed.

End Orchestrator.

(** ** The importers *)

Section Importers.

Context (config : ImportModels.IImportConfig).
Context (client : ManagementApi.IManagementClient).
Context (rewrite_ids :
  LanguageVariantContracts.ILanguageVariantModelContract ->
  list Core.IImportItemResult ->
  LanguageVariantContracts.ILanguageVariantModelContract * option Thrown).

(** C3: a language whose fallback codename is set issues one create-language
    call.  If that codename is the language's own, the call names the
    fallback by the reserved id 00000000-0000-0000-0000-000000000000;
    otherwise it names it by that codename.  The accumulated results are not
    consulted: the import of the language is the same for any two of them. *)
Theorem importLanguagesAsync_fallback (language : LanguageContracts.ILanguageModelContract)
    (fallback : SharedContracts.IReferenceObjectContract) (w : World)
    (Hfallback : LanguageContracts.fallback_language language = Some fallback)
    (Hset : falsy (SharedContracts.codename fallback) = false) :
  (exists data,
     calls (snd (ImportService.importLanguagesAsync config client [language] w))
       = calls w ++ [ManagementApi.AddLanguage data] /\
     ManagementApi.codename data = LanguageContracts.codename language /\
     (SharedContracts.codename fallback = Some (LanguageContracts.codename language) ->
      ManagementApi.fallback_language data =
        {| SharedContracts.id := Some "00000000-0000-0000-0000-000000000000";
           SharedContracts.codename := None; SharedContracts.external_id := None |}) /\
     (SharedContracts.codename fallback <> Some (LanguageContracts.codename language) ->
      ManagementApi.fallback_language data =
        {| SharedContracts.id := None;
           SharedContracts.codename := SharedContracts.codename fallback;
           SharedContracts.external_id := None |})) /\
  (forall binaryFiles currentItems currentItems',
     ImportService.importItemAsync config client rewrite_ids
       {| ImportModels.type := "language"; ImportModels.item := Core.languageContract language |}
       binaryFiles currentItems w
     = ImportService.importItemAsync config client rewrite_ids
       {| ImportModels.type := "language"; ImportModels.item := Core.languageContract language |}
       binaryFiles currentItems' w).
Proof.
  split; [|reflexivity].
  rewrite importLanguagesAsync_one, Hfallback. cbv zeta. rewrite Hset.
  eexists. split; [apply createStep_calls|]. split; [reflexivity|]. cbn.
  destruct (SharedContracts.codename fallback) as [c|]; [|discriminate Hset]. cbn.
  split.
  - intros [= ->]. now rewrite String.eqb_refl.
  - intros Hother.
    destruct (String.eqb _ c) eqn:E; [apply String.eqb_eq in E; congruence|reflexivity].
Qed.

(** C4: an asset with no binary file of its id fails before anything is
    called; an asset with one uploads the bytes of the first such file and
    then, if the upload is answered, creates the asset with the file
    reference it was answered with. *)
Theorem importAssetsAsync_binary (asset : AssetContracts.IAssetModelContract)
    (binaryFiles : list ImportModels.IBinaryFile) (w : World) :
  ((forall m, In m binaryFiles ->
      AssetContracts.id (ImportModels.asset m) <> AssetContracts.id asset) ->
   ImportService.importAssetsAsync config client [asset] binaryFiles w
   = (Threw (JsError ("Could not find binary file for asset with id '"
                      +:+ AssetContracts.id asset +:+ "'")), w)) /\
  ((exists m, In m binaryFiles /\
      AssetContracts.id (ImportModels.asset m) = AssetContracts.id asset) ->
   exists binaryFile,
     In binaryFile binaryFiles /\
     AssetContracts.id (ImportModels.asset binaryFile) = AssetContracts.id asset /\
     let upload :=
       {| ManagementApi.binaryData := ImportModels.binaryData binaryFile;
          ManagementApi.contentType := AssetContracts.type asset;
          ManagementApi.filename := AssetContracts.file_name asset |} in
     calls (snd (ImportService.importAssetsAsync config client [asset] binaryFiles w))
     = calls w ++ ManagementApi.UploadBinaryFile upload ::
         match ManagementApi.uploadBinaryFile client (calls w) upload with
         | inl _ => []
         | inr fileReference =>
             [ManagementApi.AddAsset
                {| ManagementApi.descriptions := AssetContracts.descriptions asset;
                   ManagementApi.file_reference := fileReference;
                   ManagementApi.title := AssetContracts.title asset;
                   ManagementApi.asset_external_id := AssetContracts.external_id asset |}]
         end).
Proof.
  rewrite importAssetsAsync_one. unfold ImportService.findBinaryFile. split.
  - intros Hnone. destruct (find _ binaryFiles) as [m|] eqn:Hfind; [|reflexivity].
    apply find_some in Hfind as [Hin Heq]. apply String.eqb_eq in Heq.
    now apply Hnone in Hin.
  - intros (m & Hin & Heq). destruct (find _ binaryFiles) as [binaryFile|] eqn:Hfind.
    + apply find_some in Hfind as [Hin' Heq']. apply String.eqb_eq in Heq'.
      exists binaryFile. split; [assumption|]. split; [assumption|]. cbv zeta.
      destruct (ManagementApi.uploadBinaryFile _ _ _) as [e|fileReference]; [reflexivity|].
      rewrite createStep_calls. cbn. now rewrite <- app_assoc.
    + apply (find_none _ _ Hfind) in Hin. apply String.eqb_neq in Hin. contradiction.
Qed.

(** C5: a language variant whose item codename, or whose language codename,
    is missing fails before anything is called or written; one that has both
    and whose references are rewritten without error issues one upsert,
    addressed by that pair of codenames and carrying the rewritten elements. *)
Theorem importLanguageVariantsAsync_codenames (languageVariant : loc)
    (payload : LanguageVariantContracts.ILanguageVariantModelContract)
    (currentItems : list Core.IImportItemResult) (w : World)
    (Hpayload : heap w !! languageVariant = Some payload) :
  let itemCodename := SharedContracts.codename (LanguageVariantContracts.item payload) in
  let languageCodename := SharedContracts.codename (LanguageVariantContracts.language payload) in
  (falsy itemCodename = true ->
   ImportService.importLanguageVariantsAsync config client rewrite_ids [languageVariant]
     currentItems w = (Threw (JsError "Missing item codename for item"), w)) /\
  (falsy itemCodename = false -> falsy languageCodename = true ->
   ImportService.importLanguageVariantsAsync config client rewrite_ids [languageVariant]
     currentItems w = (Threw (JsError "Missing language codename for item"), w)) /\
  (falsy itemCodename = false -> falsy languageCodename = false ->
   calls (snd (ImportService.importLanguageVariantsAsync config client rewrite_ids
                 [languageVariant] currentItems w))
   = calls w ++
     match snd (rewrite_ids payload currentItems) with
     | Some _ => []
     | None =>
         [ManagementApi.UpsertLanguageVariant itemCodename languageCodename
            (LanguageVariantContracts.elements (fst (rewrite_ids payload currentItems)))]
     end).
Proof.
  cbv zeta. rewrite importLanguageVariantsAsync_one, Hpayload. cbv zeta.
  split; [|split].
  - intros ->. reflexivity.
  - intros -> ->. reflexivity.
  - intros -> ->. destruct (snd (rewrite_ids payload currentItems)).
    + cbn. now rewrite app_nil_r.
    + now rewrite createStep_calls.
Qed.

(** What line 271 does: whenever a language variant is submitted, the payload
    object holds the configured workflow step id, whatever step id the source
    had given it, and the elements sent are the elements of that object. *)
Theorem importLanguageVariantsAsync_workflow_step (languageVariant : loc)
    (payload : LanguageVariantContracts.ILanguageVariantModelContract)
    (currentItems : list Core.IImportItemResult) (w : World)
    (Hpayload : heap w !! languageVariant = Some payload)
    (Hitem : falsy (SharedContracts.codename (LanguageVariantContracts.item payload)) = false)
    (Hlanguage :
       falsy (SharedContracts.codename (LanguageVariantContracts.language payload)) = false)
    (Hrewritten : snd (rewrite_ids payload currentItems) = None) :
  let w' := snd (ImportService.importLanguageVariantsAsync config client rewrite_ids
                   [languageVariant] currentItems w) in
  exists submitted,
    heap w' !! languageVariant = Some submitted /\
    SharedContracts.id (LanguageVariantContracts.workflow_step submitted)
      = Some (ImportModels.workflowIdForImportedItems config) /\
    calls w' = calls w ++
      [ManagementApi.UpsertLanguageVariant
         (SharedContracts.codename (LanguageVariantContracts.item payload))
         (SharedContracts.codename (LanguageVariantContracts.language payload))
         (LanguageVariantContracts.elements submitted)].
Proof.
  cbv zeta. rewrite importLanguageVariantsAsync_one, Hpayload. cbv zeta.
  rewrite Hitem, Hlanguage, Hrewritten.
  eexists. rewrite createStep_heap, createStep_calls. cbn.
  split; [apply lookup_insert_eq|]. split; reflexivity.
Qed.


(** C7: a content item whose type codename is missing fails with the error
    naming it before anything is called; one that has it issues one
    create-content-item call whose type is named by that codename alone. *)
Theorem importContentItemAsync_type_codename
    (contentItem : ContentItemContracts.IContentItemModelContract) (w : World) :
  let typeCodename := SharedContracts.codename (ContentItemContracts.type contentItem) in
  (falsy typeCodename = true ->
   ImportService.importContentItemAsync config client [contentItem] w
   = (Threw (JsError ("Content item '" +:+ ContentItemContracts.codename contentItem
                      +:+ "' has unset type codename")), w)) /\
  (falsy typeCodename = false ->
   calls (snd (ImportService.importContentItemAsync config client [contentItem] w))
   = calls w ++
     [ManagementApi.AddContentItem
        {| ManagementApi.item_name := ContentItemContracts.name contentItem;
           ManagementApi.type := {| SharedContracts.id := None;
                                    SharedContracts.codename := typeCodename;
                                    SharedContracts.external_id := None |};
           ManagementApi.item_codename := ContentItemContracts.codename contentItem;
           ManagementApi.item_external_id := ContentItemContracts.external_id contentItem |}]).
Proof.
  cbv zeta. rewrite importContentItemAsync_one. cbv zeta. split; intros ->.
  - reflexivity.
  - apply createStep_calls.
Qed.


End Importers.

(** ** The statements at work on the concrete project *)

Lemma importAsync_halts_at_first_error_witness :
  ImportService.importAsync Fixtures.config Fixtures.acceptAll Fixtures.keepIds
    Fixtures.brokenRun Fixtures.start
  = (Threw (JsError "Content item 'orphan' has unset type codename"),
     snd (ImportService.importAsync Fixtures.config Fixtures.acceptAll Fixtures.keepIds
            (ImportModels.importData [Fixtures.topicsItem; Fixtures.articleItem] [])
            Fixtures.start)).
Proof.
  apply (importAsync_halts_at_first_error Fixtures.config Fixtures.acceptAll Fixtures.keepIds
           [Fixtures.topicsItem; Fixtures.articleItem] [Fixtures.aboutItem]
           Fixtures.orphanItem [] Fixtures.start
           (snd (ImportService.importAsync Fixtures.config Fixtures.acceptAll Fixtures.keepIds
                   (ImportModels.importData [Fixtures.topicsItem; Fixtures.articleItem] [])
                   Fixtures.start))
           (snd (ImportService.importAsync Fixtures.config Fixtures.acceptAll Fixtures.keepIds
                   (ImportModels.importData [Fixtures.topicsItem; Fixtures.articleItem] [])
                   Fixtures.start))
           Fixtures.completedBeforeOrphan).
  - vm_compute. reflexivity.
  - vm_compute. reflexivity.
Defined.

(** The spec's example of a failing run: the first two items complete, the
    third lacks its type codename.  The caller gets the error and not the two
    completed results. *)
Lemma importAsync_failure_returns_no_results :
  fst (ImportService.importAsync Fixtures.config Fixtures.acceptAll Fixtures.keepIds
         (ImportModels.importData [Fixtures.topicsItem; Fixtures.articleItem] [])
         Fixtures.start)
    = Returned Fixtures.completedBeforeOrphan /\
  fst (ImportService.importAsync Fixtures.config Fixtures.acceptAll Fixtures.keepIds
         Fixtures.brokenRun Fixtures.start)
    = Threw (JsError "Content item 'orphan' has unset type codename") /\
  fst (ImportService.importAsync Fixtures.config Fixtures.acceptAll Fixtures.keepIds
         Fixtures.brokenRun Fixtures.start)
    <> Returned Fixtures.completedBeforeOrphan.
Proof.
  split; [vm_compute; reflexivity|]. split; [vm_compute; reflexivity|].
  vm_compute. discriminate.
Qed.

Lemma importAsync_sequential_witness :
  fst (ImportService.importAsync Fixtures.config Fixtures.acceptAll Fixtures.keepIds
         (ImportModels.importData ([Fixtures.topicsItem] ++ [Fixtures.articleItem]) [])
         Fixtures.start)
    = Returned Fixtures.completedBeforeOrphan /\
  processed (snd (ImportService.importItemAsync Fixtures.config Fixtures.acceptAll
                    Fixtures.keepIds Fixtures.homeEnglishItem [] [] Fixtures.start))
    = [ {| Core.data :=
             Core.languageVariantModel
               {| LanguageVariantModels.item :=
                    {| SharedContracts.id := Some "new-home";
                       SharedContracts.codename := Some "home";
                       SharedContracts.external_id := None |};
                  LanguageVariantModels.language := Fixtures.byCodename "en";
                  LanguageVariantModels.elements :=
                    LanguageVariantContracts.elements Fixtures.homeEnglish |};
           Core.title := "home (en)";
           Core.type := "languageVariant" |} ].
Proof.
  destruct (importAsync_sequential Fixtures.config Fixtures.acceptAll Fixtures.keepIds [])
    as (_ & Hsnoc & Hreports & _).
  split.
  - rewrite Hsnoc. vm_compute. reflexivity.
  - destruct (ImportService.importItemAsync _ _ _ _ _ _ _) as [[importedItem|e] w'] eqn:E.
    + cbn [snd]. rewrite (Hreports _ _ _ _ _ E).
      vm_compute in E. injection E as <- <-. vm_compute. reflexivity.
    + vm_compute in E. discriminate E.
Defined.

Lemma importLanguagesAsync_fallback_witness :
  (exists data,
     calls (snd (ImportService.importLanguagesAsync Fixtures.config Fixtures.acceptAll
                   [Fixtures.english] Fixtures.start)) = [ManagementApi.AddLanguage data] /\
     ManagementApi.fallback_language data
       = Fixtures.byId "00000000-0000-0000-0000-000000000000") /\
  (exists data,
     calls (snd (ImportService.importLanguagesAsync Fixtures.config Fixtures.acceptAll
                   [Fixtures.czech] Fixtures.start)) = [ManagementApi.AddLanguage data] /\
     ManagementApi.fallback_language data = Fixtures.byCodename "en").
Proof.
  split.
  - destruct (importLanguagesAsync_fallback Fixtures.config Fixtures.acceptAll Fixtures.keepIds
                Fixtures.english (Fixtures.byCodename "en") Fixtures.start eq_refl eq_refl)
      as [(data & Hcalls & _ & Hself & _) _].
    exists data. split; [exact Hcalls|]. apply Hself. reflexivity.
  - destruct (importLanguagesAsync_fallback Fixtures.config Fixtures.acceptAll Fixtures.keepIds
                Fixtures.czech (Fixtures.byCodename "en") Fixtures.start eq_refl eq_refl)
      as [(data & Hcalls & _ & _ & Hother) _].
    exists data. split; [exact Hcalls|]. apply Hother. discriminate.
Defined.

Lemma importAssetsAsync_binary_witness :
  ImportService.importAssetsAsync Fixtures.config Fixtures.acceptAll [Fixtures.logo] []
    Fixtures.start
  = (Threw (JsError "Could not find binary file for asset with id 'a1'"), Fixtures.start) /\
  exists binaryFile,
    In binaryFile [Fixtures.logoFile] /\
    calls (snd (ImportService.importAssetsAsync Fixtures.config Fixtures.acceptAll
                  [Fixtures.logo] [Fixtures.logoFile] Fixtures.start))
    = [ ManagementApi.UploadBinaryFile
          {| ManagementApi.binaryData := ImportModels.binaryData binaryFile;
             ManagementApi.contentType := "image/png";
             ManagementApi.filename := "logo.png" |};
        ManagementApi.AddAsset
          {| ManagementApi.descriptions := [];
             ManagementApi.file_reference :=
               {| AssetModels.refId := "file-logo.png"; AssetModels.refType := "internal" |};
             ManagementApi.title := Some "Logo";
             ManagementApi.asset_external_id := None |} ].
Proof.
  split.
  - apply (importAssetsAsync_binary Fixtures.config Fixtures.acceptAll Fixtures.logo []
             Fixtures.start).
    intros m [].
  - destruct (importAssetsAsync_binary Fixtures.config Fixtures.acceptAll Fixtures.logo
                [Fixtures.logoFile] Fixtures.start) as [_ Hsome].
    destruct Hsome as (binaryFile & Hin & _ & Hcalls).
    + exists Fixtures.logoFile. split; [left; reflexivity | reflexivity].
    + exists binaryFile. split; [exact Hin | exact Hcalls].
Defined.

Lemma importLanguageVariantsAsync_codenames_witness :
  ImportService.importLanguageVariantsAsync Fixtures.config Fixtures.acceptAll
    Fixtures.keepIds [1] [] Fixtures.start
  = (Threw (JsError "Missing language codename for item"), Fixtures.start) /\
  calls (snd (ImportService.importLanguageVariantsAsync Fixtures.config Fixtures.acceptAll
                Fixtures.keepIds [0] [] Fixtures.start))
  = [ManagementApi.UpsertLanguageVariant (Some "home") (Some "en")
       (LanguageVariantContracts.elements Fixtures.homeEnglish)].
Proof.
  split.
  - apply (importLanguageVariantsAsync_codenames Fixtures.config Fixtures.acceptAll
             Fixtures.keepIds 1 Fixtures.homeUntranslated [] Fixtures.start).
    + vm_compute. reflexivity.
    + reflexivity.
    + reflexivity.
  - apply (importLanguageVariantsAsync_codenames Fixtures.config Fixtures.acceptAll
             Fixtures.keepIds 0 Fixtures.homeEnglish [] Fixtures.start).
    + vm_compute. reflexivity.
    + reflexivity.
    + reflexivity.
Defined.

Lemma importLanguageVariantsAsync_workflow_step_witness :
  exists submitted,
    heap (snd (ImportService.importLanguageVariantsAsync Fixtures.config Fixtures.acceptAll
                 Fixtures.keepIds [0] [] Fixtures.start)) !! 0 = Some submitted /\
    SharedContracts.id (LanguageVariantContracts.workflow_step submitted)
      = Some "step-published" /\
    calls (snd (ImportService.importLanguageVariantsAsync Fixtures.config Fixtures.acceptAll
                  Fixtures.keepIds [0] [] Fixtures.start))
    = [ManagementApi.UpsertLanguageVariant (Some "home") (Some "en")
         (LanguageVariantContracts.elements submitted)].
Proof.
  apply (importLanguageVariantsAsync_workflow_step Fixtures.config Fixtures.acceptAll
           Fixtures.keepIds 0 Fixtures.homeEnglish [] Fixtures.start).
  - vm_compute. reflexivity.
  - reflexivity.
  - reflexivity.
  - reflexivity.
Defined.


Lemma importContentItemAsync_type_codename_witness :
  ImportService.importContentItemAsync Fixtures.config Fixtures.acceptAll [Fixtures.orphan]
    Fixtures.start
  = (Threw (JsError "Content item 'orphan' has unset type codename"), Fixtures.start) /\
  calls (snd (ImportService.importContentItemAsync Fixtures.config Fixtures.acceptAll
                [Fixtures.home] Fixtures.start))
  = [ManagementApi.AddContentItem
       {| ManagementApi.item_name := "Home";
          ManagementApi.type := Fixtures.byCodename "article";
          ManagementApi.item_codename := "home";
          ManagementApi.item_external_id := None |}].
Proof.
  split.
  - apply (importContentItemAsync_type_codename Fixtures.config Fixtures.acceptAll
             Fixtures.orphan Fixtures.start).
    reflexivity.
  - apply (importContentItemAsync_type_codename Fixtures.config Fixtures.acceptAll
             Fixtures.home Fixtures.start).
    reflexivity.
Defined.



Lemma importItemAsync_unsupported_witness :
  ImportService.importItemAsync Fixtures.config Fixtures.acceptAll Fixtures.keepIds
    Fixtures.folderItem [] Fixtures.completedBeforeOrphan Fixtures.start
  = (Threw (JsError "Not supported import data type 'assetFolder'"), Fixtures.start).
Proof.
  apply (importItemAsync_unsupported Fixtures.config Fixtures.acceptAll Fixtures.keepIds
           Fixtures.folderItem [] Fixtures.completedBeforeOrphan Fixtures.start).
  cbn. intros H. repeat (destruct H as [H|H]; [discriminate H|]). exact H.
Defined.

Lemma importItemAsync_skip_languages_witness :
  ImportService.importItemAsync Fixtures.configSkippingLanguages Fixtures.acceptAll
    Fixtures.keepIds Fixtures.englishItem [] [] Fixtures.start = (Returned [], Fixtures.start) /\
  ImportService.importItemAsync Fixtures.configSkippingLanguages Fixtures.acceptAll
    Fixtures.keepIds Fixtures.topicsItem [] [] Fixtures.start
  = ImportService.importItemAsync Fixtures.config Fixtures.acceptAll
    Fixtures.keepIds Fixtures.topicsItem [] [] Fixtures.start.
Proof.
  destruct (importItemAsync_skip_languages Fixtures.configSkippingLanguages Fixtures.acceptAll
              Fixtures.keepIds {| ImportModels.languages := Some true |} Fixtures.englishItem
              [] [] Fixtures.start eq_refl eq_refl) as [Hlanguage _].
  destruct (importItemAsync_skip_languages Fixtures.configSkippingLanguages Fixtures.acceptAll
              Fixtures.keepIds {| ImportModels.languages := Some true |} Fixtures.topicsItem
              [] [] Fixtures.start eq_refl eq_refl) as [_ Hother].
  split.
  - apply Hlanguage. reflexivity.
  - apply (Hother ltac:(discriminate) None).
Defined.

(** * Further properties of the import service *)

Section ItemFailures.

Context (config : ImportModels.IImportConfig).
Context (client : ManagementApi.IManagementClient).
Context (rewrite_ids :
  LanguageVariantContracts.ILanguageVariantModelContract ->
  list Core.IImportItemResult ->
  LanguageVariantContracts.ILanguageVariantModelContract * option Thrown).

(** Closes a case of an item that threw: either nothing was logged, or a
    create step logged its cause. *)
Ltac threw_case H :=
  first
    [ discriminate H
    | injection H as <- <-; left; reflexivity
    | let cause := fresh "cause" in
      let Hc := fresh "Hc" in
      apply createStep_threw in H as (cause & -> & Hc & _);
      right; exists cause; split; [reflexivity | exact Hc] ].

(** An item that throws has logged nothing, or has logged the cause of the
    error it throws. *)
Lemma importItemAsync_threw (item : ImportModels.IPreparedImportItem)
    (binaryFiles : list ImportModels.IBinaryFile)
    (currentItems : list Core.IImportItemResult) (w w' : World) (e : Thrown) :
  ImportService.importItemAsync config client rewrite_ids item binaryFiles currentItems w
    = (Threw e, w') ->
  console w' = console w \/
  exists cause, e = JsError (toString cause) /\ console w' = console w ++ [cause].
Proof.
  intros H. by_kind H; unfold bind, ImportService.cast, throw in H.
  - destruct (Core.asContentType _); [unfold ret at 1 in H|threw_case H].
    rewrite importContentTypesAsync_one in H. threw_case H.
  - destruct (Core.asTaxonomy _); [unfold ret at 1 in H|threw_case H].
    rewrite importTaxonomiesAsync_one in H. threw_case H.
  - destruct (Core.asContentTypeSnippet _); [unfold ret at 1 in H|threw_case H].
    rewrite importContentTypeSnippetsAsync_one in H. threw_case H.
  - destruct (Core.asContentItem _); [unfold ret at 1 in H|threw_case H].
    rewrite importContentItemAsync_one in H. cbv zeta in H.
    destruct (falsy _); threw_case H.
  - destruct (Core.asLanguageVariant _) as [l|]; [unfold ret at 1 in H|threw_case H].
    rewrite importLanguageVariantsAsync_one in H. cbv zeta in H.
    destruct (heap w !! l); [|threw_case H].
    destruct (falsy _); [threw_case H|]. destruct (falsy _); [threw_case H|].
    destruct (snd (rewrite_ids _ _)); threw_case H.
  - destruct (ImportService.skipLanguages config); [threw_case H|].
    destruct (Core.asLanguage _); [unfold ret at 1 in H|threw_case H].
    rewrite importLanguagesAsync_one in H. cbv zeta in H.
    destruct (LanguageContracts.fallback_language _); [|threw_case H].
    destruct (falsy _); threw_case H.
  - destruct (Core.asAsset _); [unfold ret at 1 in H|threw_case H].
    rewrite importAssetsAsync_one in H. cbv zeta in H.
    destruct (ImportService.findBinaryFile _ _); [|threw_case H].
    destruct (ManagementApi.uploadBinaryFile _ _ _); threw_case H.
  - threw_case H.
Qed.

(** Importing an item never touches a payload object other than the
    language variant it names. *)
Lemma importItemAsync_store_frame (item : ImportModels.IPreparedImportItem)
    (binaryFiles : list ImportModels.IBinaryFile)
    (currentItems : list Core.IImportItemResult) (w : World) (l : loc) :
  (ImportModels.type item = "languageVariant" ->
   ImportModels.item item <> Core.languageVariantContract l) ->
  heap (snd (ImportService.importItemAsync config client rewrite_ids item binaryFiles
               currentItems w)) !! l = heap w !! l.
Proof.
  intros Hother.
  destruct (ImportService.importItemAsync _ _ _ _ _ _ _) as [out w'] eqn:H. cbn [snd].
  by_kind H; unfold bind, ImportService.cast, throw in H.
  - destruct (Core.asContentType _); [unfold ret at 1 in H|now injection H as <- <-].
    rewrite importContentTypesAsync_one in H.
    apply (f_equal snd) in H. cbn [snd] in H. subst w'. now rewrite createStep_heap.
  - destruct (Core.asTaxonomy _); [unfold ret at 1 in H|now injection H as <- <-].
    rewrite importTaxonomiesAsync_one in H.
    apply (f_equal snd) in H. cbn [snd] in H. subst w'. now rewrite createStep_heap.
  - destruct (Core.asContentTypeSnippet _); [unfold ret at 1 in H|now injection H as <- <-].
    rewrite importContentTypeSnippetsAsync_one in H.
    apply (f_equal snd) in H. cbn [snd] in H. subst w'. now rewrite createStep_heap.
  - destruct (Core.asContentItem _); [unfold ret at 1 in H|now injection H as <- <-].
    rewrite importContentItemAsync_one in H. cbv zeta in H.
    apply (f_equal snd) in H. cbn [snd] in H. subst w'.
    destruct (falsy _); [reflexivity|]. now rewrite createStep_heap.
  - destruct (Core.asLanguageVariant _) as [l0|] eqn:Hc;
      [unfold ret at 1 in H|now injection H as <- <-].
    payload_kind Hc. specialize (Hother Ekind3).
    assert (l0 <> l) as Hne by congruence.
    rewrite importLanguageVariantsAsync_one in H. cbv zeta in H.
    apply (f_equal snd) in H. cbn [snd] in H. subst w'.
    destruct (heap w !! l0); [|reflexivity].
    destruct (falsy _); [reflexivity|]. destruct (falsy _); [reflexivity|].
    destruct (snd (rewrite_ids _ _)); [|rewrite createStep_heap];
      cbn; now apply lookup_insert_ne.
  - destruct (ImportService.skipLanguages config); [now injection H as <- <-|].
    destruct (Core.asLanguage _); [unfold ret at 1 in H|now injection H as <- <-].
    rewrite importLanguagesAsync_one in H. cbv zeta in H.
    apply (f_equal snd) in H. cbn [snd] in H. subst w'.
    destruct (LanguageContracts.fallback_language _); [|reflexivity].
    destruct (falsy _); [reflexivity|]. now rewrite createStep_heap.
  - destruct (Core.asAsset _); [unfold ret at 1 in H|now injection H as <- <-].
    rewrite importAssetsAsync_one in H. cbv zeta in H.
    apply (f_equal snd) in H. cbn [snd] in H. subst w'.
    destruct (ImportService.findBinaryFile _ _); [|reflexivity].
    destruct (ManagementApi.uploadBinaryFile _ _ _); [reflexivity|].
    now rewrite createStep_heap.
  - now injection H as <- <-.
Qed.

End ItemFailures.

(** ** Whole runs *)

Section Runs.

Context (config : ImportModels.IImportConfig).
Context (client : ManagementApi.IManagementClient).
Context (rewrite_ids :
  LanguageVariantContracts.ILanguageVariantModelContract ->
  list Core.IImportItemResult ->
  LanguageVariantContracts.ILanguageVariantModelContract * option Thrown).

Lemma reported_app (xs ys : list Core.IProcessedItem) :
  Spec.reported config (xs ++ ys) = Spec.reported config xs ++ Spec.reported config ys.
Proof. unfold Spec.reported. now destruct (ImportModels.processItem config). Qed.

(** The loop of [importAsync], started from any accumulated results: when it
    returns, it has added one result per item not passed over, in order, has
    reported each of them, and has logged nothing. *)
Lemma importLoop_returned (binaryFiles : list ImportModels.IBinaryFile)
    (items : list ImportModels.IPreparedImportItem)
    (acc rs : list Core.IImportItemResult) (w w' : World) :
  forOf items (fun item importedItems =>
    let* importedItem :=
      ImportService.importItemAsync config client rewrite_ids item binaryFiles
        importedItems in
    ret (importedItems ++ importedItem)) acc w = (Returned rs, w') ->
  exists added,
    rs = acc ++ added /\
    map Core.original added =
      map ImportModels.item
        (List.filter (fun item => negb (Results.passedOver config item)) items) /\
    console w' = console w /\
    exists reports,
      processed w' = processed w ++ Spec.reported config reports /\
      map Core.data reports = map Core.imported added.
Proof.
  revert acc w. induction items as [|item items IH]; intros acc w H.
  - injection H as <- <-. exists []. rewrite app_nil_r. repeat split.
    exists []. now rewrite reported_nil, app_nil_r.
  - rewrite forOf_cons in H. unfold bind at 1 in H.
    destruct (ImportService.importItemAsync _ _ _ _ _ _ _) as [[r|e] w1] eqn:Hitem;
      [unfold ret at 1 in H|discriminate H].
    pose proof (importItemAsync_reports _ _ _ _ _ _ _ _ _ Hitem) as Hreports.
    apply importItemAsync_returned in Hitem.
    apply IH in H as (added & -> & Horiginals & Hconsole & reports & Hprocessed & Hdata).
    cbn [List.filter].
    destruct Hitem as [(Hskip & -> & ->) | (Hskip & r0 & -> & Horiginal & _ & _ & Hconsole1)];
      rewrite Hskip; cbn [negb].
    + exists added. rewrite app_nil_r. repeat split; try assumption.
      exists reports. split; assumption.
    + exists (r0 :: added). rewrite <- app_assoc. cbn [app map].
      rewrite Horiginal, Horiginals, Hconsole, Hconsole1. repeat split.
      exists (Spec.progressReport w item r0 :: reports).
      rewrite Hprocessed, Hreports. cbn [map]. rewrite <- app_assoc, <- reported_app.
      cbn [app map Spec.progressReport Core.data]. now rewrite Hdata.
Qed.

(** The loop of [importAsync] logs its failure at most once. *)
Lemma importLoop_threw (binaryFiles : list ImportModels.IBinaryFile)
    (items : list ImportModels.IPreparedImportItem)
    (acc : list Core.IImportItemResult) (w w' : World) (e : Thrown) :
  forOf items (fun item importedItems =>
    let* importedItem :=
      ImportService.importItemAsync config client rewrite_ids item binaryFiles
        importedItems in
    ret (importedItems ++ importedItem)) acc w = (Threw e, w') ->
  console w' = console w \/
  exists cause, e = JsError (toString cause) /\ console w' = console w ++ [cause].
Proof.
  revert acc w. induction items as [|item items IH]; intros acc w H; [discriminate H|].
  rewrite forOf_cons in H. unfold bind at 1 in H.
  destruct (ImportService.importItemAsync _ _ _ _ _ _ _) as [[r|e1] w1] eqn:Hitem.
  - unfold ret at 1 in H. apply IH in H.
    apply importItemAsync_returned in Hitem as [(_ & _ & ->) | (_ & r0 & _ & _ & _ & _ & <-)];
      exact H.
  - injection H as <- <-. now apply importItemAsync_threw in Hitem.
Qed.

(** X1: when a run returns, the originals of the returned results are, in
    order, the payloads of the items, language items under [skip.languages]
    left out; so it returns one result per item that is not passed over. *)
Theorem importAsync_one_result_per_item (items : list ImportModels.IPreparedImportItem)
    (binaryFiles : list ImportModels.IBinaryFile)
    (rs : list Core.IImportItemResult) (w w' : World)
    (Hrun : ImportService.importAsync config client rewrite_ids
              (ImportModels.importData items binaryFiles) w = (Returned rs, w')) :
  map Core.original rs =
    map ImportModels.item
      (List.filter (fun item => negb (Results.passedOver config item)) items).
Proof.
  apply importLoop_returned in Hrun as (added & -> & Horiginals & _). exact Horiginals.
Qed.


(** X3: a run writes to the console only when it fails, and then at most
    once: a run that returns has logged nothing; a run that throws has
    logged nothing, or has logged one value and throws the error built from
    that value's text. *)
Theorem importAsync_logs_the_cause_once (items : list ImportModels.IPreparedImportItem)
    (binaryFiles : list ImportModels.IBinaryFile) (w : World) :
  let run := ImportService.importAsync config client rewrite_ids
               (ImportModels.importData items binaryFiles) w in
  match fst run with
  | Returned _ => console (snd run) = console w
  | Threw e =>
      console (snd run) = console w \/
      exists cause, e = JsError (toString cause) /\ console (snd run) = console w ++ [cause]
  end.
Proof.
  cbv zeta. unfold ImportService.importAsync; cbn [ImportModels.orderedImportItems
    ImportModels.binaryFiles ImportModels.importData].
  match goal with |- context [forOf items ?b ?s w] => destruct (forOf items b s w) as [[rs|e] w'] eqn:H end;
    cbn [fst snd].
  - now apply importLoop_returned in H as (_ & _ & _ & Hconsole & _).
  - now apply importLoop_threw in H.
Qed.

(** X4: a run, however it ends, leaves untouched every payload object that
    no language variant item of the list names. *)
Theorem importAsync_store_frame (items : list ImportModels.IPreparedImportItem)
    (binaryFiles : list ImportModels.IBinaryFile) (w : World) (l : loc)
    (Hother : forall item, In item items ->
                ImportModels.type item = "languageVariant" ->
                ImportModels.item item <> Core.languageVariantContract l) :
  heap (snd (ImportService.importAsync config client rewrite_ids
               (ImportModels.importData items binaryFiles) w)) !! l = heap w !! l.
Proof.
  unfold ImportService.importAsync; cbn [ImportModels.orderedImportItems
    ImportModels.binaryFiles ImportModels.importData].
  apply (forOf_preserves (fun w0 => heap w0 !! l = heap w !! l)); [|reflexivity].
  intros item acc w0 Hin Hw0. unfold bind, ret.
  pose proof (importItemAsync_store_frame config client rewrite_ids item binaryFiles acc w0 l
                (Hother item Hin)) as Hframe.
  destruct (ImportService.importItemAsync _ _ _ _ _ _ _) as [[r|e] w1]; cbn [snd] in *;
    congruence.
Qed.

(** X5: when a run returns and a progress callback is configured, the
    callback has been handed, in order, the imported model of every returned
    result, and nothing else; without a callback nothing is reported. *)
Theorem importAsync_reports_every_result (items : list ImportModels.IPreparedImportItem)
    (binaryFiles : list ImportModels.IBinaryFile)
    (rs : list Core.IImportItemResult) (w w' : World)
    (Hrun : ImportService.importAsync config client rewrite_ids
              (ImportModels.importData items binaryFiles) w = (Returned rs, w')) :
  exists reports,
    processed w' = processed w ++ Spec.reported config reports /\
    map Core.data reports = map Core.imported rs.
Proof.
  apply importLoop_returned in Hrun as (added & -> & _ & _ & reports & Hprocessed & Hdata).
  now exists reports.
Qed.

End Runs.

(** ** Importers called on their own *)

Section CreateLoop.

Context (config : ImportModels.IImportConfig) {X R : Type}.
Context (request : X -> ManagementApi.Request).
Context (answer : list ManagementApi.Request -> X -> Thrown + R).
Context (mk : X -> R -> Core.IImportItemResult).
Context (report : X -> R -> Core.IProcessedItem).

(** A create step that returns was answered and its report accepted; one
    that throws was rejected, or its report made the callback throw. *)
Lemma createStep_succeeds (x : X) (history : list ManagementApi.Request)
    (acc : list Core.IImportItemResult) (w : World) rs w' :
  Spec.createStep config (request x) (answer history x) (mk x) (report x) acc w
    = (Returned rs, w') ->
  Results.succeeds config (answer history x) (report x).
Proof.
  unfold Spec.createStep, Results.succeeds.
  destruct (answer history x) as [cause|response]; [discriminate|].
  intros Hstep. exists response. split; [reflexivity|]. intros callback Hcallback.
  rewrite Hcallback in Hstep. destruct (callback _); [discriminate|reflexivity].
Qed.

Lemma createStep_fails (x : X) (history : list ManagementApi.Request)
    (acc : list Core.IImportItemResult) (w : World) e w' :
  Spec.createStep config (request x) (answer history x) (mk x) (report x) acc w
    = (Threw e, w') ->
  exists cause,
    Results.fails config (answer history x) (report x) cause /\
    e = JsError (toString cause) /\ console w' = console w ++ [cause].
Proof.
  unfold Spec.createStep, Results.fails.
  destruct (answer history x) as [cause|response].
  - intros [= <- <-]. exists cause. auto.
  - destruct (ImportModels.processItem config) as [callback|]; [|discriminate].
    destruct (callback _) as [cause|] eqn:Hcallback; [|discriminate].
    intros [= <- <-]. exists cause. split; [|auto]. right. now exists response, callback.
Qed.

(** A loop of create steps issues its calls in the order of the payloads,
    one each, up to and including the first that fails.  When it returns,
    every create succeeded, nothing was logged, and one result per payload was
    added, each made from its own payload.  When it throws, the creates
    before the last one issued succeeded and the last one failed: its cause is
    logged, and the error thrown is built from the text of that cause. *)
Lemma createLoop_in_order (xs : list X) (acc : list Core.IImportItemResult) (w : World) :
  let run := forOf xs (fun x importedItems w0 =>
               Spec.createStep config (request x) (answer (calls w0) x) (mk x) (report x)
                 importedItems w0) acc w in
  let answered := fun i x => answer (calls w ++ map request (take i xs)) x in
  exists k,
    k <= length xs /\
    calls (snd run) = calls w ++ map request (take k xs) /\
    match fst run with
    | Returned rs =>
        k = length xs /\
        (forall i x, xs !! i = Some x -> Results.succeeds config (answered i x) (report x)) /\
        console (snd run) = console w /\
        exists added, rs = acc ++ added /\
          Forall2 (fun x r => exists response, r = mk x response) xs added
    | Threw e =>
        0 < k /\
        exists j x cause,
          k = S j /\ xs !! j = Some x /\
          (forall i y, i < j -> xs !! i = Some y ->
             Results.succeeds config (answered i y) (report y)) /\
          Results.fails config (answered j x) (report x) cause /\
          e = JsError (toString cause) /\
          console (snd run) = console w ++ [cause]
    end.
Proof.
  cbv zeta. revert acc w. induction xs as [|x xs IH]; intros acc w.
  - exists 0. cbn. rewrite !app_nil_r. split; [lia|]. split; [reflexivity|].
    split; [reflexivity|]. split; [intros i x [=]|]. split; [reflexivity|].
    exists []. now rewrite app_nil_r.
  - rewrite forOf_cons.
    destruct (Spec.createStep _ _ _ _ _ _ _) as [[rs1|e] w1] eqn:Hstep.
    + pose proof (createStep_calls config (request x) (answer (calls w) x) (mk x) (report x)
                    acc w) as Hcalls.
      rewrite Hstep in Hcalls. cbn [snd] in Hcalls.
      pose proof (createStep_succeeds _ _ _ _ _ _ Hstep) as Hfirst.
      pose proof (createStep_returned_console _ _ _ _ _ _ _ _ _ Hstep) as Hconsole.
      apply createStep_returned in Hstep as (response & _ & -> & _ & _).
      assert (Hshift : forall i, calls w1 ++ map request (take i xs)
                                 = calls w ++ map request (take (S i) (x :: xs))).
      { intros i. rewrite Hcalls. cbn. now rewrite <- app_assoc. }
      destruct (IH (acc ++ [mk x response]) w1) as (k & Hk & Hcalls' & Hout).
      exists (S k). split; [cbn; lia|]. split; [now rewrite Hcalls', Hshift|].
      destruct (fst (forOf xs _ _ w1)) as [rs|e].
      * destruct Hout as (-> & Hrest & Hconsole' & added & -> & Hadded).
        split; [reflexivity|]. split; [|split].
        -- intros [|i] y Hy.
           ++ injection Hy as <-. cbn. now rewrite app_nil_r.
           ++ rewrite <- Hshift. now apply Hrest.
        -- now rewrite Hconsole'.
        -- exists (mk x response :: added). rewrite <- app_assoc. split; [reflexivity|].
           constructor; [now exists response | exact Hadded].
      * destruct Hout as (_ & j & y & cause & -> & Hy & Hbefore & Hfails & -> & Hconsole').
        split; [lia|]. exists (S j), y, cause. split; [reflexivity|]. split; [exact Hy|].
        split; [|split; [|split]].
        -- intros [|i] z Hi Hz.
           ++ injection Hz as <-. cbn. now rewrite app_nil_r.
           ++ rewrite <- Hshift. apply Hbefore; [lia | exact Hz].
        -- now rewrite <- Hshift.
        -- reflexivity.
        -- now rewrite Hconsole', Hconsole.
    + pose proof (createStep_calls config (request x) (answer (calls w) x) (mk x) (report x)
                    acc w) as Hcalls.
      rewrite Hstep in Hcalls. cbn [snd] in Hcalls.
      apply createStep_fails in Hstep as (cause & Hfails & -> & Hconsole).
      exists 1. cbn [fst snd]. split; [cbn; lia|]. split; [exact Hcalls|].
      split; [lia|]. exists 0, x, cause. split; [reflexivity|]. split; [reflexivity|].
      split; [intros i y Hi; lia|]. cbn. rewrite app_nil_r. auto.
Qed.

End CreateLoop.

(** Results made one per payload project as their payloads do. *)
Lemma Forall2_made_map {X R B} (mk : X -> R -> Core.IImportItemResult)
    (proj : Core.IImportItemResult -> B) (src : X -> B) (xs : list X)
    (added : list Core.IImportItemResult) :
  (forall x response, proj (mk x response) = src x) ->
  Forall2 (fun x r => exists response, r = mk x response) xs added ->
  map proj added = map src xs.
Proof.
  intros Hproj Hall. induction Hall as [|x r xs added (response & ->) _ IH]; [reflexivity|].
  cbn. now rewrite Hproj, IH.
Qed.

Section ListImporters.

Context (config : ImportModels.IImportConfig).
Context (client : ManagementApi.IManagementClient).

(** X6: called on a list of taxonomies, the importer sends each taxonomy as
    it is, in list order, and stops at the first one whose create is rejected
    or whose progress callback throws.  When it returns, every create was
    answered and every report accepted, and it returns one result per
    taxonomy, in order, holding that taxonomy and its source id.  When it
    throws, the last taxonomy sent is the first to fail: every earlier create
    was answered and its report accepted, that one was rejected or its report
    made the callback throw, the cause is logged and the error thrown is built
    from the text of the cause. *)
Theorem importTaxonomiesAsync_in_order (taxonomies : list TaxonomyContracts.ITaxonomyContract)
    (w : World) :
  let run := ImportService.importTaxonomiesAsync config client taxonomies w in
  let answered := fun i taxonomy =>
    ManagementApi.addTaxonomy client
      (calls w ++ map ManagementApi.AddTaxonomy (take i taxonomies)) taxonomy in
  let report := fun response =>
    {| Core.data := Core.taxonomyModel response;
       Core.title := TaxonomyModels.name response; Core.type := "taxonomy" |} in
  exists k,
    k <= length taxonomies /\
    calls (snd run) = calls w ++ map ManagementApi.AddTaxonomy (take k taxonomies) /\
    match fst run with
    | Returned rs =>
        k = length taxonomies /\
        map Core.original rs = map Core.taxonomyContract taxonomies /\
        map Core.originalId rs = map (fun t => Some (TaxonomyContracts.id t)) taxonomies /\
        (forall i taxonomy, taxonomies !! i = Some taxonomy ->
           Results.succeeds config (answered i taxonomy) report) /\
        console (snd run) = console w
    | Threw e =>
        0 < k /\
        exists j taxonomy cause,
          k = S j /\ taxonomies !! j = Some taxonomy /\
          (forall i earlier, i < j -> taxonomies !! i = Some earlier ->
             Results.succeeds config (answered i earlier) report) /\
          Results.fails config (answered j taxonomy) report cause /\
          e = JsError (toString cause) /\
          console (snd run) = console w ++ [cause]
    end.
Proof.
  cbv zeta. unfold ImportService.importTaxonomiesAsync.
  erewrite forOf_ext;
    [|intros x s0 w0;
      exact (create_chain config _
               (fun history => ManagementApi.addTaxonomy client history x)
               _ TaxonomyModels.name "taxonomy" Core.taxonomyModel s0 w0)].
  destruct (createLoop_in_order config ManagementApi.AddTaxonomy
              (fun history x => ManagementApi.addTaxonomy client history x)
              (fun x response =>
                 ImportService.result (Core.taxonomyModel response) (Core.taxonomyContract x)
                   (Some (TaxonomyModels.id response)) (Some (TaxonomyContracts.id x)))
              (fun x response =>
                 {| Core.data := Core.taxonomyModel response;
                    Core.title := TaxonomyModels.name response; Core.type := "taxonomy" |})
              taxonomies [] w) as (k & Hk & Hcalls & Hout).
  exists k. split; [exact Hk|]. split; [exact Hcalls|].
  destruct (fst _); [|exact Hout].
  destruct Hout as (-> & Hall & Hconsole & added & -> & Hadded).
  split; [reflexivity|]. cbn [app].
  split; [eapply Forall2_made_map; [|exact Hadded]; reflexivity|].
  split; [eapply Forall2_made_map; [|exact Hadded]; reflexivity|].
  split; [exact Hall | exact Hconsole].
Qed.

(** X7: called on a list of content types, the importer sends each type as
    it is, in list order, and stops at the first one whose create is rejected
    or whose progress callback throws.  When it returns, every create was
    answered and every report accepted, and it returns one result per type,
    in order, holding that type and its source id.  When it throws, the last
    type sent is the first to fail: every earlier create was answered and its
    report accepted, that one was rejected or its report made the callback
    throw, the cause is logged and the error thrown is built from the text of
    the cause. *)
Theorem importContentTypesAsync_in_order
    (contentTypes : list ContentTypeContracts.IContentTypeContract) (w : World) :
  let run := ImportService.importContentTypesAsync config client contentTypes w in
  let answered := fun i contentType =>
    ManagementApi.addContentType client
      (calls w ++ map ManagementApi.AddContentType (take i contentTypes)) contentType in
  let report := fun response =>
    {| Core.data := Core.contentTypeModel response;
       Core.title := ContentTypeModels.name response; Core.type := "contentType" |} in
  exists k,
    k <= length contentTypes /\
    calls (snd run) = calls w ++ map ManagementApi.AddContentType (take k contentTypes) /\
    match fst run with
    | Returned rs =>
        k = length contentTypes /\
        map Core.original rs = map Core.contentTypeContract contentTypes /\
        map Core.originalId rs
          = map (fun t => Some (ContentTypeContracts.id t)) contentTypes /\
        (forall i contentType, contentTypes !! i = Some contentType ->
           Results.succeeds config (answered i contentType) report) /\
        console (snd run) = console w
    | Threw e =>
        0 < k /\
        exists j contentType cause,
          k = S j /\ contentTypes !! j = Some contentType /\
          (forall i earlier, i < j -> contentTypes !! i = Some earlier ->
             Results.succeeds config (answered i earlier) report) /\
          Results.fails config (answered j contentType) report cause /\
          e = JsError (toString cause) /\
          console (snd run) = console w ++ [cause]
    end.
Proof.
  cbv zeta. unfold ImportService.importContentTypesAsync.
  erewrite forOf_ext;
    [|intros x s0 w0;
      exact (create_chain config _
               (fun history => ManagementApi.addContentType client history x)
               _ ContentTypeModels.name "contentType" Core.contentTypeModel s0 w0)].
  destruct (createLoop_in_order config ManagementApi.AddContentType
              (fun history x => ManagementApi.addContentType client history x)
              (fun x response =>
                 ImportService.result (Core.contentTypeModel response)
                   (Core.contentTypeContract x)
                   (Some (ContentTypeModels.id response)) (Some (ContentTypeContracts.id x)))
              (fun x response =>
                 {| Core.data := Core.contentTypeModel response;
                    Core.title := ContentTypeModels.name response;
                    Core.type := "contentType" |})
              contentTypes [] w) as (k & Hk & Hcalls & Hout).
  exists k. split; [exact Hk|]. split; [exact Hcalls|].
  destruct (fst _); [|exact Hout].
  destruct Hout as (-> & Hall & Hconsole & added & -> & Hadded).
  split; [reflexivity|]. cbn [app].
  split; [eapply Forall2_made_map; [|exact Hadded]; reflexivity|].
  split; [eapply Forall2_made_map; [|exact Hadded]; reflexivity|].
  split; [exact Hall | exact Hconsole].
Qed.

(** X8: called on a list of content type snippets, the importer sends each
    snippet as it is, in list order, and stops at the first one whose create
    is rejected or whose progress callback throws.  When it returns, every
    create was answered and every report accepted, and it returns one result
    per snippet, in order, holding that snippet and its source id.  When it
    throws, the last snippet sent is the first to fail: every earlier create
    was answered and its report accepted, that one was rejected or its report
    made the callback throw, the cause is logged and the error thrown is built
    from the text of the cause. *)
Theorem importContentTypeSnippetsAsync_in_order
    (contentTypeSnippets : list ContentTypeSnippetContracts.IContentTypeSnippetContract)
    (w : World) :
  let run := ImportService.importContentTypeSnippetsAsync config client contentTypeSnippets w in
  let answered := fun i snippet =>
    ManagementApi.addContentTypeSnippet client
      (calls w ++ map ManagementApi.AddContentTypeSnippet (take i contentTypeSnippets))
      snippet in
  let report := fun response =>
    {| Core.data := Core.contentTypeSnippetModel response;
       Core.title := ContentTypeSnippetModels.name response;
       Core.type := "contentTypeSnippet" |} in
  exists k,
    k <= length contentTypeSnippets /\
    calls (snd run)
      = calls w ++ map ManagementApi.AddContentTypeSnippet (take k contentTypeSnippets) /\
    match fst run with
    | Returned rs =>
        k = length contentTypeSnippets /\
        map Core.original rs = map Core.contentTypeSnippetContract contentTypeSnippets /\
        map Core.originalId rs
          = map (fun t => Some (ContentTypeSnippetContracts.id t)) contentTypeSnippets /\
        (forall i snippet, contentTypeSnippets !! i = Some snippet ->
           Results.succeeds config (answered i snippet) report) /\
        console (snd run) = console w
    | Threw e =>
        0 < k /\
        exists j snippet cause,
          k = S j /\ contentTypeSnippets !! j = Some snippet /\
          (forall i earlier, i < j -> contentTypeSnippets !! i = Some earlier ->
             Results.succeeds config (answered i earlier) report) /\
          Results.fails config (answered j snippet) report cause /\
          e = JsError (toString cause) /\
          console (snd run) = console w ++ [cause]
    end.
Proof.
  cbv zeta. unfold ImportService.importContentTypeSnippetsAsync.
  erewrite forOf_ext;
    [|intros x s0 w0;
      exact (create_chain config _
               (fun history => ManagementApi.addContentTypeSnippet client history x)
               _ ContentTypeSnippetModels.name "contentTypeSnippet"
               Core.contentTypeSnippetModel s0 w0)].
  destruct (createLoop_in_order config ManagementApi.AddContentTypeSnippet
              (fun history x => ManagementApi.addContentTypeSnippet client history x)
              (fun x response =>
                 ImportService.result (Core.contentTypeSnippetModel response)
                   (Core.contentTypeSnippetContract x)
                   (Some (ContentTypeSnippetModels.id response))
                   (Some (ContentTypeSnippetContracts.id x)))
              (fun x response =>
                 {| Core.data := Core.contentTypeSnippetModel response;
                    Core.title := ContentTypeSnippetModels.name response;
                    Core.type := "contentTypeSnippet" |})
              contentTypeSnippets [] w) as (k & Hk & Hcalls & Hout).
  exists k. split; [exact Hk|]. split; [exact Hcalls|].
  destruct (fst _); [|exact Hout].
  destruct Hout as (-> & Hall & Hconsole & added & -> & Hadded).
  split; [reflexivity|]. cbn [app].
  split; [eapply Forall2_made_map; [|exact Hadded]; reflexivity|].
  split; [eapply Forall2_made_map; [|exact Hadded]; reflexivity|].
  split; [exact Hall | exact Hconsole].
Qed.

(** X9: a rejected upload and a rejected create are not treated alike.  The
    rejection of the upload is thrown as it is, nothing is logged and the
    asset is not created; the rejection of the create is logged and a new
    error built from its text is thrown. *)
Theorem importAssetsAsync_rejections (asset : AssetContracts.IAssetModelContract)
    (binaryFiles : list ImportModels.IBinaryFile) (binaryFile : ImportModels.IBinaryFile)
    (w : World)
    (Hfound : ImportService.findBinaryFile binaryFiles asset = Some binaryFile) :
  let upload :=
    {| ManagementApi.binaryData := ImportModels.binaryData binaryFile;
       ManagementApi.contentType := AssetContracts.type asset;
       ManagementApi.filename := AssetContracts.file_name asset |} in
  let uploaded := issued w (ManagementApi.UploadBinaryFile upload) in
  (forall e,
     ManagementApi.uploadBinaryFile client (calls w) upload = inl e ->
     ImportService.importAssetsAsync config client [asset] binaryFiles w
     = (Threw e, uploaded)) /\
  (forall fileReference e,
     ManagementApi.uploadBinaryFile client (calls w) upload = inr fileReference ->
     let data :=
       {| ManagementApi.descriptions := AssetContracts.descriptions asset;
          ManagementApi.file_reference := fileReference;
          ManagementApi.title := AssetContracts.title asset;
          ManagementApi.asset_external_id := AssetContracts.external_id asset |} in
     ManagementApi.addAsset client (calls uploaded) data = inl e ->
     ImportService.importAssetsAsync config client [asset] binaryFiles w
     = (Threw (JsError (toString e)),
        logged (issued uploaded (ManagementApi.AddAsset data)) e)).
Proof.
  cbv zeta. rewrite importAssetsAsync_one, Hfound. cbv zeta. split.
  - intros e ->. reflexivity.
  - intros fileReference e -> Hcreate. unfold Spec.createStep. now rewrite Hcreate.
Qed.

(** X10: when several binary files carry the id of the asset, the bytes
    uploaded are those of the first of them in the list. *)
Theorem importAssetsAsync_first_match (asset : AssetContracts.IAssetModelContract)
    (before after : list ImportModels.IBinaryFile) (binaryFile : ImportModels.IBinaryFile)
    (w : World)
    (Hbefore : forall m, In m before ->
                 AssetContracts.id (ImportModels.asset m) <> AssetContracts.id asset)
    (Hmatch : AssetContracts.id (ImportModels.asset binaryFile) = AssetContracts.id asset) :
  exists rest,
    calls (snd (ImportService.importAssetsAsync config client [asset]
                  (before ++ binaryFile :: after) w))
    = calls w ++
      ManagementApi.UploadBinaryFile
        {| ManagementApi.binaryData := ImportModels.binaryData binaryFile;
           ManagementApi.contentType := AssetContracts.type asset;
           ManagementApi.filename := AssetContracts.file_name asset |} :: rest.
Proof.
  assert (ImportService.findBinaryFile (before ++ binaryFile :: after) asset = Some binaryFile)
    as Hfound.
  { unfold ImportService.findBinaryFile. induction before as [|m before IH]; cbn.
    - now rewrite Hmatch, String.eqb_refl.
    - destruct (String.eqb _ _) eqn:E.
      + apply String.eqb_eq in E. now apply Hbefore in E; [|left].
      + apply IH. intros m' Hin. apply Hbefore. now right. }
  rewrite importAssetsAsync_one, Hfound. cbv zeta.
  destruct (ManagementApi.uploadBinaryFile _ _ _) as [e|fileReference].
  - now exists [].
  - eexists. rewrite createStep_calls. cbn. now rewrite <- app_assoc.
Qed.

(** X11: a language item whose fallback reference has no codename fails
    before anything is called, with the error that names the language,
    unless [skip.languages] is set to true: then the language is passed over
    without being looked at. *)
Theorem importItemAsync_language_unset_fallback
    (rewrite_ids :
       LanguageVariantContracts.ILanguageVariantModelContract ->
       list Core.IImportItemResult ->
       LanguageVariantContracts.ILanguageVariantModelContract * option Thrown)
    (language : LanguageContracts.ILanguageModelContract)
    (fallback : SharedContracts.IReferenceObjectContract)
    (binaryFiles : list ImportModels.IBinaryFile)
    (currentItems : list Core.IImportItemResult) (w : World)
    (Hfallback : LanguageContracts.fallback_language language = Some fallback)
    (Hunset : falsy (SharedContracts.codename fallback) = true) :
  ImportService.importItemAsync config client rewrite_ids
    {| ImportModels.type := "language"; ImportModels.item := Core.languageContract language |}
    binaryFiles currentItems w
  = if ImportService.skipLanguages config then (Returned [], w)
    else (Threw (JsError ("Langauge '" +:+ LanguageContracts.name language
                          +:+ "' has unset codename")), w).
Proof.
  change (ImportService.importItemAsync config client rewrite_ids _ binaryFiles currentItems w)
    with ((if ImportService.skipLanguages config then ret []
           else ImportService.importLanguagesAsync config client [language]) w).
  destruct (ImportService.skipLanguages config); [reflexivity|].
  rewrite importLanguagesAsync_one, Hfallback. cbv zeta. now rewrite Hunset.
Qed.

End ListImporters.

(** * Properties of the clean service *)

Section CleanLoop.

Context {A : Type} (body : A -> Clean.M unit).

Lemma clean_forOf_cons (x : A) (rest : list A) (w : Clean.World) :
  CleanService.forOf (x :: rest) body w =
  match body x w with
  | (Returned _, w1) => CleanService.forOf rest body w1
  | (Threw e, w1) => (Threw e, w1)
  end.
Proof. reflexivity. Qed.

Lemma clean_forOf_app (xs ys : list A) (w : Clean.World) :
  CleanService.forOf (xs ++ ys) body w =
  match CleanService.forOf xs body w with
  | (Returned _, w1) => CleanService.forOf ys body w1
  | (Threw e, w1) => (Threw e, w1)
  end.
Proof.
  revert w. induction xs as [|x xs IH]; intros w; [reflexivity|].
  rewrite <- app_comm_cons, !clean_forOf_cons.
  destruct (body x w) as [[u|e] w1]; [apply IH|reflexivity].
Qed.

End CleanLoop.

Section DeleteLoop.

Context (config : CleanModels.ICleanConfig) {X : Type}.
Context (del : X -> CleanApi.Request).
Context (answer : list CleanApi.Request -> X -> Thrown + unit).
Context (title : X -> string) (type : Core.ItemType) (data : X -> CleanModels.Cleaned).

(** One delete with its report, as every sweep writes it. *)
Lemma deleteStep (x : X) (w : Clean.World) :
  let report := {| CleanModels.data := data x; CleanModels.title := title x;
                   CleanModels.type := type |} in
  let step :=
    Clean.catch
      (let+ m := Clean.call (del x) (fun history => answer history x) in
       CleanService.processItem config (title x) type (data x))
      CleanService.handleCleanError w in
  fst step = Returned tt /\
  Clean.calls (snd step) = Clean.calls w ++ [del x] /\
  (Clean.processed (snd step) = Clean.processed w \/
   Clean.processed (snd step) = Clean.processed w ++ [report]) /\
  (forall e, answer (Clean.calls w) x = inl e ->
     Clean.console (snd step) = Clean.console w ++ [e] /\
     Clean.processed (snd step) = Clean.processed w) /\
  (answer (Clean.calls w) x = inr tt -> CleanSpec.quietCallback config ->
     Clean.console (snd step) = Clean.console w /\
     Clean.processed (snd step) = Clean.processed w ++ CleanSpec.reported config [report]).
Proof.
  cbv zeta. unfold Clean.catch, Clean.bind, Clean.call, CleanService.processItem,
    CleanService.handleCleanError, Clean.consoleLog, CleanSpec.quietCallback,
    CleanSpec.reported.
  destruct (answer (Clean.calls w) x) as [e|[]]; cbn.
  - split; [reflexivity|]. split; [reflexivity|]. split; [now left|]. split.
    + now intros e0 [= <-].
    + discriminate.
  - destruct (CleanModels.processItem config) as [callback|] eqn:Hcb; cbn.
    + destruct (callback _) as [e|] eqn:Hthrows; cbn.
      * split; [reflexivity|]. split; [reflexivity|]. split; [now right|]. split.
        -- discriminate.
        -- intros _ Hquiet. rewrite (Hquiet callback _ eq_refl) in Hthrows.
           discriminate Hthrows.
      * split; [reflexivity|]. split; [reflexivity|]. split; [now right|]. split.
        -- discriminate.
        -- auto.
    + split; [reflexivity|]. split; [reflexivity|]. split; [now left|]. split.
      * discriminate.
      * now rewrite app_nil_r.
Qed.

(** A loop of such deletes never throws, issues one delete per element in
    order, reports only elements of the list, in order, and, when nothing is
    rejected and the callback does not throw, reports all of them and logs
    nothing. *)
Lemma deleteLoop (xs : list X) (w : Clean.World) :
  let report := fun x => {| CleanModels.data := data x; CleanModels.title := title x;
                            CleanModels.type := type |} in
  let run :=
    CleanService.forOf xs (fun x =>
      Clean.catch
        (let+ m := Clean.call (del x) (fun history => answer history x) in
         CleanService.processItem config (title x) type (data x))
        CleanService.handleCleanError) w in
  fst run = Returned tt /\
  Clean.calls (snd run) = Clean.calls w ++ map del xs /\
  (exists reports,
     Clean.processed (snd run) = Clean.processed w ++ reports /\
     sublist reports (map report xs)) /\
  ((forall history x, answer history x = inr tt) -> CleanSpec.quietCallback config ->
   Clean.console (snd run) = Clean.console w /\
   Clean.processed (snd run)
     = Clean.processed w ++ CleanSpec.reported config (map report xs)).
Proof.
  cbv zeta. revert w. induction xs as [|x xs IH]; intros w.
  - cbn. rewrite !app_nil_r. repeat split; auto.
    + exists []. now rewrite app_nil_r.
    + unfold CleanSpec.reported. destruct (CleanModels.processItem config);
        now rewrite app_nil_r.
  - rewrite clean_forOf_cons.
    destruct (deleteStep x w) as (Hout & Hcalls & Hprocessed & _ & Hquiet).
    cbv zeta in *.
    destruct (Clean.catch _ _ w) as [[[]|e] w1]; cbn [fst snd] in *; [|discriminate Hout].
    destruct (IH w1) as (Hout' & Hcalls' & (reports & Hprocessed' & Hsub) & Hquiet').
    split; [exact Hout'|]. split; [|split].
    + rewrite Hcalls', Hcalls. cbn. now rewrite <- app_assoc.
    + destruct Hprocessed as [Hp|Hp]; rewrite Hprocessed', Hp.
      * exists reports. split; [reflexivity|]. cbn. now apply sublist_cons.
      * eexists (_ :: reports). rewrite <- app_assoc. split; [reflexivity|].
        cbn. now apply sublist_skip.
    + intros Hanswered Hcallback.
      destruct (Hquiet (Hanswered _ _) Hcallback) as [Hc Hp].
      destruct (Hquiet' Hanswered Hcallback) as [Hc' Hp'].
      rewrite Hc', Hc, Hp', Hp. split; [reflexivity|].
      rewrite <- app_assoc. f_equal.
      unfold CleanSpec.reported. now destruct (CleanModels.processItem config).
Qed.

End DeleteLoop.

(** Awaiting a call and going on with its answer. *)
Lemma clean_bind_call {R B} (request : CleanApi.Request)
    (answer : list CleanApi.Request -> Thrown + R) (k : R -> Clean.M B) (w : Clean.World) :
  Clean.bind (Clean.call request answer) k w =
  match answer (Clean.calls w) with
  | inl e => (Threw e, Clean.issued w request)
  | inr r => k r (Clean.issued w request)
  end.
Proof. unfold Clean.bind, Clean.call. now destruct (answer _). Qed.

Section Sweep.

Context (config : CleanModels.ICleanConfig) {X : Type}.
Context (listing : CleanApi.Request).
Context (listed : list CleanApi.Request -> Thrown + list X).
Context (del : X -> CleanApi.Request).
Context (answer : list CleanApi.Request -> X -> Thrown + unit).
Context (title : X -> string) (type : Core.ItemType) (data : X -> CleanModels.Cleaned).

(** A sweep: list, then delete each listed entity.  A rejected listing is
    thrown as it is; after an answered one the sweep is a loop of deletes. *)
Lemma sweep_runs (w : Clean.World) :
  let report := fun x => {| CleanModels.data := data x; CleanModels.title := title x;
                            CleanModels.type := type |} in
  let run :=
    (let+ xs := Clean.call listing listed in
     CleanService.forOf xs (fun x =>
       Clean.catch
         (let+ m := Clean.call (del x) (fun history => answer history x) in
          CleanService.processItem config (title x) type (data x))
         CleanService.handleCleanError)) w in
  match listed (Clean.calls w) with
  | inl e => run = (Threw e, Clean.issued w listing)
  | inr xs =>
      fst run = Returned tt /\
      Clean.calls (snd run) = Clean.calls w ++ listing :: map del xs /\
      (exists reports,
         Clean.processed (snd run) = Clean.processed w ++ reports /\
         sublist reports (map report xs)) /\
      ((forall history x, answer history x = inr tt) -> CleanSpec.quietCallback config ->
       Clean.console (snd run) = Clean.console w /\
       Clean.processed (snd run)
         = Clean.processed w ++ CleanSpec.reported config (map report xs))
  end.
Proof.
  cbv zeta. rewrite clean_bind_call.
  destruct (listed (Clean.calls w)) as [e|xs]; [reflexivity|].
    destruct (deleteLoop config del answer title type data xs (Clean.issued w listing))
      as (Hout & Hcalls & Hreports & Hquiet).
    cbv zeta in *. split; [exact Hout|]. split; [|split; [exact Hreports|exact Hquiet]].
    rewrite Hcalls. cbn. now rewrite <- app_assoc.
Qed.

End Sweep.

Section Sweeps.

Context (config : CleanModels.ICleanConfig).
Context (client : CleanApi.IManagementClient).

(** X12: the taxonomy sweep throws only the rejection of its listing, as it
    is.  Once the listing is answered it never throws: it issues one delete
    per listed taxonomy, by id and in listing order, whatever is rejected on
    the way; it reports only listed taxonomies, in order; and when no delete
    is rejected and the callback does not throw, it reports every one of
    them and logs nothing. *)
Theorem cleanTaxonomiesAsync_sweeps (w : Clean.World) :
  let report := fun t => {| CleanModels.data := CleanModels.taxonomy t;
                            CleanModels.title := TaxonomyModels.name t;
                            CleanModels.type := "taxonomy" |} in
  let run := CleanService.cleanTaxonomiesAsync config client w in
  match CleanApi.listTaxonomies client (Clean.calls w) with
  | inl e => run = (Threw e, Clean.issued w CleanApi.ListTaxonomies)
  | inr taxonomies =>
      fst run = Returned tt /\
      Clean.calls (snd run)
        = Clean.calls w ++ CleanApi.ListTaxonomies ::
            map (fun t => CleanApi.DeleteTaxonomy (TaxonomyModels.id t)) taxonomies /\
      (exists reports,
         Clean.processed (snd run) = Clean.processed w ++ reports /\
         sublist reports (map report taxonomies)) /\
      ((forall history t, CleanApi.deleteTaxonomy client history (TaxonomyModels.id t) = inr tt) ->
       CleanSpec.quietCallback config ->
       Clean.console (snd run) = Clean.console w /\
       Clean.processed (snd run)
         = Clean.processed w ++ CleanSpec.reported config (map report taxonomies))
  end.
Proof.
  exact (sweep_runs config CleanApi.ListTaxonomies (CleanApi.listTaxonomies client)
           (fun t => CleanApi.DeleteTaxonomy (TaxonomyModels.id t))
           (fun history t => CleanApi.deleteTaxonomy client history (TaxonomyModels.id t))
           TaxonomyModels.name "taxonomy" CleanModels.taxonomy w).
Qed.

(** X13: the content type snippet sweep throws only the rejection of its
    listing, as it is, and otherwise never throws: it issues one delete per
    listed snippet, by id and in listing order, reports only listed
    snippets, and on a run without rejection reports all of them and logs
    nothing. *)
Theorem cleanContentTypeSnippetsAsync_sweeps (w : Clean.World) :
  let report := fun t => {| CleanModels.data := CleanModels.contentTypeSnippet t;
                            CleanModels.title := ContentTypeSnippetModels.name t;
                            CleanModels.type := "contentTypeSnippet" |} in
  let run := CleanService.cleanContentTypeSnippetsAsync config client w in
  match CleanApi.listContentTypeSnippets client (Clean.calls w) with
  | inl e => run = (Threw e, Clean.issued w CleanApi.ListContentTypeSnippets)
  | inr snippets =>
      fst run = Returned tt /\
      Clean.calls (snd run)
        = Clean.calls w ++ CleanApi.ListContentTypeSnippets ::
            map (fun t => CleanApi.DeleteContentTypeSnippet (ContentTypeSnippetModels.id t))
              snippets /\
      (exists reports,
         Clean.processed (snd run) = Clean.processed w ++ reports /\
         sublist reports (map report snippets)) /\
      ((forall history t,
          CleanApi.deleteContentTypeSnippet client history (ContentTypeSnippetModels.id t)
          = inr tt) ->
       CleanSpec.quietCallback config ->
       Clean.console (snd run) = Clean.console w /\
       Clean.processed (snd run)
         = Clean.processed w ++ CleanSpec.reported config (map report snippets))
  end.
Proof.
  exact (sweep_runs config CleanApi.ListContentTypeSnippets
           (CleanApi.listContentTypeSnippets client)
           (fun t => CleanApi.DeleteContentTypeSnippet (ContentTypeSnippetModels.id t))
           (fun history t =>
              CleanApi.deleteContentTypeSnippet client history (ContentTypeSnippetModels.id t))
           ContentTypeSnippetModels.name "contentTypeSnippet" CleanModels.contentTypeSnippet w).
Qed.

(** X14: the content type sweep throws only the rejection of its listing,
    as it is, and otherwise never throws: it issues one delete per listed
    type, by id and in listing order, reports only listed types, and on a
    run without rejection reports all of them and logs nothing. *)
Theorem cleanContentTypesAsync_sweeps (w : Clean.World) :
  let report := fun t => {| CleanModels.data := CleanModels.contentType t;
                            CleanModels.title := ContentTypeModels.name t;
                            CleanModels.type := "contentType" |} in
  let run := CleanService.cleanContentTypesAsync config client w in
  match CleanApi.listContentTypes client (Clean.calls w) with
  | inl e => run = (Threw e, Clean.issued w CleanApi.ListContentTypes)
  | inr contentTypes =>
      fst run = Returned tt /\
      Clean.calls (snd run)
        = Clean.calls w ++ CleanApi.ListContentTypes ::
            map (fun t => CleanApi.DeleteContentType (ContentTypeModels.id t)) contentTypes /\
      (exists reports,
         Clean.processed (snd run) = Clean.processed w ++ reports /\
         sublist reports (map report contentTypes)) /\
      ((forall history t,
          CleanApi.deleteContentType client history (ContentTypeModels.id t) = inr tt) ->
       CleanSpec.quietCallback config ->
       Clean.console (snd run) = Clean.console w /\
       Clean.processed (snd run)
         = Clean.processed w ++ CleanSpec.reported config (map report contentTypes))
  end.
Proof.
  exact (sweep_runs config CleanApi.ListContentTypes (CleanApi.listContentTypes client)
           (fun t => CleanApi.DeleteContentType (ContentTypeModels.id t))
           (fun history t => CleanApi.deleteContentType client history (ContentTypeModels.id t))
           ContentTypeModels.name "contentType" CleanModels.contentType w).
Qed.

(** X15: the asset sweep throws only the rejection of its listing, as it
    is, and otherwise never throws: it issues one delete per listed asset,
    by id and in listing order, reports only listed assets, under their file
    names, and on a run without rejection reports all of them and logs
    nothing. *)
Theorem cleanAssetsAsync_sweeps (w : Clean.World) :
  let report := fun a => {| CleanModels.data := CleanModels.asset a;
                            CleanModels.title := AssetModels.fileName a;
                            CleanModels.type := "asset" |} in
  let run := CleanService.cleanAssetsAsync config client w in
  match CleanApi.listAssets client (Clean.calls w) with
  | inl e => run = (Threw e, Clean.issued w CleanApi.ListAssets)
  | inr assets =>
      fst run = Returned tt /\
      Clean.calls (snd run)
        = Clean.calls w ++ CleanApi.ListAssets ::
            map (fun a => CleanApi.DeleteAsset (AssetModels.id a)) assets /\
      (exists reports,
         Clean.processed (snd run) = Clean.processed w ++ reports /\
         sublist reports (map report assets)) /\
      ((forall history a, CleanApi.deleteAsset client history (AssetModels.id a) = inr tt) ->
       CleanSpec.quietCallback config ->
       Clean.console (snd run) = Clean.console w /\
       Clean.processed (snd run)
         = Clean.processed w ++ CleanSpec.reported config (map report assets))
  end.
Proof.
  exact (sweep_runs config CleanApi.ListAssets (CleanApi.listAssets client)
           (fun a => CleanApi.DeleteAsset (AssetModels.id a))
           (fun history a => CleanApi.deleteAsset client history (AssetModels.id a))
           AssetModels.fileName "asset" CleanModels.asset w).
Qed.

(** X16: the content item sweep throws only the rejection of its listing,
    as it is, and otherwise never throws: it issues one delete per listed
    item, by id and in listing order, reports only listed items, and on a
    run without rejection reports all of them and logs nothing.  It deletes
    no language variant itself. *)
Theorem cleanContentItemsAsync_sweeps (w : Clean.World) :
  let report := fun i => {| CleanModels.data := CleanModels.contentItem i;
                            CleanModels.title := ContentItemModels.name i;
                            CleanModels.type := "contentItem" |} in
  let run := CleanService.cleanContentItemsAsync config client w in
  match CleanApi.listContentItems client (Clean.calls w) with
  | inl e => run = (Threw e, Clean.issued w CleanApi.ListContentItems)
  | inr contentItems =>
      fst run = Returned tt /\
      Clean.calls (snd run)
        = Clean.calls w ++ CleanApi.ListContentItems ::
            map (fun i => CleanApi.DeleteContentItem (ContentItemModels.id i)) contentItems /\
      (exists reports,
         Clean.processed (snd run) = Clean.processed w ++ reports /\
         sublist reports (map report contentItems)) /\
      ((forall history i,
          CleanApi.deleteContentItem client history (ContentItemModels.id i) = inr tt) ->
       CleanSpec.quietCallback config ->
       Clean.console (snd run) = Clean.console w /\
       Clean.processed (snd run)
         = Clean.processed w ++ CleanSpec.reported config (map report contentItems))
  end.
Proof.
  exact (sweep_runs config CleanApi.ListContentItems (CleanApi.listContentItems client)
           (fun i => CleanApi.DeleteContentItem (ContentItemModels.id i))
           (fun history i => CleanApi.deleteContentItem client history (ContentItemModels.id i))
           ContentItemModels.name "contentItem" CleanModels.contentItem w).
Qed.

End Sweeps.

Section SweepOutcome.

Context (config : CleanModels.ICleanConfig) {X : Type}.
Context (listing : CleanApi.Request).
Context (listed : list CleanApi.Request -> Thrown + list X).
Context (del : X -> CleanApi.Request).
Context (answer : list CleanApi.Request -> X -> Thrown + unit).
Context (title : X -> string) (type : Core.ItemType) (data : X -> CleanModels.Cleaned).

(** How a sweep ends: answered and done, or rejected at its listing. *)
Lemma sweep_outcome (w w' : Clean.World) (out : Outcome unit) :
  (let+ xs := Clean.call listing listed in
   CleanService.forOf xs (fun x =>
     Clean.catch
       (let+ m := Clean.call (del x) (fun history => answer history x) in
        CleanService.processItem config (title x) type (data x))
       CleanService.handleCleanError)) w = (out, w') ->
  (exists xs, listed (Clean.calls w) = inr xs /\ out = Returned tt /\
     Clean.calls w' = Clean.calls w ++ listing :: map del xs) \/
  (exists e, listed (Clean.calls w) = inl e /\ out = Threw e /\
     w' = Clean.issued w listing).
Proof.
  intros Hrun.
  pose proof (sweep_runs config listing listed del answer title type data w) as Hspec.
  cbv zeta in Hspec. rewrite Hrun in Hspec. cbn [fst snd] in Hspec.
  destruct (listed (Clean.calls w)) as [e|xs].
  - right. exists e. injection Hspec as -> ->. auto.
  - left. exists xs. destruct Hspec as (-> & Hcalls & _). auto.
Qed.

End SweepOutcome.

Section Folders.

Context (config : CleanModels.ICleanConfig).
Context (client : CleanApi.IManagementClient).

Lemma processItem_step (title : string) (type : Core.ItemType) (data : CleanModels.Cleaned)
    (w : Clean.World) :
  CleanService.processItem config title type data w =
  let arg := {| CleanModels.data := data; CleanModels.title := title;
                CleanModels.type := type |} in
  match CleanModels.processItem config with
  | None => (Returned tt, w)
  | Some callback =>
      match callback arg with
      | None => (Returned tt, Clean.notified w arg)
      | Some e => (Threw e, Clean.notified w arg)
      end
  end.
Proof. unfold CleanService.processItem. now destruct (CleanModels.processItem config). Qed.

(** Reporting a list of entities issues no call and, with a callback that
    does not throw, reports all of them and returns. *)
Lemma reportLoop {X} (title : X -> string) (type : Core.ItemType)
    (data : X -> CleanModels.Cleaned) (xs : list X) (w : Clean.World) :
  let run := CleanService.forOf xs (fun x =>
               CleanService.processItem config (title x) type (data x)) w in
  Clean.calls (snd run) = Clean.calls w /\
  Clean.console (snd run) = Clean.console w /\
  (CleanSpec.quietCallback config ->
   fst run = Returned tt /\
   Clean.processed (snd run)
     = Clean.processed w ++
       CleanSpec.reported config
         (map (fun x => {| CleanModels.data := data x; CleanModels.title := title x;
                           CleanModels.type := type |}) xs)).
Proof.
  cbv zeta. revert w. induction xs as [|x xs IH]; intros w.
  - cbn. split; [reflexivity|]. split; [reflexivity|]. intros _. split; [reflexivity|].
    unfold CleanSpec.reported. destruct (CleanModels.processItem config); now rewrite app_nil_r.
  - rewrite clean_forOf_cons, processItem_step. cbv zeta.
    destruct (CleanModels.processItem config) as [callback|] eqn:Hcb.
    + destruct (callback _) as [e|] eqn:Hthrows.
      * cbn. split; [reflexivity|]. split; [reflexivity|]. intros Hquiet.
        rewrite (Hquiet callback _ Hcb) in Hthrows. discriminate Hthrows.
      * destruct (IH (Clean.notified w
                        {| CleanModels.data := data x; CleanModels.title := title x;
                           CleanModels.type := type |})) as (Hcalls & Hconsole & Hquiet).
        split; [exact Hcalls|]. split; [exact Hconsole|]. intros Hq.
        destruct (Hquiet Hq) as [Hout Hprocessed]. split; [exact Hout|].
        rewrite Hprocessed. unfold CleanSpec.reported. rewrite Hcb. cbn.
        now rewrite <- app_assoc.
    + destruct (IH w) as (Hcalls & Hconsole & Hquiet).
      split; [exact Hcalls|]. split; [exact Hconsole|]. intros Hq.
      destruct (Hquiet Hq) as [Hout Hprocessed]. split; [exact Hout|].
      rewrite Hprocessed. unfold CleanSpec.reported. now rewrite Hcb.
Qed.

(** X17: the asset folder sweep throws only the rejection of its listing.
    With no folder listed it calls nothing more.  Otherwise it issues one
    modify call that removes every listed folder by id, in listing order,
    and returns whatever the answer: a rejection is logged and nothing is
    reported; an accepted call with a callback that does not throw reports
    every folder and logs nothing. *)
Theorem cleanAssetFoldersAsync_sweeps (w : Clean.World) :
  let report := fun f => {| CleanModels.data := CleanModels.assetFolder f;
                            CleanModels.title := AssetFolderModels.name f;
                            CleanModels.type := "assetFolder" |} in
  let run := CleanService.cleanAssetFoldersAsync config client w in
  let listed := Clean.issued w CleanApi.ListAssetFolders in
  match CleanApi.listAssetFolders client (Clean.calls w) with
  | inl e => run = (Threw e, listed)
  | inr [] => run = (Returned tt, listed)
  | inr assetFolders =>
      let data := map CleanSpec.removeFolder assetFolders in
      fst run = Returned tt /\
      Clean.calls (snd run)
        = Clean.calls w ++ [CleanApi.ListAssetFolders; CleanApi.ModifyAssetFolders data] /\
      (forall e,
         CleanApi.modifyAssetFolders client (Clean.calls listed) data = inl e ->
         Clean.console (snd run) = Clean.console w ++ [e] /\
         Clean.processed (snd run) = Clean.processed w) /\
      (CleanApi.modifyAssetFolders client (Clean.calls listed) data = inr tt ->
       CleanSpec.quietCallback config ->
       Clean.console (snd run) = Clean.console w /\
       Clean.processed (snd run)
         = Clean.processed w ++ CleanSpec.reported config (map report assetFolders))
  end.
Proof.
  cbv zeta. unfold CleanService.cleanAssetFoldersAsync. rewrite clean_bind_call.
  destruct (CleanApi.listAssetFolders client (Clean.calls w)) as [e|[|folder folders]];
    [reflexivity|reflexivity|].
  cbn [length Nat.eqb negb]. cbv zeta. unfold Clean.catch. rewrite clean_bind_call.
  unfold CleanSpec.removeFolder.
  destruct (CleanApi.modifyAssetFolders client _ _) as [e|[]] eqn:Hmodify.
  - cbn. split; [reflexivity|]. split; [now rewrite <- app_assoc|]. split.
    + now intros e0 [= <-].
    + discriminate.
  - pose proof (reportLoop AssetFolderModels.name "assetFolder" CleanModels.assetFolder
                  (folder :: folders)
                  (Clean.issued (Clean.issued w CleanApi.ListAssetFolders)
                     (CleanApi.ModifyAssetFolders
                        (map (fun m => CleanSpec.removeFolder m) (folder :: folders)))))
      as (Hcalls & Hconsole & Hquiet).
    cbv zeta in Hcalls, Hconsole, Hquiet. unfold CleanSpec.removeFolder in *.
    destruct (CleanService.forOf (folder :: folders) _ _) as [[[]|e] w1] eqn:Hloop;
      cbn [fst snd] in *.
    + split; [reflexivity|]. split; [rewrite Hcalls; cbn; now rewrite <- app_assoc|]. split.
      * discriminate.
      * intros _ Hq. split; [exact Hconsole|]. now apply Hquiet.
    + unfold CleanService.handleCleanError, Clean.consoleLog. cbn [fst snd].
      split; [reflexivity|].
      split; [cbn; rewrite Hcalls; cbn; now rewrite <- app_assoc|]. split.
      * discriminate.
      * intros _ Hq. destruct (Hquiet Hq) as [Hout _]. discriminate Hout.
Qed.

End Folders.

Section Variants.

Context (config : CleanModels.ICleanConfig).
Context (client : CleanApi.IManagementClient).

Lemma clean_forOf_ext_in {A} (body body' : A -> Clean.M unit) (xs : list A)
    (w : Clean.World) :
  (forall x w0, In x xs -> body x w0 = body' x w0) ->
  CleanService.forOf xs body w = CleanService.forOf xs body' w.
Proof.
  revert w. induction xs as [|x xs IH]; intros w Hext; [reflexivity|].
  rewrite !clean_forOf_cons, Hext by now left.
  destruct (body' x w) as [[u|e] w1]; [|reflexivity].
  apply IH. intros y w0 Hy. apply Hext. now right.
Qed.

(** X18: the language variants of an item are deleted in listing order, by
    item id and language id.  If every listed variant has a language id, the
    sweep returns having issued one delete for each.  If one has none, the
    sweep throws the error naming the item at that variant: the variants
    listed before it have had their delete issued, that one and the later
    ones have not. *)
Theorem cleanLanguageVariantsAsync_sweeps (contentItemId : string)
    (variants : list LanguageVariantModels.ContentItemLanguageVariant) (w : Clean.World)
    (Hlisted : CleanApi.listLanguageVariantsOfItem client (Clean.calls w) contentItemId
               = inr variants) :
  let run := CleanService.cleanLanguageVariantsAsync config client contentItemId w in
  let languageId := fun v => SharedContracts.id (LanguageVariantModels.language v) in
  let del := fun v => CleanApi.DeleteLanguageVariant contentItemId (languageId v) in
  (Forall (fun v => falsy (languageId v) = false) variants ->
   fst run = Returned tt /\
   Clean.calls (snd run)
     = Clean.calls w ++ CleanApi.ListLanguageVariantsOfItem contentItemId :: map del variants) /\
  (forall deleted faulty later,
     variants = deleted ++ faulty :: later ->
     Forall (fun v => falsy (languageId v) = false) deleted ->
     falsy (languageId faulty) = true ->
     fst run = Threw (JsError ("Missing language id for item '" +:+ contentItemId +:+ "'")) /\
     Clean.calls (snd run)
       = Clean.calls w ++ CleanApi.ListLanguageVariantsOfItem contentItemId :: map del deleted).
Proof.
  cbv zeta. unfold CleanService.cleanLanguageVariantsAsync.
  rewrite clean_bind_call, Hlisted.
  match goal with |- context [CleanService.forOf variants ?b ?w1] =>
    set (body := b); set (w0 := w1)
  end.
  assert (forall vs w1,
            Forall (fun v => falsy (SharedContracts.id (LanguageVariantModels.language v))
                             = false) vs ->
            fst (CleanService.forOf vs body w1) = Returned tt /\
            Clean.calls (snd (CleanService.forOf vs body w1))
              = Clean.calls w1 ++
                map (fun v => CleanApi.DeleteLanguageVariant contentItemId
                                (SharedContracts.id (LanguageVariantModels.language v))) vs)
    as Hgood.
  { intros vs w1 Hall.
    rewrite (clean_forOf_ext_in body
               (fun v =>
                  Clean.catch
                    (let+ m :=
                       Clean.call
                         (CleanApi.DeleteLanguageVariant contentItemId
                            (SharedContracts.id (LanguageVariantModels.language v)))
                         (fun history =>
                            CleanApi.deleteLanguageVariant client history contentItemId
                              (SharedContracts.id (LanguageVariantModels.language v))) in
                     CleanService.processItem config contentItemId "languageVariant"
                       (CleanModels.languageVariant v))
                    CleanService.handleCleanError)).
    - destruct (deleteLoop config
                  (fun v => CleanApi.DeleteLanguageVariant contentItemId
                              (SharedContracts.id (LanguageVariantModels.language v)))
                  (fun history v =>
                     CleanApi.deleteLanguageVariant client history contentItemId
                       (SharedContracts.id (LanguageVariantModels.language v)))
                  (fun _ => contentItemId) "languageVariant" CleanModels.languageVariant
                  vs w1) as (Hout & Hcalls & _).
      split; [exact Hout | exact Hcalls].
    - intros v w2 Hin. pose proof (proj1 (List.Forall_forall _ _) Hall v Hin) as Hv.
      unfold body. cbv zeta. cbv beta in Hv. now rewrite Hv. }
  split.
  - intros Hall. destruct (Hgood variants w0 Hall) as [Hout Hcalls].
    split; [exact Hout|]. rewrite Hcalls. subst w0. cbn. now rewrite <- app_assoc.
  - intros deleted faulty later -> Hall Hfaulty.
    rewrite clean_forOf_app. destruct (Hgood deleted w0 Hall) as [Hout Hcalls].
    destruct (CleanService.forOf deleted body w0) as [[[]|e] w1]; cbn [fst snd] in *;
      [|discriminate Hout].
    assert (body faulty w1
            = (Threw (JsError ("Missing language id for item '" +:+ contentItemId +:+ "'")),
               w1)) as Hthrows
      by (unfold body; cbv zeta; now rewrite Hfaulty).
    rewrite clean_forOf_cons, Hthrows. cbn [fst snd]. split; [reflexivity|].
    rewrite Hcalls. subst w0. cbn. now rewrite <- app_assoc.
Qed.

End Variants.

Section CleanAll.

Context (config : CleanModels.ICleanConfig).
Context (client : CleanApi.IManagementClient).
Context (now : nat).

Lemma clean_bind_run {A B} (m : Clean.M A) (k : A -> Clean.M B) (w : Clean.World) :
  Clean.bind m k w =
  match m w with
  | (Returned a, w1) => k a w1
  | (Threw e, w1) => (Threw e, w1)
  end.
Proof. reflexivity. Qed.

(** How the asset folder sweep ends. *)
Lemma cleanAssetFoldersAsync_outcome (w w' : Clean.World) (out : Outcome unit) :
  CleanService.cleanAssetFoldersAsync config client w = (out, w') ->
  (exists folders, CleanApi.listAssetFolders client (Clean.calls w) = inr folders /\
     out = Returned tt /\
     Clean.calls w' = Clean.calls w ++ CleanApi.ListAssetFolders ::
       match folders with
       | [] => []
       | _ => [CleanApi.ModifyAssetFolders (map CleanSpec.removeFolder folders)]
       end) \/
  (exists e, CleanApi.listAssetFolders client (Clean.calls w) = inl e /\ out = Threw e /\
     w' = Clean.issued w CleanApi.ListAssetFolders).
Proof.
  unfold CleanService.cleanAssetFoldersAsync. rewrite clean_bind_call.
  destruct (CleanApi.listAssetFolders client (Clean.calls w)) as [e|[|folder folders]].
  - intros [= <- <-]. right. now exists e.
  - intros [= <- <-]. left. now exists [].
  - cbn [length Nat.eqb negb]. cbv zeta. unfold Clean.catch. rewrite clean_bind_call.
    intros Hrun. left. exists (folder :: folders). split; [reflexivity|].
    unfold CleanSpec.removeFolder.
    destruct (CleanApi.modifyAssetFolders client _ _) as [e|[]].
    + injection Hrun as <- <-. split; [reflexivity|]. cbn. now rewrite <- app_assoc.
    + pose proof (reportLoop config AssetFolderModels.name "assetFolder"
                    CleanModels.assetFolder (folder :: folders)
                    (Clean.issued (Clean.issued w CleanApi.ListAssetFolders)
                       (CleanApi.ModifyAssetFolders
                          (map (fun m => CleanSpec.removeFolder m) (folder :: folders)))))
        as (Hcalls & _).
      cbv zeta in Hcalls. unfold CleanSpec.removeFolder in Hcalls.
      destruct (CleanService.forOf (folder :: folders) _ _) as [[[]|e] w1];
        cbn [fst snd] in *; injection Hrun as <- <-; (split; [reflexivity|]);
        cbn; rewrite Hcalls; cbn; now rewrite <- app_assoc.
Qed.

(** The six sweeps in a row, before the result is built or the error
    handled: each deletes what its own listing answered with. *)
Lemma cleanAll_sweeps (w w' : Clean.World) (out : Outcome unit) :
  (let+ _ := CleanService.cleanContentItemsAsync config client in
   let+ _ := CleanService.cleanContentTypesAsync config client in
   let+ _ := CleanService.cleanContentTypeSnippetsAsync config client in
   let+ _ := CleanService.cleanTaxonomiesAsync config client in
   let+ _ := CleanService.cleanAssetsAsync config client in
   CleanService.cleanAssetFoldersAsync config client) w = (out, w') ->
  (out = Returned tt /\
   exists contentItems contentTypes snippets taxonomies assets assetFolders,
     let items := CleanApi.ListContentItems ::
       map (fun i => CleanApi.DeleteContentItem (ContentItemModels.id i)) contentItems in
     let types := CleanApi.ListContentTypes ::
       map (fun t => CleanApi.DeleteContentType (ContentTypeModels.id t)) contentTypes in
     let snips := CleanApi.ListContentTypeSnippets ::
       map (fun t => CleanApi.DeleteContentTypeSnippet (ContentTypeSnippetModels.id t))
         snippets in
     let taxons := CleanApi.ListTaxonomies ::
       map (fun t => CleanApi.DeleteTaxonomy (TaxonomyModels.id t)) taxonomies in
     let files := CleanApi.ListAssets ::
       map (fun a => CleanApi.DeleteAsset (AssetModels.id a)) assets in
     CleanApi.listContentItems client (Clean.calls w) = inr contentItems /\
     CleanApi.listContentTypes client (Clean.calls w ++ items) = inr contentTypes /\
     CleanApi.listContentTypeSnippets client (Clean.calls w ++ items ++ types)
       = inr snippets /\
     CleanApi.listTaxonomies client (Clean.calls w ++ items ++ types ++ snips)
       = inr taxonomies /\
     CleanApi.listAssets client (Clean.calls w ++ items ++ types ++ snips ++ taxons)
       = inr assets /\
     CleanApi.listAssetFolders client
       (Clean.calls w ++ items ++ types ++ snips ++ taxons ++ files) = inr assetFolders /\
     Clean.calls w' = Clean.calls w ++ items ++ types ++ snips ++ taxons ++ files ++
       CleanApi.ListAssetFolders ::
         match assetFolders with
         | [] => []
         | _ => [CleanApi.ModifyAssetFolders (map CleanSpec.removeFolder assetFolders)]
         end) \/
  (exists e history listing,
     out = Threw e /\
     w' = Clean.issued {| Clean.calls := history; Clean.console := Clean.console w';
                          Clean.processed := Clean.processed w' |} listing /\
     In listing CleanSpec.listings /\
     CleanSpec.rejection client history listing = Some e).
Proof.
  intros Hrun.
  rewrite clean_bind_run in Hrun.
  destruct (CleanService.cleanContentItemsAsync config client w) as [o1 w1] eqn:H1.
  apply (sweep_outcome config CleanApi.ListContentItems (CleanApi.listContentItems client)
           (fun i => CleanApi.DeleteContentItem (ContentItemModels.id i))
           (fun history i => CleanApi.deleteContentItem client history (ContentItemModels.id i))
           ContentItemModels.name "contentItem" CleanModels.contentItem) in H1
    as [(xs1 & Hl1 & -> & Hc1) | (e & Hl & -> & ->)];
    [|injection Hrun as <- <-; right; exists e, (Clean.calls w), CleanApi.ListContentItems;
      repeat split; [cbn; tauto | cbn; now rewrite Hl]].
  rewrite clean_bind_run in Hrun.
  destruct (CleanService.cleanContentTypesAsync config client w1) as [o2 w2] eqn:H2.
  apply (sweep_outcome config CleanApi.ListContentTypes (CleanApi.listContentTypes client)
           (fun t => CleanApi.DeleteContentType (ContentTypeModels.id t))
           (fun history t => CleanApi.deleteContentType client history (ContentTypeModels.id t))
           ContentTypeModels.name "contentType" CleanModels.contentType) in H2
    as [(xs2 & Hl2 & -> & Hc2) | (e & Hl & -> & ->)];
    [|injection Hrun as <- <-; right; exists e, (Clean.calls w1), CleanApi.ListContentTypes;
      repeat split; [cbn; tauto | cbn; now rewrite Hl]].
  rewrite clean_bind_run in Hrun.
  destruct (CleanService.cleanContentTypeSnippetsAsync config client w2) as [o3 w3] eqn:H3.
  apply (sweep_outcome config CleanApi.ListContentTypeSnippets
           (CleanApi.listContentTypeSnippets client)
           (fun t => CleanApi.DeleteContentTypeSnippet (ContentTypeSnippetModels.id t))
           (fun history t =>
              CleanApi.deleteContentTypeSnippet client history (ContentTypeSnippetModels.id t))
           ContentTypeSnippetModels.name "contentTypeSnippet"
           CleanModels.contentTypeSnippet) in H3
    as [(xs3 & Hl3 & -> & Hc3) | (e & Hl & -> & ->)];
    [|injection Hrun as <- <-; right;
      exists e, (Clean.calls w2), CleanApi.ListContentTypeSnippets;
      repeat split; [cbn; tauto | cbn; now rewrite Hl]].
  rewrite clean_bind_run in Hrun.
  destruct (CleanService.cleanTaxonomiesAsync config client w3) as [o4 w4] eqn:H4.
  apply (sweep_outcome config CleanApi.ListTaxonomies (CleanApi.listTaxonomies client)
           (fun t => CleanApi.DeleteTaxonomy (TaxonomyModels.id t))
           (fun history t => CleanApi.deleteTaxonomy client history (TaxonomyModels.id t))
           TaxonomyModels.name "taxonomy" CleanModels.taxonomy) in H4
    as [(xs4 & Hl4 & -> & Hc4) | (e & Hl & -> & ->)];
    [|injection Hrun as <- <-; right; exists e, (Clean.calls w3), CleanApi.ListTaxonomies;
      repeat split; [cbn; tauto | cbn; now rewrite Hl]].
  rewrite clean_bind_run in Hrun.
  destruct (CleanService.cleanAssetsAsync config client w4) as [o5 w5] eqn:H5.
  apply (sweep_outcome config CleanApi.ListAssets (CleanApi.listAssets client)
           (fun a => CleanApi.DeleteAsset (AssetModels.id a))
           (fun history a => CleanApi.deleteAsset client history (AssetModels.id a))
           AssetModels.fileName "asset" CleanModels.asset) in H5
    as [(xs5 & Hl5 & -> & Hc5) | (e & Hl & -> & ->)];
    [|injection Hrun as <- <-; right; exists e, (Clean.calls w4), CleanApi.ListAssets;
      repeat split; [cbn; tauto | cbn; now rewrite Hl]].
  apply cleanAssetFoldersAsync_outcome in Hrun
    as [(xs6 & Hl6 & -> & Hc6) | (e & Hl & -> & ->)];
    [|right; exists e, (Clean.calls w5), CleanApi.ListAssetFolders;
      repeat split; [cbn; tauto | cbn; now rewrite Hl]].
  left. split; [reflexivity|]. exists xs1, xs2, xs3, xs4, xs5, xs6. cbv zeta.
  rewrite Hc5, Hc4, Hc3, Hc2, Hc1 in Hl6. rewrite Hc4, Hc3, Hc2, Hc1 in Hl5.
  rewrite Hc3, Hc2, Hc1 in Hl4. rewrite Hc2, Hc1 in Hl3. rewrite Hc1 in Hl2.
  rewrite Hc6, Hc5, Hc4, Hc3, Hc2, Hc1.
  rewrite <- !app_assoc in Hl3. rewrite <- !app_assoc in Hl4.
  rewrite <- !app_assoc in Hl5. rewrite <- !app_assoc in Hl6. rewrite <- !app_assoc.
  repeat split; assumption || reflexivity.
Qed.

(** X19: a full clean that returns hands back the project id of its
    configuration and the time read, and has swept content items, content
    types, content type snippets, taxonomies, assets and asset folders, in
    that order.  Each of the first five sweeps is its listing followed by one
    delete for every entity that listing answered with, in the order of the
    answer; the last is the listing of the asset folders followed, when it
    answered with any folder, by one call removing all of them.  Each listing
    is asked after the calls of the sweeps before it.  No call is made about
    language variants. *)
Theorem cleanAllAsync_returns (w w' : Clean.World) (result : CleanModels.ICleanResult)
    (Hrun : CleanService.cleanAllAsync config client now w = (Returned result, w')) :
  result = {| CleanModels.metadata :=
                {| CleanModels.metadataProjectId := CleanModels.projectId config;
                   CleanModels.timestamp := now |} |} /\
  exists contentItems contentTypes snippets taxonomies assets assetFolders,
    let items := CleanApi.ListContentItems ::
      map (fun i => CleanApi.DeleteContentItem (ContentItemModels.id i)) contentItems in
    let types := CleanApi.ListContentTypes ::
      map (fun t => CleanApi.DeleteContentType (ContentTypeModels.id t)) contentTypes in
    let snips := CleanApi.ListContentTypeSnippets ::
      map (fun t => CleanApi.DeleteContentTypeSnippet (ContentTypeSnippetModels.id t))
        snippets in
    let taxons := CleanApi.ListTaxonomies ::
      map (fun t => CleanApi.DeleteTaxonomy (TaxonomyModels.id t)) taxonomies in
    let files := CleanApi.ListAssets ::
      map (fun a => CleanApi.DeleteAsset (AssetModels.id a)) assets in
    CleanApi.listContentItems client (Clean.calls w) = inr contentItems /\
    CleanApi.listContentTypes client (Clean.calls w ++ items) = inr contentTypes /\
    CleanApi.listContentTypeSnippets client (Clean.calls w ++ items ++ types)
      = inr snippets /\
    CleanApi.listTaxonomies client (Clean.calls w ++ items ++ types ++ snips)
      = inr taxonomies /\
    CleanApi.listAssets client (Clean.calls w ++ items ++ types ++ snips ++ taxons)
      = inr assets /\
    CleanApi.listAssetFolders client
      (Clean.calls w ++ items ++ types ++ snips ++ taxons ++ files) = inr assetFolders /\
    Clean.calls w' = Clean.calls w ++ items ++ types ++ snips ++ taxons ++ files ++
      CleanApi.ListAssetFolders ::
        match assetFolders with
        | [] => []
        | _ => [CleanApi.ModifyAssetFolders (map CleanSpec.removeFolder assetFolders)]
        end.
Proof.
  unfold CleanService.cleanAllAsync, Clean.catch in Hrun.
  match type of Hrun with
  | context [Clean.bind ?m ?k w] =>
      assert (Clean.bind m k w =
              match (let+ _ := CleanService.cleanContentItemsAsync config client in
                     let+ _ := CleanService.cleanContentTypesAsync config client in
                     let+ _ := CleanService.cleanContentTypeSnippetsAsync config client in
                     let+ _ := CleanService.cleanTaxonomiesAsync config client in
                     let+ _ := CleanService.cleanAssetsAsync config client in
                     CleanService.cleanAssetFoldersAsync config client) w with
              | (Returned _, w1) =>
                  (Returned {| CleanModels.metadata :=
                                 {| CleanModels.metadataProjectId := CleanModels.projectId config;
                                    CleanModels.timestamp := now |} |}, w1)
              | (Threw e, w1) => (Threw e, w1)
              end) as Hsplit
  end.
  { unfold Clean.bind, Clean.ret.
    repeat match goal with
           | |- context [let (_, _) := ?x in _] => destruct x as [[[]|?] ?]
           end; reflexivity. }
  rewrite Hsplit in Hrun. clear Hsplit.
  destruct ((let+ _ := CleanService.cleanContentItemsAsync config client in _) w)
    as [[[]|e] w1] eqn:Hsweeps.
  - injection Hrun as <- <-. split; [reflexivity|].
    apply cleanAll_sweeps in Hsweeps as [(_ & Hcalls) | (e & ? & ? & Habsurd & _)];
      [exact Hcalls | discriminate Habsurd].
  - unfold Clean.bind, Clean.consoleLog, Clean.throw in Hrun. discriminate Hrun.
Qed.

(** X20: a full clean throws only when one of its six listings is rejected.
    What it throws is that rejection itself; the rejected listing is the
    last call made, so no later sweep has started, and the rejection is the
    last value logged. *)
Theorem cleanAllAsync_throws (w w' : Clean.World) (e : Thrown)
    (Hrun : CleanService.cleanAllAsync config client now w = (Threw e, w')) :
  exists history listing earlier,
    Clean.calls w' = history ++ [listing] /\
    In listing CleanSpec.listings /\
    CleanSpec.rejection client history listing = Some e /\
    Clean.console w' = earlier ++ [e].
Proof.
  unfold CleanService.cleanAllAsync, Clean.catch in Hrun.
  match type of Hrun with
  | context [Clean.bind ?m ?k w] =>
      assert (Clean.bind m k w =
              match (let+ _ := CleanService.cleanContentItemsAsync config client in
                     let+ _ := CleanService.cleanContentTypesAsync config client in
                     let+ _ := CleanService.cleanContentTypeSnippetsAsync config client in
                     let+ _ := CleanService.cleanTaxonomiesAsync config client in
                     let+ _ := CleanService.cleanAssetsAsync config client in
                     CleanService.cleanAssetFoldersAsync config client) w with
              | (Returned _, w1) =>
                  (Returned {| CleanModels.metadata :=
                                 {| CleanModels.metadataProjectId := CleanModels.projectId config;
                                    CleanModels.timestamp := now |} |}, w1)
              | (Threw e, w1) => (Threw e, w1)
              end) as Hsplit
  end.
  { unfold Clean.bind, Clean.ret.
    repeat match goal with
           | |- context [let (_, _) := ?x in _] => destruct x as [[[]|?] ?]
           end; reflexivity. }
  rewrite Hsplit in Hrun. clear Hsplit.
  destruct ((let+ _ := CleanService.cleanContentItemsAsync config client in _) w)
    as [[[]|e1] w1] eqn:Hsweeps; [discriminate Hrun|].
  unfold Clean.bind, Clean.consoleLog, Clean.throw in Hrun. injection Hrun as <- <-.
  apply cleanAll_sweeps in Hsweeps
    as [(Habsurd & _) | (e & history & listing & [= <-] & -> & Hin & Hrejected)];
    [discriminate Habsurd|].
  exists history, listing, (Clean.console w1). cbn. auto.
Qed.

End CleanAll.

(** * Properties of the export of language variants *)

Section ExportLoops.

Context (config : ExportModels.IExportConfig).
Context (client : ExportApi.IManagementClient).
Context (yellow : string -> string).

Lemma export_forOf_cons {A S} (body : A -> S -> Exports.M S) (x : A) (rest : list A)
    (s : S) (w : Exports.World) :
  ExportService.forOf (x :: rest) body s w =
  match body x s w with
  | (Returned s1, w1) => ExportService.forOf rest body s1 w1
  | (Threw e, w1) => (Threw e, w1)
  end.
Proof. reflexivity. Qed.

Lemma export_reported_app (xs ys : list ExportModels.IProcessedItem) :
  ExportSpec.reported config (xs ++ ys)
  = ExportSpec.reported config xs ++ ExportSpec.reported config ys.
Proof. unfold ExportSpec.reported. now destruct (ExportModels.onExport config). Qed.

Lemma export_processItem_step (title : string) (type : Core.ItemType)
    (data : ExportModels.LanguageVariant) (w : Exports.World) :
  ExportService.processItem config title type data w =
  let arg := {| ExportModels.data := data; ExportModels.title := title;
                ExportModels.type := type |} in
  match ExportModels.onExport config with
  | None => (Returned tt, w)
  | Some onExport =>
      match onExport arg with
      | None => (Returned tt, Exports.notified w arg)
      | Some e => (Threw e, Exports.notified w arg)
      end
  end.
Proof. unfold ExportService.processItem. now destruct (ExportModels.onExport config). Qed.

(** Reporting the variants listed for one item: no call is made; when the
    loop returns every variant has been reported, in order; and it returns
    whenever the callback does not throw. *)
Lemma reportVariants (languages : list LanguageContracts.ILanguageModelContract)
    (contentItem : ContentItemContracts.IContentItemModelContract)
    (response : list ExportModels.LanguageVariant) (w : Exports.World) :
  let run :=
    ExportService.forOf response (fun languageVariant (_ : unit) =>
      let language :=
        List.find (fun m => strictEq (LanguageContracts.id m)
                              (SharedContracts.id (ExportModels.language languageVariant)))
          languages in
      ExportService.processItem config
        (ContentItemContracts.name contentItem +:+ " (" +:+
         yellow (match language with
                 | Some l => LanguageContracts.name l
                 | None => ""
                 end) +:+ ")")
        "languageVariant" languageVariant) tt w in
  Exports.calls (snd run) = Exports.calls w /\
  (fst run = Returned tt ->
   Exports.processed (snd run)
     = Exports.processed w ++
       ExportSpec.reported config
         (map (ExportSpec.report yellow languages contentItem) response)) /\
  (ExportSpec.quietCallback config -> fst run = Returned tt).
Proof.
  cbv zeta. revert w. induction response as [|v response IH]; intros w.
  - cbn. split; [reflexivity|]. split; [|reflexivity]. intros _.
    unfold ExportSpec.reported. destruct (ExportModels.onExport config); now rewrite app_nil_r.
  - rewrite export_forOf_cons, export_processItem_step. cbv zeta.
    destruct (ExportModels.onExport config) as [onExport|] eqn:Hcb.
    + destruct (onExport _) as [e|] eqn:Hthrows.
      * cbn. split; [reflexivity|]. split; [intros Hr; discriminate Hr|]. intros Hquiet.
        rewrite (Hquiet onExport _ Hcb) in Hthrows. discriminate Hthrows.
      * match goal with
        | |- context [ExportService.forOf response ?b tt ?w1] =>
            destruct (IH w1) as (Hcalls & Hprocessed & Hquiet)
        end.
        split; [exact Hcalls|]. split; [|exact Hquiet].
        intros Hout. rewrite (Hprocessed Hout). cbn [map].
        unfold ExportSpec.reported. rewrite Hcb. cbn. now rewrite <- app_assoc.
    + destruct (IH w) as (Hcalls & Hprocessed & Hquiet).
      split; [exact Hcalls|]. split; [|exact Hquiet].
      intros Hout. rewrite (Hprocessed Hout). unfold ExportSpec.reported. now rewrite Hcb.
Qed.

End ExportLoops.

Section ExportVariants.

Context (config : ExportModels.IExportConfig).
Context (client : ExportApi.IManagementClient).
Context (yellow : string -> string).

(** The loop over the content items, started from any collected variants. *)
Lemma exportLoop (languages : list LanguageContracts.ILanguageModelContract)
    (contentItems : list ContentItemContracts.IContentItemModelContract)
    (acc : list LanguageVariantContracts.ILanguageVariantModelContract)
    (w w' : Exports.World)
    (out : Outcome (list LanguageVariantContracts.ILanguageVariantModelContract)) :
  ExportService.forOf contentItems (fun contentItem languageVariants =>
    let^ response :=
      Exports.call (ExportApi.ListLanguageVariantsOfItem (ContentItemContracts.id contentItem))
        (fun history => ExportApi.listLanguageVariantsOfItem client history
                          (ContentItemContracts.id contentItem)) in
    let languageVariants := languageVariants ++ map ExportModels._raw response in
    let^ _ :=
      ExportService.forOf response (fun languageVariant (_ : unit) =>
        let language :=
          List.find (fun m => strictEq (LanguageContracts.id m)
                                (SharedContracts.id (ExportModels.language languageVariant)))
            languages in
        ExportService.processItem config
          (ContentItemContracts.name contentItem +:+ " (" +:+
           yellow (match language with
                   | Some l => LanguageContracts.name l
                   | None => ""
                   end) +:+ ")")
          "languageVariant" languageVariant) tt in
    Exports.ret languageVariants) acc w = (out, w') ->
  match out with
  | Returned result =>
      exists listed,
        ExportSpec.answers client (Exports.calls w) contentItems = map inr listed /\
        result = acc ++ concat (map (map ExportModels._raw) listed) /\
        Exports.calls w' = Exports.calls w ++ ExportSpec.listings contentItems /\
        Exports.processed w'
          = Exports.processed w ++
            ExportSpec.reported config
              (concat (zip_with (fun i vs => map (ExportSpec.report yellow languages i) vs)
                         contentItems listed))
  | Threw e =>
      ExportSpec.quietCallback config ->
      exists listed later,
        ExportSpec.answers client (Exports.calls w) contentItems
          = map inr listed ++ inl e :: later /\
        Exports.calls w'
          = Exports.calls w ++ ExportSpec.listings (take (S (length listed)) contentItems)
  end.
Proof.
  revert acc w. induction contentItems as [|i rest IH]; intros acc w Hrun.
  - injection Hrun as <- <-. exists []. cbn. rewrite !app_nil_r.
    repeat split. unfold ExportSpec.reported. destruct (ExportModels.onExport config);
      now rewrite app_nil_r.
  - rewrite export_forOf_cons in Hrun. cbv zeta in Hrun.
    unfold Exports.bind at 1, Exports.call at 1 in Hrun. cbn [ExportSpec.answers].
    destruct (ExportApi.listLanguageVariantsOfItem client (Exports.calls w) _) as [e|vs].
    + injection Hrun as <- <-. intros _. exists [], (ExportSpec.answers client
        (Exports.calls w ++ [ExportApi.ListLanguageVariantsOfItem (ContentItemContracts.id i)])
        rest).
      split; [reflexivity|]. cbn. now rewrite take_0.
    + unfold Exports.bind at 1 in Hrun.
      pose proof (reportVariants config yellow languages i vs
                    (Exports.issued w
                       (ExportApi.ListLanguageVariantsOfItem (ContentItemContracts.id i))))
        as (Hcalls & Hprocessed & Hquiet).
      cbv zeta in Hcalls, Hprocessed, Hquiet.
      destruct (ExportService.forOf vs _ tt _) as [[[]|e] w1]; cbn [fst snd] in *.
      * unfold Exports.ret at 1 in Hrun. apply IH in Hrun.
        rewrite Hcalls in Hrun. cbn [Exports.calls Exports.issued] in Hrun.
        destruct out as [result|e].
        -- destruct Hrun as (listed & Hanswers & -> & Hcalls' & Hprocessed').
           exists (vs :: listed). rewrite Hanswers. split; [reflexivity|].
           split; [cbn; now rewrite <- app_assoc|].
           split; [rewrite Hcalls'; cbn; now rewrite <- app_assoc|].
           rewrite Hprocessed', (Hprocessed eq_refl). cbn.
           now rewrite <- app_assoc, <- export_reported_app.
        -- intros Hq. destruct (Hrun Hq) as (listed & later & Hanswers & Hcalls').
           exists (vs :: listed), later. rewrite Hanswers. split; [reflexivity|].
           rewrite Hcalls'. cbn. now rewrite <- app_assoc.
      * injection Hrun as <- <-. intros Hq. specialize (Hquiet Hq). discriminate Hquiet.
Qed.

(** X21: when the export of language variants returns, the variants of
    every content item have been listed once, by item id and in the order of
    the items; the result is the raw contracts of everything listed, item
    after item; and the callback has been told of every listed variant, in
    that order, under the name of its item followed by the coloured name of
    its language. *)
Theorem exportLanguageVariantsAsync_returns
    (contentItems : list ContentItemContracts.IContentItemModelContract)
    (languages : list LanguageContracts.ILanguageModelContract)
    (w w' : Exports.World)
    (result : list LanguageVariantContracts.ILanguageVariantModelContract)
    (Hrun : ExportService.exportLanguageVariantsAsync config client yellow contentItems
              languages w = (Returned result, w')) :
  exists listed,
    ExportSpec.answers client (Exports.calls w) contentItems = map inr listed /\
    result = concat (map (map ExportModels._raw) listed) /\
    Exports.calls w' = Exports.calls w ++ ExportSpec.listings contentItems /\
    Exports.processed w'
      = Exports.processed w ++
        ExportSpec.reported config
          (concat (zip_with (fun i vs => map (ExportSpec.report yellow languages i) vs)
                     contentItems listed)).
Proof.
  apply exportLoop in Hrun. exact Hrun.
Qed.

(** X22: with a callback that does not throw, the export of language
    variants throws only the rejection of a listing, as it is; the listings
    before it were answered, that listing is the last call made, and the
    variants collected so far are not returned. *)
Theorem exportLanguageVariantsAsync_throws
    (contentItems : list ContentItemContracts.IContentItemModelContract)
    (languages : list LanguageContracts.ILanguageModelContract)
    (w w' : Exports.World) (e : Thrown)
    (Hrun : ExportService.exportLanguageVariantsAsync config client yellow contentItems
              languages w = (Threw e, w'))
    (Hquiet : ExportSpec.quietCallback config) :
  exists listed later,
    ExportSpec.answers client (Exports.calls w) contentItems
      = map inr listed ++ inl e :: later /\
    Exports.calls w'
      = Exports.calls w ++ ExportSpec.listings (take (S (length listed)) contentItems).
Proof.
  apply exportLoop in Hrun. exact (Hrun Hquiet).
Qed.

End ExportVariants.

(** ** The further statements at work on the concrete projects *)

Lemma importAsync_one_result_per_item_witness :
  exists rs w',
    ImportService.importAsync Fixtures.configSkippingLanguages Fixtures.acceptAll
      Fixtures.keepIds Cases.mixedRun Fixtures.start = (Returned rs, w') /\
    map Core.original rs
      = [Core.taxonomyContract Fixtures.topics; Core.contentTypeContract Fixtures.article].
Proof.
  destruct (ImportService.importAsync Fixtures.configSkippingLanguages Fixtures.acceptAll
              Fixtures.keepIds Cases.mixedRun Fixtures.start) as [[rs|e] w'] eqn:E.
  - exists rs, w'. split; [reflexivity|].
    rewrite (importAsync_one_result_per_item Fixtures.configSkippingLanguages
               Fixtures.acceptAll Fixtures.keepIds
               [Fixtures.topicsItem; Fixtures.englishItem; Fixtures.articleItem] []
               rs Fixtures.start w' E).
    reflexivity.
  - vm_compute in E. discriminate E.
Defined.


Lemma importAsync_store_frame_witness :
  heap (snd (ImportService.importAsync Fixtures.config Fixtures.acceptAll Fixtures.keepIds
               (ImportModels.importData [Fixtures.homeEnglishItem; Fixtures.topicsItem] [])
               Fixtures.start)) !! 1
  = Some Fixtures.homeUntranslated.
Proof.
  etransitivity.
  - apply (importAsync_store_frame Fixtures.config Fixtures.acceptAll Fixtures.keepIds
             [Fixtures.homeEnglishItem; Fixtures.topicsItem] [] Fixtures.start 1).
    intros item [<-|[<-|[]]] Hkind; [discriminate | discriminate Hkind].
  - vm_compute. reflexivity.
Defined.

Lemma importAsync_reports_every_result_witness :
  exists rs w' reports,
    ImportService.importAsync Fixtures.config Fixtures.acceptAll Fixtures.keepIds
      Cases.mixedRun Fixtures.start = (Returned rs, w') /\
    processed w' = reports /\
    map Core.data reports = map Core.imported rs.
Proof.
  destruct (ImportService.importAsync Fixtures.config Fixtures.acceptAll Fixtures.keepIds
              Cases.mixedRun Fixtures.start) as [[rs|e] w'] eqn:E.
  - destruct (importAsync_reports_every_result Fixtures.config Fixtures.acceptAll
                Fixtures.keepIds
                [Fixtures.topicsItem; Fixtures.englishItem; Fixtures.articleItem] []
                rs Fixtures.start w' E) as (reports & Hprocessed & Hdata).
    exists rs, w', reports. split; [reflexivity|]. split; [exact Hprocessed | exact Hdata].
  - vm_compute in E. discriminate E.
Defined.

Lemma importAssetsAsync_rejections_witness :
  fst (ImportService.importAssetsAsync Fixtures.config Cases.refuseUploads [Fixtures.logo]
         [Fixtures.logoFile] Fixtures.start) = Threw (Rejected "upload refused") /\
  fst (ImportService.importAssetsAsync Fixtures.config Cases.refuseAssets [Fixtures.logo]
         [Fixtures.logoFile] Fixtures.start) = Threw (JsError "asset refused").
Proof.
  split.
  - destruct (importAssetsAsync_rejections Fixtures.config Cases.refuseUploads Fixtures.logo
                [Fixtures.logoFile] Fixtures.logoFile Fixtures.start eq_refl) as [Hupload _].
    rewrite (Hupload (Rejected "upload refused") eq_refl). reflexivity.
  - destruct (importAssetsAsync_rejections Fixtures.config Cases.refuseAssets Fixtures.logo
                [Fixtures.logoFile] Fixtures.logoFile Fixtures.start eq_refl) as [_ Hcreate].
    rewrite (Hcreate _ (Rejected "asset refused") eq_refl eq_refl). reflexivity.
Defined.

Lemma importAssetsAsync_first_match_witness :
  exists rest,
    calls (snd (ImportService.importAssetsAsync Fixtures.config Fixtures.acceptAll
                  [Fixtures.logo]
                  ([Cases.bannerFile] ++ Cases.logoRetouched :: [Fixtures.logoFile])
                  Fixtures.start))
    = calls Fixtures.start ++
      ManagementApi.UploadBinaryFile
        {| ManagementApi.binaryData := "PNG retouched";
           ManagementApi.contentType := "image/png";
           ManagementApi.filename := "logo.png" |} :: rest.
Proof.
  apply (importAssetsAsync_first_match Fixtures.config Fixtures.acceptAll Fixtures.logo
           [Cases.bannerFile] [Fixtures.logoFile] Cases.logoRetouched Fixtures.start).
  - intros m [<-|[]]. discriminate.
  - reflexivity.
Defined.

Lemma importItemAsync_language_unset_fallback_witness :
  ImportService.importItemAsync Fixtures.config Fixtures.acceptAll Fixtures.keepIds
    {| ImportModels.type := "language"; ImportModels.item := Core.languageContract Cases.german |}
    [] [] Fixtures.start
  = (Threw (JsError "Langauge 'German' has unset codename"), Fixtures.start) /\
  ImportService.importItemAsync Fixtures.configSkippingLanguages Fixtures.acceptAll
    Fixtures.keepIds
    {| ImportModels.type := "language"; ImportModels.item := Core.languageContract Cases.german |}
    [] [] Fixtures.start
  = (Returned [], Fixtures.start).
Proof.
  split.
  - apply (importItemAsync_language_unset_fallback Fixtures.config Fixtures.acceptAll
             Fixtures.keepIds Cases.german (Fixtures.byId "l1") [] [] Fixtures.start);
      reflexivity.
  - apply (importItemAsync_language_unset_fallback Fixtures.configSkippingLanguages
             Fixtures.acceptAll Fixtures.keepIds Cases.german (Fixtures.byId "l1") [] []
             Fixtures.start); reflexivity.
Defined.

Lemma cleanLanguageVariantsAsync_sweeps_witness :
  fst (CleanService.cleanLanguageVariantsAsync Cases.cleanConfig Cases.tidy "i1"
         Cases.untouched) = Threw (JsError "Missing language id for item 'i1'") /\
  Clean.calls (snd (CleanService.cleanLanguageVariantsAsync Cases.cleanConfig Cases.tidy "i1"
                      Cases.untouched))
  = [CleanApi.ListLanguageVariantsOfItem "i1"; CleanApi.DeleteLanguageVariant "i1" (Some "l1")].
Proof.
  destruct (cleanLanguageVariantsAsync_sweeps Cases.cleanConfig Cases.tidy "i1"
              [Cases.inEnglish; Cases.inNoLanguage; Cases.inGerman] Cases.untouched eq_refl)
    as [_ Hfaulty].
  apply (Hfaulty [Cases.inEnglish] Cases.inNoLanguage [Cases.inGerman]).
  - reflexivity.
  - repeat constructor.
  - reflexivity.
Defined.

Lemma cleanAllAsync_returns_witness :
  fst (CleanService.cleanAllAsync Cases.cleanConfig Cases.tidy 17 Cases.untouched)
  = Returned {| CleanModels.metadata :=
                  {| CleanModels.metadataProjectId := "project-1";
                     CleanModels.timestamp := 17 |} |}.
Proof.
  destruct (CleanService.cleanAllAsync Cases.cleanConfig Cases.tidy 17 Cases.untouched)
    as [[result|e] w'] eqn:E.
  - destruct (cleanAllAsync_returns Cases.cleanConfig Cases.tidy 17 Cases.untouched w' result E)
      as [-> _].
    reflexivity.
  - vm_compute in E. discriminate E.
Defined.

Lemma cleanAllAsync_throws_witness :
  exists history listing earlier,
    Clean.calls (snd (CleanService.cleanAllAsync Cases.cleanConfig Cases.lockedTaxonomies 17
                        Cases.untouched)) = history ++ [listing] /\
    In listing CleanSpec.listings /\
    CleanSpec.rejection Cases.lockedTaxonomies history listing = Some (Rejected "forbidden") /\
    Clean.console (snd (CleanService.cleanAllAsync Cases.cleanConfig Cases.lockedTaxonomies 17
                          Cases.untouched)) = earlier ++ [Rejected "forbidden"].
Proof.
  apply (cleanAllAsync_throws Cases.cleanConfig Cases.lockedTaxonomies 17 Cases.untouched).
  vm_compute. reflexivity.
Defined.

Lemma exportLanguageVariantsAsync_returns_witness :
  exists result w' listed,
    ExportService.exportLanguageVariantsAsync Archive.exportConfig Archive.shelves
      Archive.paint [Fixtures.home; Fixtures.about] [Fixtures.english; Fixtures.czech]
      Archive.blank = (Returned result, w') /\
    result = concat (map (map ExportModels._raw) listed) /\
    Exports.calls w'
      = [ExportApi.ListLanguageVariantsOfItem "i1"; ExportApi.ListLanguageVariantsOfItem "i3"].
Proof.
  destruct (ExportService.exportLanguageVariantsAsync Archive.exportConfig Archive.shelves
              Archive.paint [Fixtures.home; Fixtures.about] [Fixtures.english; Fixtures.czech]
              Archive.blank) as [[result|e] w'] eqn:E.
  - destruct (exportLanguageVariantsAsync_returns Archive.exportConfig Archive.shelves
                Archive.paint [Fixtures.home; Fixtures.about]
                [Fixtures.english; Fixtures.czech] Archive.blank w' result E)
      as (listed & _ & Hresult & Hcalls & _).
    exists result, w', listed. split; [reflexivity|]. split; [exact Hresult | exact Hcalls].
  - vm_compute in E. discriminate E.
Defined.

Lemma exportLanguageVariantsAsync_throws_witness :
  exists listed later,
    ExportSpec.answers Archive.tornShelves [] [Fixtures.home; Fixtures.about]
      = map inr listed ++ inl (Rejected "gone") :: later /\
    Exports.calls (snd (ExportService.exportLanguageVariantsAsync Archive.exportConfig
                          Archive.tornShelves Archive.paint [Fixtures.home; Fixtures.about]
                          [Fixtures.english] Archive.blank))
    = [] ++ ExportSpec.listings (take (S (length listed)) [Fixtures.home; Fixtures.about]).
Proof.
  apply (exportLanguageVariantsAsync_throws Archive.exportConfig Archive.tornShelves
           Archive.paint [Fixtures.home; Fixtures.about] [Fixtures.english] Archive.blank).
  - vm_compute. reflexivity.
  - intros onExport arg [= <-]. reflexivity.
Defined.
